(** * Bisect Sync: the Blender add-on's synchronisation core

    A shallow embedding of [bisect_sync_v2.py] (and of the functions of the
    older [bisect_sync.py] that differ from it) together with the properties
    of the wire protocol, the inbound dispatcher, the outbound rate gate and
    the echo guard.

    Layout:
    - Python numbers and JSON values, [json.dumps] and [json.loads];
    - the global [sync_state], the Blender scene and the interpreter's
      effects (mutation, exceptions, [print], the clock) as one monad;
    - the add-on's functions, in the order of the source file;
    - the theorems. *)

From Stdlib Require Import ZArith NArith QArith Qround Qpower Lia Lqa Ascii String List Bool.
From Stdlib Require Import DecimalString DecimalPos DecimalZ DecimalFacts.
From stdpp Require Import base option list gmap strings stringmap.

Local Open Scope Z_scope.

(* ====================================================================== *)
(** * Python floats *)
(* ====================================================================== *)

(** The add-on copies IEEE doubles between Blender and the wire and never
    computes with them.  They are kept abstract: a type with the interface
    the add-on and the [json] module use.  [float_repr] is Python's [repr],
    which [json.dumps] emits; [float_of_literal] is [float] applied to a JSON
    number token with a fraction or an exponent.  Python guarantees that
    [repr] of a finite double is such a token and reads back as the same
    double; the doubles that are not finite are written as three words, and
    the model has one NaN. *)

Definition is_digit (c : ascii) : bool :=
  (48 <=? nat_of_ascii c)%nat && (nat_of_ascii c <=? 57)%nat.

Fixpoint all_digits (s : string) : bool :=
  match s with
  | EmptyString => true
  | String c r => is_digit c && all_digits r
  end.

(** The digits at the front of [s], and what follows them. *)
Fixpoint span_digits (s : string) : string * string :=
  match s with
  | EmptyString => (EmptyString, EmptyString)
  | String c r =>
      if is_digit c
      then let '(d, t) := span_digits r in (String c d, t)
      else (EmptyString, s)
  end.

(** A single 0, or a digit other than 0 followed by digits. *)
Definition is_nat_literal (s : string) : bool :=
  match s with
  | EmptyString => false
  | String c r =>
      if Ascii.eqb c "0" then String.eqb r EmptyString
      else is_digit c && all_digits r
  end.

(** The integer tokens of JSON: an optional minus sign and a natural. *)
Definition is_int_literal (s : string) : bool :=
  match s with
  | String c r => if Ascii.eqb c "-" then is_nat_literal r else is_nat_literal s
  | EmptyString => false
  end.

(** An exponent (e or E, an optional sign, digits), or nothing. *)
Definition is_exponent_opt (s : string) : bool :=
  match s with
  | EmptyString => true
  | String c r =>
      (Ascii.eqb c "e" || Ascii.eqb c "E") &&
      match r with
      | String g r' =>
          if Ascii.eqb g "+" || Ascii.eqb g "-"
          then negb (String.eqb r' EmptyString) && all_digits r'
          else all_digits r
      | EmptyString => false
      end
  end.

(** An optional fraction (a dot and digits), then an optional exponent. *)
Definition is_frac_exp (s : string) : bool :=
  match s with
  | String c r =>
      if Ascii.eqb c "."
      then let '(d, t) := span_digits r in
           negb (String.eqb d EmptyString) && is_exponent_opt t
      else is_exponent_opt s
  | EmptyString => true
  end.

(** The number tokens of JSON: an integer part, then an optional fraction
    and an optional exponent. *)
Definition is_number_literal (s : string) : bool :=
  let body := match s with
              | String c r => if Ascii.eqb c "-" then r else s
              | EmptyString => s
              end in
  let '(d, t) := span_digits body in
  is_nat_literal d && is_frac_exp t.

Definition is_float_literal (s : string) : bool :=
  is_number_literal s && negb (is_int_literal s).

(** What [json.dumps] writes for a float: a number token that is not an
    integer, or one of the three words it has for the floats that are not
    finite. *)
Definition is_float_token (s : string) : bool :=
  is_float_literal s || String.eqb s "NaN" || String.eqb s "Infinity"
  || String.eqb s "-Infinity".

Class PyFloat := {
  float : Type;
  float_eq_dec :: EqDecision float;
  (** [float(n)] for a Python [int] *)
  float_of_Z : Z -> float;
  (** [x == 0.0], the one float that is false *)
  float_is_zero : float -> bool;
  (** [float.__repr__], with [NaN], [Infinity] and [-Infinity] for the
      floats that are not finite, as [json.dumps] writes them *)
  float_repr : float -> string;
  (** [float] of a token, the three words included *)
  float_of_literal : string -> float;
  float_repr_token : forall x, is_float_token (float_repr x) = true;
  float_of_repr : forall x, float_of_literal (float_repr x) = x;
}.

Section Bisect.
Context `{PF : PyFloat}.

(* ====================================================================== *)
(** * JSON values *)
(* ====================================================================== *)

(** What [json.loads] returns and [json.dumps] accepts: [None], [bool],
    [int], [float], [str], [list], and [dict] with [str] keys.  A [dict] is
    the list of its items in insertion order. *)
Unset Elimination Schemes.
Inductive json : Type :=
  | JNull
  | JBool (b : bool)
  | JInt (n : Z)
  | JFloat (x : float)
  | JStr (s : string)
  | JArr (l : list json)
  | JObj (kvs : list (string * json)).
Set Elimination Schemes.

(** [d.get(k)]: the value under [k], if any. *)
Fixpoint dict_lookup (k : string) (kvs : list (string * json)) : option json :=
  match kvs with
  | [] => None
  | (k', v) :: r => if String.eqb k k' then Some v else dict_lookup k r
  end.

(** [d[k] = v]: an existing key keeps its place. *)
Fixpoint dict_set (k : string) (v : json) (kvs : list (string * json))
  : list (string * json) :=
  match kvs with
  | [] => [(k, v)]
  | (k', v') :: r =>
      if String.eqb k k' then (k, v) :: r else (k', v') :: dict_set k v r
  end.

(** [dict(pairs)] *)
Definition dict_of_pairs (pairs : list (string * json)) : list (string * json) :=
  fold_left (fun d kv => dict_set (fst kv) (snd kv) d) pairs [].

(** Python's truth value of a JSON value, as [or] and [if] test it. *)
Definition truthy (v : json) : bool :=
  match v with
  | JNull => false
  | JBool b => b
  | JInt n => negb (n =? 0)
  | JFloat x => negb (float_is_zero x)
  | JStr s => negb (String.eqb s EmptyString)
  | JArr l => match l with [] => false | _ => true end
  | JObj kvs => match kvs with [] => false | _ => true end
  end.

(** ** [json.dumps] *)

Definition dquote : ascii := ascii_of_nat 34.
Definition backslash : ascii := ascii_of_nat 92.

(** A [str] is kept as its bytes in UTF-8, the form in which a frame
    travels and Blender keeps a name.  A byte that belongs to no UTF-8
    sequence stands for the lone surrogate U+DC00 + byte, as in Python's
    [surrogateescape].  A [str] with any other lone surrogate has no such
    form and is outside the model. *)

Definition byte_value (c : ascii) : N := N_of_ascii c.
Definition byte_of (n : N) : ascii := ascii_of_N n.

(** A continuation byte of a UTF-8 sequence, and its six bits. *)
Definition is_cont (c : ascii) : bool := (128 <=? byte_value c)%N && (byte_value c <? 192)%N.
Definition low6 (c : ascii) : N := (byte_value c - 128)%N.

(** The code point of a sequence of two, three and four bytes. *)
Definition code2 (b0 b1 : ascii) : N := ((byte_value b0 - 192) * 64 + low6 b1)%N.
Definition code3 (b0 b1 b2 : ascii) : N :=
  ((byte_value b0 - 224) * 4096 + low6 b1 * 64 + low6 b2)%N.
Definition code4 (b0 b1 b2 b3 : ascii) : N :=
  ((byte_value b0 - 240) * 262144 + low6 b1 * 4096 + low6 b2 * 64 + low6 b3)%N.

Definition is_high (u : N) : bool := (55296 <=? u)%N && (u <? 56320)%N.
Definition is_low (u : N) : bool := (56320 <=? u)%N && (u <? 57344)%N.
Definition is_surrogate (u : N) : bool := (55296 <=? u)%N && (u <? 57344)%N.

(** How many continuation bytes the UTF-8 sequence at the front of
    [String b0 r] has after [b0]; none when [b0] is ASCII or begins no
    sequence.  A sequence is in its shortest form, and is not of a
    surrogate nor of a code point beyond U+10FFFF. *)
Definition seq_len (b0 : ascii) (r : string) : nat :=
  let n := byte_value b0 in
  if (n <? 194)%N then 0%nat
  else
    match r with
    | String b1 r1 =>
        if negb (is_cont b1) then 0%nat
        else if (n <? 224)%N then 1%nat
        else
          match r1 with
          | String b2 r2 =>
              if negb (is_cont b2) then 0%nat
              else if (n <? 240)%N then
                if (2048 <=? code3 b0 b1 b2)%N && negb (is_surrogate (code3 b0 b1 b2))
                then 2%nat else 0%nat
              else
                match r2 with
                | String b3 _ =>
                    if is_cont b3 && (n <? 245)%N
                       && (65536 <=? code4 b0 b1 b2 b3)%N
                       && (code4 b0 b1 b2 b3 <? 1114112)%N
                    then 3%nat else 0%nat
                | EmptyString => 0%nat
                end
          | EmptyString => 0%nat
          end
    | EmptyString => 0%nat
    end.

(** The code point of a byte that stands alone. *)
Definition lone (b0 : ascii) : N :=
  if (byte_value b0 <? 128)%N then byte_value b0 else (56320 + byte_value b0)%N.

(** The code points of a [str]. *)
Fixpoint code_points (s : string) : list N :=
  match s with
  | EmptyString => []
  | String b0 r0 =>
      match seq_len b0 r0, r0 with
      | 1%nat, String b1 r1 => code2 b0 b1 :: code_points r1
      | 2%nat, String b1 (String b2 r2) => code3 b0 b1 b2 :: code_points r2
      | 3%nat, String b1 (String b2 (String b3 r3)) => code4 b0 b1 b2 b3 :: code_points r3
      | _, _ => lone b0 :: code_points r0
      end
  end.

(** The bytes of a code point, when it has a form. *)
Definition utf8 (u : N) : option string :=
  if (u <? 128)%N then Some (String (byte_of u) EmptyString)
  else if (u <? 2048)%N then
    Some (String (byte_of (192 + u / 64)) (String (byte_of (128 + u mod 64)) EmptyString))
  else if (u <? 65536)%N then
    if is_surrogate u then
      if (56448 <=? u)%N && (u <? 56576)%N
      then Some (String (byte_of (u - 56320)) EmptyString)
      else None
    else
      Some (String (byte_of (224 + u / 4096))
             (String (byte_of (128 + u / 64 mod 64))
                (String (byte_of (128 + u mod 64)) EmptyString)))
  else if (u <? 1114112)%N then
    Some (String (byte_of (240 + u / 262144))
           (String (byte_of (128 + u / 4096 mod 64))
              (String (byte_of (128 + u / 64 mod 64))
                 (String (byte_of (128 + u mod 64)) EmptyString))))
  else None.

Fixpoint utf8_all (l : list N) : option string :=
  match l with
  | [] => Some EmptyString
  | u :: r =>
      match utf8 u, utf8_all r with
      | Some a, Some b => Some (a +:+ b)
      | _, _ => None
      end
  end.

(** The [str] of a sequence of code points: the bytes that read back as
    the sequence, when there are such bytes. *)
Definition str_of_code_points (l : list N) : option string :=
  match utf8_all l with
  | Some s => if bool_decide (code_points s = l) then Some s else None
  | None => None
  end.

Definition hex_digit (n : N) : ascii :=
  if (n <? 10)%N then byte_of (48 + n) else byte_of (87 + n).

(** [\uXXXX], in lower case as [json.dumps] writes it. *)
Definition escape_u (u : N) : string :=
  String backslash
    (String "u"
       (String (hex_digit (u / 4096))
          (String (hex_digit (u / 256 mod 16))
             (String (hex_digit (u / 16 mod 16))
                (String (hex_digit (u mod 16)) EmptyString))))).

(** One code point as [ensure_ascii=True] writes it: the printable ASCII
    characters but the quote and the backslash stand for themselves, the
    rest is escaped, a code point beyond U+FFFF as the two surrogates of
    UTF-16. *)
Definition escape_code (u : N) : string :=
  if (u =? 34)%N then String backslash (String dquote EmptyString)
  else if (u =? 92)%N then String backslash (String backslash EmptyString)
  else if (u =? 10)%N then String backslash "n"
  else if (u =? 13)%N then String backslash "r"
  else if (u =? 9)%N then String backslash "t"
  else if (u =? 8)%N then String backslash "b"
  else if (u =? 12)%N then String backslash "f"
  else if (u <? 32)%N || (126 <? u)%N then
    if (u <? 65536)%N then escape_u u
    else escape_u (55296 + (u - 65536) / 1024) +:+ escape_u (56320 + (u - 65536) mod 1024)
  else String (byte_of u) EmptyString.

Fixpoint escape_codes (l : list N) : string :=
  match l with
  | [] => EmptyString
  | u :: r => escape_code u +:+ escape_codes r
  end.

Definition escape_string (s : string) : string := escape_codes (code_points s).

(** The sequence at the front of a string: its code point and the rest. *)
Definition first_code_point (b0 : ascii) (r0 : string) : N * string :=
  match seq_len b0 r0, r0 with
  | 1%nat, String b1 r1 => (code2 b0 b1, r1)
  | 2%nat, String b1 (String b2 r2) => (code3 b0 b1 b2, r2)
  | 3%nat, String b1 (String b2 (String b3 r3)) => (code4 b0 b1 b2 b3, r3)
  | _, _ => (lone b0, r0)
  end.

(** What [code_points] gives: no high surrogate, nothing beyond U+10FFFF. *)
Definition plain (u : N) : Prop := is_high u = false /\ (u < 1114112)%N.

Definition quote_string (s : string) : string :=
  String dquote (escape_string s +:+ String dquote EmptyString).

Definition string_of_Z (n : Z) : string := NilZero.string_of_int (Z.to_int n).

(** The separators are the defaults of [json.dumps]: a comma and a space
    between items, a colon and a space after a key. *)
Fixpoint dumps (v : json) : string :=
  match v with
  | JNull => "null"
  | JBool true => "true"
  | JBool false => "false"
  | JInt n => string_of_Z n
  | JFloat x => float_repr x
  | JStr s => quote_string s
  | JArr l =>
      let fix items (l : list json) : string :=
        match l with
        | [] => "]"
        | [v] => dumps v +:+ "]"
        | v :: r => dumps v +:+ ", " +:+ items r
        end in
      String "[" (items l)
  | JObj kvs =>
      let fix members (kvs : list (string * json)) : string :=
        match kvs with
        | [] => "}"
        | [(k, v)] => quote_string k +:+ ": " +:+ dumps v +:+ "}"
        | (k, v) :: r => quote_string k +:+ ": " +:+ dumps v +:+ ", " +:+ members r
        end in
      String "{" (members kvs)
  end.

(** The items of a list and of a dict as [dumps] writes them, the closing
    bracket included. *)
Fixpoint dumps_items (l : list json) : string :=
  match l with
  | [] => "]"
  | [v] => dumps v +:+ "]"
  | v :: r => dumps v +:+ ", " +:+ dumps_items r
  end.

Fixpoint dumps_members (kvs : list (string * json)) : string :=
  match kvs with
  | [] => "}"
  | [(k, v)] => quote_string k +:+ ": " +:+ dumps v +:+ "}"
  | (k, v) :: r => quote_string k +:+ ": " +:+ dumps v +:+ ", " +:+ dumps_members r
  end.

(** The values that Python holds: no [dict] has a key twice. *)
Fixpoint json_ok (v : json) : bool :=
  match v with
  | JArr l => forallb json_ok l
  | JObj kvs =>
      bool_decide (NoDup (map fst kvs)) &&
      forallb (fun kv => json_ok (snd kv)) kvs
  | _ => true
  end.

Fixpoint json_size (v : json) : nat :=
  match v with
  | JArr l => S (list_sum (map (fun v => S (json_size v)) l))
  | JObj kvs => S (list_sum (map (fun kv => S (json_size (snd kv))) kvs))
  | _ => 1%nat
  end.

(** Induction on a value, with the hypothesis on every item. *)
Section json_induction.
Variable P : json -> Prop.
Hypothesis Hnull : P JNull.
Hypothesis Hbool : forall b, P (JBool b).
Hypothesis Hint : forall n, P (JInt n).
Hypothesis Hfloat : forall x, P (JFloat x).
Hypothesis Hstr : forall s, P (JStr s).
Hypothesis Harr : forall l, Forall P l -> P (JArr l).
Hypothesis Hobj : forall kvs, Forall (fun kv => P (snd kv)) kvs -> P (JObj kvs).

Fixpoint json_ind (v : json) : P v :=
  match v with
  | JNull => Hnull
  | JBool b => Hbool b
  | JInt n => Hint n
  | JFloat x => Hfloat x
  | JStr s => Hstr s
  | JArr l =>
      Harr l ((fix all (l : list json) : Forall P l :=
                 match l with
                 | [] => @Stdlib.Lists.List.Forall_nil _ P
                 | v :: r => @Stdlib.Lists.List.Forall_cons _ P v r (json_ind v) (all r)
                 end) l)
  | JObj kvs =>
      Hobj kvs ((fix all (kvs : list (string * json))
                   : Forall (fun kv => P (snd kv)) kvs :=
                   match kvs with
                   | [] => @Stdlib.Lists.List.Forall_nil _ _
                   | kv :: r =>
                       @Stdlib.Lists.List.Forall_cons _ (fun kv => P (snd kv))
                         kv r (json_ind (snd kv)) (all r)
                   end) kvs)
  end.
End json_induction.

(** ** [json.loads] *)

Definition is_ws (c : ascii) : bool :=
  let n := nat_of_ascii c in
  (n =? 32)%nat || (n =? 9)%nat || (n =? 10)%nat || (n =? 13)%nat.

Fixpoint skip_ws (s : string) : string :=
  match s with
  | String c r => if is_ws c then skip_ws r else s
  | EmptyString => EmptyString
  end.

Definition hex_value (c : ascii) : option N :=
  let n := byte_value c in
  if (48 <=? n)%N && (n <=? 57)%N then Some (n - 48)%N
  else if (97 <=? n)%N && (n <=? 102)%N then Some (n - 87)%N
  else if (65 <=? n)%N && (n <=? 70)%N then Some (n - 55)%N
  else None.

(** The four hexadecimal digits of a [u] escape. *)
Definition unhex4 (h1 h2 h3 h4 : ascii) : option N :=
  match hex_value h1, hex_value h2, hex_value h3, hex_value h4 with
  | Some a, Some b, Some c, Some d => Some (a * 4096 + b * 256 + c * 16 + d)%N
  | _, _, _, _ => None
  end.

Definition unescape (e : ascii) : option ascii :=
  if Ascii.eqb e dquote then Some dquote
  else if Ascii.eqb e backslash then Some backslash
  else if Ascii.eqb e "/" then Some "/"%char
  else if Ascii.eqb e "b" then Some (ascii_of_nat 8)
  else if Ascii.eqb e "f" then Some (ascii_of_nat 12)
  else if Ascii.eqb e "n" then Some (ascii_of_nat 10)
  else if Ascii.eqb e "r" then Some (ascii_of_nat 13)
  else if Ascii.eqb e "t" then Some (ascii_of_nat 9)
  else None.

Definition cons_code (u : N) (p : option (list N * string))
  : option (list N * string) :=
  match p with
  | Some (l, r) => Some (u :: l, r)
  | None => None
  end.

(** The code points of a string up to its closing quote, the opening quote
    already read ([strict=True]: a raw control character is an error).  The
    escape of a high surrogate and the escape of a low surrogate that
    follows it are read as the one code point they encode in UTF-16. *)
Fixpoint scan_codes (s : string) : option (list N * string) :=
  match s with
  | EmptyString => None
  | String c r =>
      if Ascii.eqb c dquote then Some ([], r)
      else if Ascii.eqb c backslash then
        match r with
        | String e r1 =>
            match unescape e with
            | Some ch => cons_code (byte_value ch) (scan_codes r1)
            | None =>
                if Ascii.eqb e "u" then
                  match r1 with
                  | String h1 (String h2 (String h3 (String h4 r2))) =>
                      match unhex4 h1 h2 h3 h4 with
                      | Some u =>
                          if is_high u then
                            match r2 with
                            | String e1 (String e2
                                (String g1 (String g2 (String g3 (String g4 r3))))) =>
                                if Ascii.eqb e1 backslash && Ascii.eqb e2 "u" then
                                  match unhex4 g1 g2 g3 g4 with
                                  | Some v =>
                                      if is_low v
                                      then cons_code
                                             (65536 + (u - 55296) * 1024 + (v - 56320))%N
                                             (scan_codes r3)
                                      else cons_code u (scan_codes r2)
                                  | None => None
                                  end
                                else cons_code u (scan_codes r2)
                            | _ => cons_code u (scan_codes r2)
                            end
                          else cons_code u (scan_codes r2)
                      | None => None
                      end
                  | _ => None
                  end
                else None
            end
        | EmptyString => None
        end
      else if (byte_value c <? 32)%N then None
      else
        match seq_len c r, r with
        | 1%nat, String b1 r1 => cons_code (code2 c b1) (scan_codes r1)
        | 2%nat, String b1 (String b2 r2) => cons_code (code3 c b1 b2) (scan_codes r2)
        | 3%nat, String b1 (String b2 (String b3 r3)) =>
            cons_code (code4 c b1 b2 b3) (scan_codes r3)
        | _, _ => cons_code (lone c) (scan_codes r)
        end
  end.

(** The characters of a string up to its closing quote.  A text whose
    code points have no form as a [str] of the model, because of a lone
    surrogate, is refused. *)
Definition scanstring (s : string) : option (string * string) :=
  match scan_codes s with
  | Some (l, r) =>
      match str_of_code_points l with
      | Some str => Some (str, r)
      | None => None
      end
  | None => None
  end.

Definition is_number_char (c : ascii) : bool :=
  is_digit c || Ascii.eqb c "-" || Ascii.eqb c "+" || Ascii.eqb c "."
  || Ascii.eqb c "e" || Ascii.eqb c "E".

Fixpoint span_number (s : string) : string * string :=
  match s with
  | EmptyString => (EmptyString, EmptyString)
  | String c r =>
      if is_number_char c
      then let '(d, t) := span_number r in (String c d, t)
      else (EmptyString, s)
  end.

Fixpoint all_number_chars (s : string) : bool :=
  match s with
  | EmptyString => true
  | String c r => is_number_char c && all_number_chars r
  end.

(** What may follow a number token: the end of the text, or a character
    that is not of a number. *)
Definition ends_number (s : string) : bool :=
  match s with
  | EmptyString => true
  | String c _ => negb (is_number_char c)
  end.

Definition Z_of_literal (tok : string) : Z :=
  match NilZero.int_of_string tok with
  | Some d => Z.of_int d
  | None => 0
  end.

(** A number at the front of [s].  Python matches the number pattern at the
    position and fails later on what is left of a malformed token; here the
    whole run of number characters is taken and checked against the pattern,
    which accepts the same texts. *)
Definition scan_number (s : string) : option (json * string) :=
  let '(tok, r) := span_number s in
  if is_int_literal tok then Some (JInt (Z_of_literal tok), r)
  else if is_float_literal tok then Some (JFloat (float_of_literal tok), r)
  else None.

(** [s] without the prefix [p], when it has it. *)
Fixpoint strip_prefix (p s : string) : option string :=
  match p, s with
  | EmptyString, _ => Some s
  | String a p', String b s' => if Ascii.eqb a b then strip_prefix p' s' else None
  | String _ _, EmptyString => None
  end.

Definition scan_word (w : string) (v : json) (s : string) : option (json * string) :=
  match strip_prefix w s with
  | Some r => Some (v, r)
  | None => None
  end.

(** The recursive descent of [scan_once], [JSONArray] and [JSONObject].
    [fuel] bounds the nesting and the number of items, and [loads] gives as
    much as the text is long. *)
Fixpoint scan_once (fuel : nat) (s : string) : option (json * string) :=
  match fuel with
  | O => None
  | S n =>
      match s with
      | EmptyString => None
      | String c r =>
          if Ascii.eqb c dquote then
            match scanstring r with
            | Some (str, r') => Some (JStr str, r')
            | None => None
            end
          else if Ascii.eqb c "{" then
            match skip_ws r with
            | String c' r' =>
                if Ascii.eqb c' "}" then Some (JObj [], r')
                else match scan_members n (skip_ws r) with
                     | Some (pairs, r'') => Some (JObj (dict_of_pairs pairs), r'')
                     | None => None
                     end
            | EmptyString => None
            end
          else if Ascii.eqb c "[" then
            match skip_ws r with
            | String c' r' =>
                if Ascii.eqb c' "]" then Some (JArr [], r')
                else match scan_items n (skip_ws r) with
                     | Some (l, r'') => Some (JArr l, r'')
                     | None => None
                     end
            | EmptyString => None
            end
          else if Ascii.eqb c "n" then scan_word "null" JNull s
          else if Ascii.eqb c "t" then scan_word "true" (JBool true) s
          else if Ascii.eqb c "f" then scan_word "false" (JBool false) s
          else
            match scan_number s with
            | Some p => Some p
            | None =>
                if Ascii.eqb c "N" then scan_word "NaN" (JFloat (float_of_literal "NaN")) s
                else if Ascii.eqb c "I"
                then scan_word "Infinity" (JFloat (float_of_literal "Infinity")) s
                else if Ascii.eqb c "-"
                then scan_word "-Infinity" (JFloat (float_of_literal "-Infinity")) s
                else None
            end
      end
  end
with scan_items (fuel : nat) (s : string) : option (list json * string) :=
  match fuel with
  | O => None
  | S n =>
      match scan_once n s with
      | Some (v, r) =>
          match skip_ws r with
          | String c r' =>
              if Ascii.eqb c "," then
                match scan_items n (skip_ws r') with
                | Some (l, r'') => Some (v :: l, r'')
                | None => None
                end
              else if Ascii.eqb c "]" then Some ([v], r')
              else None
          | EmptyString => None
          end
      | None => None
      end
  end
with scan_members (fuel : nat) (s : string)
  : option (list (string * json) * string) :=
  match fuel with
  | O => None
  | S n =>
      match s with
      | String q r0 =>
          if Ascii.eqb q dquote then
            match scanstring r0 with
            | Some (k, r1) =>
                match skip_ws r1 with
                | String c r2 =>
                    if Ascii.eqb c ":" then
                      match scan_once n (skip_ws r2) with
                      | Some (v, r3) =>
                          match skip_ws r3 with
                          | String c' r4 =>
                              if Ascii.eqb c' "," then
                                match scan_members n (skip_ws r4) with
                                | Some (l, r5) => Some ((k, v) :: l, r5)
                                | None => None
                                end
                              else if Ascii.eqb c' "}" then Some ([(k, v)], r4)
                              else None
                          | EmptyString => None
                          end
                      | None => None
                      end
                    else None
                | EmptyString => None
                end
            | None => None
            end
          else None
      | EmptyString => None
      end
  end.

(** How a value may start: not with white space and not with a closing
    bracket. *)
Definition value_head (c : ascii) : bool :=
  negb (is_ws c) && negb (Ascii.eqb c "]") && negb (Ascii.eqb c "}").

(** [json.loads]: one value, white space around it, and nothing else.
    [None] stands for [JSONDecodeError]. *)
Definition loads (s : string) : option json :=
  let s' := skip_ws s in
  match scan_once (S (String.length s')) s' with
  | Some (v, r) =>
      match skip_ws r with
      | EmptyString => Some v
      | String _ _ => None
      end
  | None => None
  end.


(* ====================================================================== *)
(** * Python values the add-on handles *)
(* ====================================================================== *)

(** The exceptions the add-on can meet; all are subclasses of [Exception]. *)
Inductive exn : Type :=
  | JSONDecodeError
  | AttributeError
  | TypeError
  | ValueError
  | IndexError
  | KeyError
  | RuntimeError
  | WebSocketConnectionClosedException.

(** A line of standard output: the constant text of an f-string and the
    values formatted into it, or a caught exception. *)
Inductive output : Type :=
  | Print (text : string) (args : list json)
  | PrintError (text : string) (e : exn).

(** [v == s] for a string literal [s] *)
Definition is_str (v : json) (s : string) : bool :=
  match v with
  | JStr s' => String.eqb s' s
  | _ => false
  end.

(** [a or b] *)
Definition py_or (a b : json) : json := if truthy a then a else b.

(** A number where Blender wants a float: [int] and [bool] convert. *)
Definition as_float (v : json) : option float :=
  match v with
  | JFloat x => Some x
  | JInt n => Some (float_of_Z n)
  | JBool b => Some (float_of_Z (if b then 1 else 0))
  | _ => None
  end.

(** [str.upper].  The letters of ASCII are mapped, and so are the two
    letters outside ASCII whose capital is a letter of ASCII, the dotless i
    (U+0131, the bytes 196 and 177) and the long s (U+017F, the bytes 197
    and 191).  The other characters are left as they are: Python maps the
    other letters too, but none of them to a word the add-on compares the
    result with, so only the way such a word reads in a log line differs. *)
Definition upper_char (c : ascii) : ascii :=
  let n := nat_of_ascii c in
  if (97 <=? n)%nat && (n <=? 122)%nat then ascii_of_nat (n - 32) else c.

Fixpoint upper (s : string) : string :=
  match s with
  | EmptyString => EmptyString
  | String c r =>
      match r with
      | String d r' =>
          if (byte_value c =? 196)%N && (byte_value d =? 177)%N
          then String "I" (upper r')
          else if (byte_value c =? 197)%N && (byte_value d =? 191)%N
          then String "S" (upper r')
          else String (upper_char c) (upper r)
      | EmptyString => String (upper_char c) EmptyString
      end
  end.

(** The one-character strings of a string, as iterating it gives them: a
    character is a code point, of one to four bytes. *)
Fixpoint chars (s : string) : list json :=
  match s with
  | EmptyString => []
  | String b0 r0 =>
      match seq_len b0 r0, r0 with
      | 1%nat, String b1 r1 =>
          JStr (String b0 (String b1 EmptyString)) :: chars r1
      | 2%nat, String b1 (String b2 r2) =>
          JStr (String b0 (String b1 (String b2 EmptyString))) :: chars r2
      | 3%nat, String b1 (String b2 (String b3 r3)) =>
          JStr (String b0 (String b1 (String b2 (String b3 EmptyString)))) :: chars r3
      | _, _ => JStr (String b0 EmptyString) :: chars r0
      end
  end.

(** [len(s)]: the number of code points. *)
Definition str_len (s : string) : nat := length (code_points s).

(** [k in s]: the code points of [k] occur in a row in [s]. *)
Fixpoint is_prefix (a b : list N) : bool :=
  match a, b with
  | [], _ => true
  | x :: a', y :: b' => (x =? y)%N && is_prefix a' b'
  | _ :: _, [] => false
  end.

Fixpoint occurs (a b : list N) : bool :=
  is_prefix a b || match b with
                   | [] => false
                   | _ :: b' => occurs a b'
                   end.

Definition str_contains (k s : string) : bool :=
  occurs (code_points k) (code_points s).

(* ====================================================================== *)
(** * mathutils and the Blender scene *)
(* ====================================================================== *)

Record Vector : Type := mkVector { vec_x : float; vec_y : float; vec_z : float }.

(** [Quaternion((w, x, y, z))]: the constructor takes the scalar part
    first. *)
Record Quaternion : Type :=
  mkQuaternion { quat_w : float; quat_x : float; quat_y : float; quat_z : float }.

Record Euler : Type := mkEuler { eul_x : float; eul_y : float; eul_z : float }.

(** What the add-on asks of Blender without the model knowing how it is
    computed: the conversions between rotations ([exp_map] is
    [Quaternion(v)] for a sequence of three floats, the rotation with that
    exponential map), and the name an ID gets when it asks for [name] among
    the names [used] (the same name when it is free and within Blender's
    limit of 63 bytes, else a variant that is free). *)
Class Blender := {
  to_quaternion : Euler -> Quaternion;
  to_euler : Quaternion -> Euler;
  exp_map : Vector -> Quaternion;
  unique_name : string -> gset string -> string;
  unique_name_fresh : forall name used, unique_name name used ∉ used;
  unique_name_free :
    forall name used,
      name <> EmptyString -> (String.length name <= 63)%nat -> name ∉ used ->
      unique_name name used = name;
}.

Context `{BL : Blender}.

Record Modifier : Type := mkModifier {
  mod_type : string;
  mod_levels : Z;
  mod_width : float;
}.

(** The six operators [bpy.ops.mesh.primitive_*_add] the add-on calls, by
    the geometry they build. *)
Inductive Primitive : Type :=
  | PRIMITIVE_CUBE
  | PRIMITIVE_UV_SPHERE
  | PRIMITIVE_CYLINDER
  | PRIMITIVE_PLANE
  | PRIMITIVE_CONE
  | PRIMITIVE_TORUS.

(** A [bpy.types.Object] with the attributes the add-on reads or writes.
    [materials] are the material slots of [obj.data], by name; [data_type],
    [data_color], [data_energy] and [data_lens] are the attributes of the
    data of a light or a camera; [mesh_shape] is the geometry of the mesh
    in [obj.data], when it is that of a primitive: the add-on never edits
    the geometry of a mesh. *)
Record Object : Type := mkObject {
  type : string;
  location : Vector;
  rotation_mode : string;
  rotation_quaternion : Quaternion;
  rotation_euler : Euler;
  scale : Vector;
  parent : option string;
  visible : bool;
  selected : bool;
  obj_materials : list (option string);
  modifiers : list Modifier;
  shade_smooth : bool;
  data_type : string;
  data_color : list float;
  data_energy : float;
  data_lens : float;
  mesh_shape : option Primitive;
}.

(** The first node of type [BSDF_PRINCIPLED] of a node tree. *)
Record Principled : Type := mkPrincipled {
  base_color : list float;
  roughness : float;
  metallic : float;
}.

(** A [bpy.types.Material]: [principled] is the first principled node of
    its node tree, when it has a tree with one. *)
Record Material : Type := mkMaterial {
  use_nodes : bool;
  principled : option Principled;
  diffuse_color : list float;
}.

(** [bpy.data] and [bpy.context]; one scene holds all the objects. *)
Record BlendData : Type := mkBlendData {
  objects : gmap string Object;
  materials : gmap string Material;
  active_object : option string;
}.

(** One entry of [depsgraph.updates]. *)
Inductive ID : Type :=
  | IdObject (name : string)
  | IdOther (name : string).

Record DepsgraphUpdate : Type := mkUpdate {
  upd_id : ID;
  is_updated_transform : bool;
}.

(* ====================================================================== *)
(** * Global state *)
(* ====================================================================== *)

(** A [websocket.WebSocketApp]: whether its socket is connected, and the
    frames it has sent, the oldest first. *)
Record WebSocketApp : Type := mkWebSocketApp {
  sock_connected : bool;
  sent : list string;
}.

(** [class BisectSyncState].  [ws_thread] is whether the thread exists and
    is alive.  [sync_interval] never changes and is the constant below;
    [pending_transforms] is never used. *)
Record BisectSyncState : Type := mkState {
  ws : option WebSocketApp;
  connected : bool;
  session_id : string;
  client_id : json;
  message_queue : list string;
  ws_thread : bool;
  last_sync_time : Q;
  selected_objects : gset string;
  ignore_next_update : gset string;
}.

(** [sync_interval = 0.033].  Python keeps it and the clock as doubles;
    the model keeps time exact, as rationals, and the gate compares the
    numbers the doubles stand for. *)
Definition sync_interval : Q := 33 # 1000.

(** Everything a function of the add-on can read or change: the global
    state, Blender's data, the standard output, and the clock, which is the
    sequence of the values [time.time()] returns. *)
Record World : Type := mkWorld {
  sync_state : BisectSyncState;
  bpy : BlendData;
  stdout : list output;
  clock : nat -> Q;
  ticks : nat;
}.

Definition initial_state : BisectSyncState :=
  {| ws := None; connected := false; session_id := EmptyString;
     client_id := JStr EmptyString; message_queue := []; ws_thread := false;
     last_sync_time := 0; selected_objects := ∅; ignore_next_update := ∅ |}.

(** ** Field updates *)

Definition set_ws (x : option WebSocketApp) (s : BisectSyncState) : BisectSyncState :=
  mkState x (connected s) (session_id s) (client_id s) (message_queue s)
    (ws_thread s) (last_sync_time s) (selected_objects s) (ignore_next_update s).
Definition set_connected (x : bool) (s : BisectSyncState) : BisectSyncState :=
  mkState (ws s) x (session_id s) (client_id s) (message_queue s)
    (ws_thread s) (last_sync_time s) (selected_objects s) (ignore_next_update s).
Definition set_session_id (x : string) (s : BisectSyncState) : BisectSyncState :=
  mkState (ws s) (connected s) x (client_id s) (message_queue s)
    (ws_thread s) (last_sync_time s) (selected_objects s) (ignore_next_update s).
Definition set_client_id (x : json) (s : BisectSyncState) : BisectSyncState :=
  mkState (ws s) (connected s) (session_id s) x (message_queue s)
    (ws_thread s) (last_sync_time s) (selected_objects s) (ignore_next_update s).
Definition set_message_queue (x : list string) (s : BisectSyncState) : BisectSyncState :=
  mkState (ws s) (connected s) (session_id s) (client_id s) x
    (ws_thread s) (last_sync_time s) (selected_objects s) (ignore_next_update s).
Definition set_ws_thread (x : bool) (s : BisectSyncState) : BisectSyncState :=
  mkState (ws s) (connected s) (session_id s) (client_id s) (message_queue s)
    x (last_sync_time s) (selected_objects s) (ignore_next_update s).
Definition set_last_sync_time (x : Q) (s : BisectSyncState) : BisectSyncState :=
  mkState (ws s) (connected s) (session_id s) (client_id s) (message_queue s)
    (ws_thread s) x (selected_objects s) (ignore_next_update s).
Definition set_selected_objects (x : gset string) (s : BisectSyncState) : BisectSyncState :=
  mkState (ws s) (connected s) (session_id s) (client_id s) (message_queue s)
    (ws_thread s) (last_sync_time s) x (ignore_next_update s).
Definition set_ignore_next_update (x : gset string) (s : BisectSyncState) : BisectSyncState :=
  mkState (ws s) (connected s) (session_id s) (client_id s) (message_queue s)
    (ws_thread s) (last_sync_time s) (selected_objects s) x.

Definition set_objects (x : gmap string Object) (b : BlendData) : BlendData :=
  mkBlendData x (materials b) (active_object b).
Definition set_materials (x : gmap string Material) (b : BlendData) : BlendData :=
  mkBlendData (objects b) x (active_object b).
Definition set_active_object (x : option string) (b : BlendData) : BlendData :=
  mkBlendData (objects b) (materials b) x.

Definition set_location (x : Vector) (o : Object) : Object :=
  mkObject (type o) x (rotation_mode o) (rotation_quaternion o) (rotation_euler o)
    (scale o) (parent o) (visible o) (selected o) (obj_materials o) (modifiers o)
    (shade_smooth o) (data_type o) (data_color o) (data_energy o) (data_lens o) (mesh_shape o).
Definition set_rotation_quaternion (x : Quaternion) (o : Object) : Object :=
  mkObject (type o) (location o) (rotation_mode o) x (rotation_euler o)
    (scale o) (parent o) (visible o) (selected o) (obj_materials o) (modifiers o)
    (shade_smooth o) (data_type o) (data_color o) (data_energy o) (data_lens o) (mesh_shape o).
Definition set_rotation_euler (x : Euler) (o : Object) : Object :=
  mkObject (type o) (location o) (rotation_mode o) (rotation_quaternion o) x
    (scale o) (parent o) (visible o) (selected o) (obj_materials o) (modifiers o)
    (shade_smooth o) (data_type o) (data_color o) (data_energy o) (data_lens o) (mesh_shape o).
Definition set_scale (x : Vector) (o : Object) : Object :=
  mkObject (type o) (location o) (rotation_mode o) (rotation_quaternion o)
    (rotation_euler o) x (parent o) (visible o) (selected o) (obj_materials o)
    (modifiers o) (shade_smooth o) (data_type o) (data_color o) (data_energy o)
    (data_lens o) (mesh_shape o).
Definition set_selected (x : bool) (o : Object) : Object :=
  mkObject (type o) (location o) (rotation_mode o) (rotation_quaternion o)
    (rotation_euler o) (scale o) (parent o) (visible o) x (obj_materials o)
    (modifiers o) (shade_smooth o) (data_type o) (data_color o) (data_energy o)
    (data_lens o) (mesh_shape o).
Definition set_obj_materials (x : list (option string)) (o : Object) : Object :=
  mkObject (type o) (location o) (rotation_mode o) (rotation_quaternion o)
    (rotation_euler o) (scale o) (parent o) (visible o) (selected o) x
    (modifiers o) (shade_smooth o) (data_type o) (data_color o) (data_energy o)
    (data_lens o) (mesh_shape o).
Definition set_modifiers (x : list Modifier) (o : Object) : Object :=
  mkObject (type o) (location o) (rotation_mode o) (rotation_quaternion o)
    (rotation_euler o) (scale o) (parent o) (visible o) (selected o)
    (obj_materials o) x (shade_smooth o) (data_type o) (data_color o)
    (data_energy o) (data_lens o) (mesh_shape o).
Definition set_shade_smooth (x : bool) (o : Object) : Object :=
  mkObject (type o) (location o) (rotation_mode o) (rotation_quaternion o)
    (rotation_euler o) (scale o) (parent o) (visible o) (selected o)
    (obj_materials o) (modifiers o) x (data_type o) (data_color o)
    (data_energy o) (data_lens o) (mesh_shape o).

(* ====================================================================== *)
(** * The interpreter's effects *)
(* ====================================================================== *)

(** A computation changes the world and returns a value or raises; what it
    changed before raising stays changed. *)
Inductive result (A : Type) : Type :=
  | Ok (a : A)
  | Raise (e : exn).
#[global] Arguments Ok {A} a.
#[global] Arguments Raise {A} e.

Definition M (A : Type) : Type := World -> result A * World.

Definition ret {A : Type} (a : A) : M A := fun w => (Ok a, w).

Definition bind {A B : Type} (m : M A) (k : A -> M B) : M B :=
  fun w =>
    match m w with
    | (Ok a, w') => k a w'
    | (Raise e, w') => (Raise e, w')
    end.

Definition raise {A : Type} (e : exn) : M A := fun w => (Raise e, w).

(** [try: m except Exception as e: h e] *)
Definition try_except {A : Type} (m : M A) (h : exn -> M A) : M A :=
  fun w =>
    match m w with
    | (Ok a, w') => (Ok a, w')
    | (Raise e, w') => h e w'
    end.

Notation "x <- m ;;; k" := (bind m (fun x => k))
  (at level 20, m at level 100, k at level 200, only parsing).
Notation "m >>> k" := (bind m (fun _ => k))
  (at level 100, k at level 200, only parsing, right associativity).

(** The world after one change. *)
Definition upd_state (f : BisectSyncState -> BisectSyncState) (w : World) : World :=
  mkWorld (f (sync_state w)) (bpy w) (stdout w) (clock w) (ticks w).
Definition upd_bpy (f : BlendData -> BlendData) (w : World) : World :=
  mkWorld (sync_state w) (f (bpy w)) (stdout w) (clock w) (ticks w).
Definition printed (o : output) (w : World) : World :=
  mkWorld (sync_state w) (bpy w) (stdout w ++ [o]) (clock w) (ticks w).
Definition tick (w : World) : World :=
  mkWorld (sync_state w) (bpy w) (stdout w) (clock w) (S (ticks w)).

(** The time the next call of [time.time()] returns. *)
Definition now (w : World) : Q := clock w (ticks w).

Definition get_state : M BisectSyncState := fun w => (Ok (sync_state w), w).
Definition modify_state (f : BisectSyncState -> BisectSyncState) : M unit :=
  fun w => (Ok tt, upd_state f w).
Definition get_bpy : M BlendData := fun w => (Ok (bpy w), w).
Definition modify_bpy (f : BlendData -> BlendData) : M unit :=
  fun w => (Ok tt, upd_bpy f w).

(** [print] *)
Definition print (o : output) : M unit := fun w => (Ok tt, printed o w).

(** [time.time()] *)
Definition time_time : M Q := fun w => (Ok (now w), tick w).

(** ** Doubles

    [time.time()] returns a double, and [t * 1000] is a product of doubles:
    the double nearest to the exact product, a tie going to the even
    significand.  A number is kept as the rational it stands for.  The
    doubles have 53 bits of significand and exponents from -1074 on; a
    product beyond the largest double, which the time since 1970 in seconds
    does not come near, is not modelled. *)

(** Two to the power [e], for any integer [e]. *)
Definition pow2 (e : Z) : Q := (2 ^ e)%Q.

(** The integer [k] with [2^k <= q < 2^(k+1)], for a positive [q]. *)
Definition binade (q : Q) : Z :=
  let k := Z.log2 (Qnum q) - Z.log2 (Z.pos (Qden q)) in
  if Qle_bool (pow2 k) q then k else k - 1.

(** The nearest integer, a tie going to the even one. *)
Definition round_half_even (q : Q) : Z :=
  let f := Qfloor q in
  match (q - inject_Z f ?= 1 # 2)%Q with
  | Lt => f
  | Gt => f + 1
  | Eq => if Z.even f then f else f + 1
  end.

(** The exponent of the last place of the double nearest to a positive
    [q]. *)
Definition exponent (q : Q) : Z := Z.max (binade q - 52) (-1074).

(** The double nearest to a positive [q]: its significand is [q] in units
    of the last place, rounded. *)
Definition double_pos (q : Q) : Q :=
  (inject_Z (round_half_even (q / pow2 (exponent q))) * pow2 (exponent q))%Q.

(** The double nearest to [q]; rounding is symmetric about zero. *)
Definition double_of (q : Q) : Q :=
  match (q ?= 0)%Q with
  | Eq => 0%Q
  | Gt => double_pos q
  | Lt => (- double_pos (- q))%Q
  end.

(** [int(x)]: towards zero. *)
Definition trunc (q : Q) : Z := Z.quot (Qnum q) (Z.pos (Qden q)).

(** [int(t * 1000)] *)
Definition millis (t : Q) : Z := trunc (double_of (t * 1000)).

(** [ws.send(frame)] *)
Definition ws_send (frame : string) : M unit :=
  s <- get_state ;;;
  match ws s with
  | Some app =>
      if sock_connected app
      then modify_state (set_ws (Some (mkWebSocketApp true (sent app ++ [frame]))))
      else raise WebSocketConnectionClosedException
  | None => raise AttributeError
  end.

(** [ws.close()] *)
Definition ws_close : M unit :=
  s <- get_state ;;;
  match ws s with
  | Some app => modify_state (set_ws (Some (mkWebSocketApp false (sent app))))
  | None => ret tt
  end.

(** [d.get(k, default)]; only a [dict] has [get]. *)
Definition py_get (d : json) (k : string) (default : json) : M json :=
  match d with
  | JObj kvs => ret (match dict_lookup k kvs with Some v => v | None => default end)
  | _ => raise AttributeError
  end.

(** [bpy.data.objects.get(key)]: the key must be a string. *)
Definition objects_get (key : json) : M (option (string * Object)) :=
  match key with
  | JStr name =>
      b <- get_bpy ;;;
      ret (match objects b !! name with Some o => Some (name, o) | None => None end)
  | _ => raise TypeError
  end.

Definition materials_get (key : json) : M (option (string * Material)) :=
  match key with
  | JStr name =>
      b <- get_bpy ;;;
      ret (match materials b !! name with Some m => Some (name, m) | None => None end)
  | _ => raise TypeError
  end.

(** Writing an attribute of the object called [name]. *)
Definition update_object (name : string) (f : Object -> Object) : M unit :=
  modify_bpy (fun b => set_objects (alter f name (objects b)) b).

(** [Vector(v)] assigned to a three-dimensional attribute. *)
Definition as_vector (v : json) : M Vector :=
  match v with
  | JArr [a; b; c] =>
      match as_float a, as_float b, as_float c with
      | Some x, Some y, Some z => ret (mkVector x y z)
      | _, _, _ => raise TypeError
      end
  | JArr _ => raise ValueError
  | _ => raise TypeError
  end.

(** [seq[i]] read as a float. *)
Definition index_float (v : json) (i : nat) : M float :=
  match v with
  | JArr l =>
      match l !! i with
      | Some a => match as_float a with Some x => ret x | None => raise TypeError end
      | None => raise IndexError
      end
  | JStr s => if (i <? str_len s)%nat then raise TypeError else raise IndexError
  | JObj _ => raise KeyError
  | _ => raise TypeError
  end.

Definition json_of_vector (v : Vector) : json :=
  JArr [JFloat (vec_x v); JFloat (vec_y v); JFloat (vec_z v)].

(** More of Python's operations on JSON values. *)

(** [k in d] *)
Definition py_contains (d : json) (k : string) : M bool :=
  match d with
  | JObj kvs => ret (match dict_lookup k kvs with Some _ => true | None => false end)
  | JArr l => ret (existsb (fun v => is_str v k) l)
  | JStr s => ret (str_contains k s)
  | _ => raise TypeError
  end.

(** [d[k]] for a string [k] that [d] has; nothing but a [dict] takes a
    string as subscript. *)
Definition py_getitem (d : json) (k : string) : M json :=
  match d with
  | JObj kvs => match dict_lookup k kvs with Some v => ret v | None => raise KeyError end
  | _ => raise TypeError
  end.

(** The first three items of [color] and [1.0], assigned to a colour of
    four floats. *)
Definition as_color (v : json) : M (list float) :=
  match v with
  | JArr l =>
      match take 3 l with
      | [a; b; c] =>
          match as_float a, as_float b, as_float c with
          | Some x, Some y, Some z => ret [x; y; z; float_of_literal "1.0"]
          | _, _, _ => raise TypeError
          end
      | _ => raise ValueError
      end
  | _ => raise TypeError
  end.

(** A value assigned to a float property. *)
Definition as_float_value (v : json) : M float :=
  match as_float v with
  | Some x => ret x
  | None => raise TypeError
  end.

(** [for x in l: f x] *)
Fixpoint for_each {A : Type} (l : list A) (f : A -> M unit) : M unit :=
  match l with
  | [] => ret tt
  | x :: r => f x >>> for_each r f
  end.

(* ====================================================================== *)
(** * bisect_sync_v2.py *)
(* ====================================================================== *)

(** ** Message types *)

Definition JOIN : string := "join".
Definition LEAVE : string := "leave".
Definition PING : string := "ping".
Definition PONG : string := "pong".
Definition SCENE_STATE : string := "scene_state".
Definition SCENE_REQUEST : string := "scene_request".
Definition OBJECT_ADD : string := "object_add".
Definition OBJECT_DELETE : string := "object_delete".
Definition OBJECT_SELECT : string := "object_select".
Definition OBJECT_RENAME : string := "object_rename".
Definition TRANSFORM : string := "transform".
Definition TRANSFORM_BATCH : string := "transform_batch".
Definition MATERIAL_ASSIGN : string := "material_assign".
Definition MATERIAL_UPDATE : string := "material_update".
Definition MATERIAL_CREATE : string := "material_create".
Definition HIERARCHY_UPDATE : string := "hierarchy_update".
Definition AI_COMMAND : string := "ai_command".
Definition AI_RESPONSE : string := "ai_response".
Definition AI_EXECUTE : string := "ai_execute".
Definition AI_VISION_REQUEST : string := "ai_vision_request".
Definition AI_VISION_RESPONSE : string := "ai_vision_response".
Definition SMART_EDIT : string := "smart_edit".
Definition SMART_EDIT_RESULT : string := "smart_edit_result".
Definition ERROR : string := "error".

(** ** Message helpers *)

(** The [dict] that [create_message] serialises. *)
Definition envelope (msg_type sid : string) (timestamp : Z) (payload : json) : json :=
  JObj [("type", JStr msg_type); ("sessionId", JStr sid);
        ("timestamp", JInt timestamp); ("payload", payload)].

(** [session_id or sync_state.session_id] *)
Definition session_or (sid : option string) (s : BisectSyncState) : string :=
  match sid with
  | Some x => if String.eqb x EmptyString then session_id s else x
  | None => session_id s
  end.

(** [payload or {}] *)
Definition payload_or (payload : option json) : json :=
  match payload with
  | Some p => py_or p (JObj [])
  | None => JObj []
  end.

Definition create_message (msg_type : string) (payload : option json)
  (sid : option string) : M string :=
  s <- get_state ;;;
  now <- time_time ;;;
  ret (dumps (envelope msg_type (session_or sid s) (millis now) (payload_or payload))).

Definition object_rotation (o : Object) : Quaternion :=
  if String.eqb (rotation_mode o) "QUATERNION"
  then rotation_quaternion o
  else to_quaternion (rotation_euler o).

Definition get_object_transform (o : Object) : list (string * json) :=
  let rot := object_rotation o in
  [("position", json_of_vector (location o));
   ("rotation", JArr [JFloat (quat_x rot); JFloat (quat_y rot);
                      JFloat (quat_z rot); JFloat (quat_w rot)]);
   ("scale", json_of_vector (scale o))].

Definition json_of_option_string (o : option string) : json :=
  match o with
  | Some s => JStr s
  | None => JNull
  end.

Definition get_object_data (b : BlendData) (name : string) (o : Object) : json :=
  let transform := get_object_transform o in
  let get k := match dict_lookup k transform with Some v => v | None => JNull end in
  let data :=
    [("id", JStr name); ("name", JStr name); ("type", JStr (type o));
     ("position", get "position"); ("rotation", get "rotation");
     ("scale", get "scale"); ("parent", json_of_option_string (parent o));
     ("visible", JBool (visible o))] in
  if String.eqb (type o) "MESH" then
    match obj_materials o with
    | Some mat_name :: _ =>
        match materials b !! mat_name with
        | Some mat =>
            JObj (dict_set "material"
                    (JObj [("name", JStr mat_name);
                           ("color", JArr (map JFloat (take 3 (diffuse_color mat))))])
                    data)
        | None => JObj data
        end
    | _ => JObj data
    end
  else JObj data.

(** ** WebSocket thread *)

Definition on_message (message : string) : M unit :=
  modify_state (fun s => set_message_queue (message_queue s ++ [message]) s).

Definition on_error (e : exn) : M unit :=
  print (PrintError "Error" e) >>>
  modify_state (set_connected false).

Definition on_close : M unit :=
  print (Print "Connection closed" []) >>>
  modify_state (set_connected false).

(** [session_id] is the argument of [ws_thread_func]. *)
Definition on_open (sid : string) : M unit :=
  print (Print "Connected to unified bridge" []) >>>
  modify_state (set_connected true) >>>
  message <- create_message JOIN
               (Some (JObj [("sessionId", JStr sid); ("clientType", JStr "blender")]))
               None ;;;
  ws_send message.

(** The first statement of [ws_thread_func]: a new [WebSocketApp], not yet
    connected. *)
Definition ws_thread_func : M unit :=
  modify_state (set_ws (Some (mkWebSocketApp false []))).

(** The thread body runs with the call; the callbacks come later, as the
    library makes them. *)
Definition start_connection (sid : string) : M bool :=
  s <- get_state ;;;
  if ws_thread s then ret false
  else
    modify_state (set_session_id sid) >>>
    modify_state (set_ws_thread true) >>>
    ws_thread_func >>>
    ret true.

Definition stop_connection : M unit :=
  ws_close >>>
  modify_state (set_connected false) >>>
  modify_state (set_session_id EmptyString) >>>
  modify_state (set_client_id (JStr EmptyString)).

(** ** Send functions *)

Definition send_message (msg_type : string) (payload : json) : M bool :=
  s <- get_state ;;;
  if negb (connected s) || negb (bool_decide (is_Some (ws s))) then ret false
  else
    try_except
      (message <- create_message msg_type (Some payload) None ;;;
       ws_send message >>>
       ret true)
      (fun e => print (PrintError "Send error" e) >>> ret false).

Definition transform_payload (name : string) (o : Object) : json :=
  JObj (("objectId", JStr name) :: get_object_transform o).

Definition send_transform (name : string) (o : Object) : M unit :=
  send_message TRANSFORM (transform_payload name o) >>> ret tt.

Definition send_selection (object_names : list string) : M unit :=
  send_message OBJECT_SELECT (JObj [("objectIds", JArr (map JStr object_names))]) >>>
  ret tt.

Definition light_data (name : string) (o : Object) : json :=
  JObj ([("id", JStr name); ("name", JStr name); ("type", JStr (data_type o));
         ("color", JArr (map JFloat (data_color o)));
         ("energy", JFloat (data_energy o))] ++ get_object_transform o).

Definition camera_data (name : string) (o : Object) : json :=
  JObj ([("id", JStr name); ("name", JStr name); ("lens", JFloat (data_lens o))]
        ++ get_object_transform o).

Definition material_data (name : string) (m : Material) : json :=
  let base := [("id", JStr name); ("name", JStr name)] in
  if use_nodes m then
    match principled m with
    | Some p =>
        JObj (base ++ [("color", JArr (map JFloat (take 3 (base_color p))));
                       ("roughness", JFloat (roughness p));
                       ("metalness", JFloat (metallic p))])
    | None => JObj base
    end
  else JObj base.

Definition objects_of_type (b : BlendData) (t : string) : list (string * Object) :=
  filter (fun no => String.eqb (type (snd no)) t = true) (map_to_list (objects b)).

Definition selected_names (b : BlendData) : list string :=
  map fst (filter (fun no => selected (snd no) = true) (map_to_list (objects b))).

(** The objects are taken in the order of [map_to_list]; Blender's own order
    is not modelled. *)
Definition send_scene_state : M unit :=
  s <- get_state ;;;
  if negb (connected s) then ret tt
  else
    b <- get_bpy ;;;
    let objs := map (fun no => get_object_data b (fst no) (snd no)) (objects_of_type b "MESH") in
    let lights := map (fun no => light_data (fst no) (snd no)) (objects_of_type b "LIGHT") in
    let cameras := map (fun no => camera_data (fst no) (snd no)) (objects_of_type b "CAMERA") in
    let mats := map (fun nm => material_data (fst nm) (snd nm)) (map_to_list (materials b)) in
    let selection := map JStr (selected_names b) in
    send_message SCENE_STATE
      (JObj [("objects", JArr objs); ("materials", JArr mats);
             ("lights", JArr lights); ("cameras", JArr cameras);
             ("selection", JArr selection)]) >>>
    print (Print "Sent scene state"
             [JInt (Z.of_nat (length objs)); JInt (Z.of_nat (length mats))]).

(** ** Receive handlers *)

(** [Quaternion((rotation[3], rotation[0], rotation[1], rotation[2]))] *)
Definition quaternion_of_xyzw (rotation : json) : M Quaternion :=
  w <- index_float rotation 3 ;;;
  x <- index_float rotation 0 ;;;
  y <- index_float rotation 1 ;;;
  z <- index_float rotation 2 ;;;
  ret (mkQuaternion w x y z).

Definition apply_transform (obj_name position rotation scale_ : json) : M unit :=
  obj <- objects_get obj_name ;;;
  match obj with
  | None => ret tt
  | Some (name, o) =>
      modify_state (fun s => set_ignore_next_update ({[name]} ∪ ignore_next_update s) s) >>>
      loc <- as_vector position ;;;
      update_object name (set_location loc) >>>
      (if String.eqb (rotation_mode o) "QUATERNION" then
         q <- quaternion_of_xyzw rotation ;;;
         update_object name (set_rotation_quaternion q)
       else
         q <- quaternion_of_xyzw rotation ;;;
         update_object name (set_rotation_euler (to_euler q))) >>>
      sc <- as_vector scale_ ;;;
      update_object name (set_scale sc)
  end.

Definition default_principled : Principled :=
  mkPrincipled [float_of_literal "0.8"; float_of_literal "0.8";
                float_of_literal "0.8"; float_of_literal "1.0"]
    (float_of_literal "0.5") (float_of_literal "0.0").

(** [bpy.data.materials.new] followed by [use_nodes = True]. *)
Definition new_material : Material :=
  mkMaterial true (Some default_principled)
    [float_of_literal "0.8"; float_of_literal "0.8";
     float_of_literal "0.8"; float_of_literal "1.0"].

Definition update_material (name : string) (f : Material -> Material) : M unit :=
  modify_bpy (fun b => set_materials (alter f name (materials b)) b).

Definition update_node (name : string) (f : Principled -> Principled) : M unit :=
  update_material name
    (fun m => mkMaterial (use_nodes m) (option_map f (principled m)) (diffuse_color m)).

(** The body of the loop over the nodes, for the first principled node. *)
Definition update_principled (mat_name : string) (props : json) : M unit :=
  has_color <- py_contains props "color" ;;;
  (if has_color then
     color <- py_getitem props "color" ;;;
     c <- as_color color ;;;
     update_node mat_name (fun p => mkPrincipled c (roughness p) (metallic p))
   else ret tt) >>>
  has_roughness <- py_contains props "roughness" ;;;
  (if has_roughness then
     v <- py_getitem props "roughness" ;;;
     x <- as_float_value v ;;;
     update_node mat_name (fun p => mkPrincipled (base_color p) x (metallic p))
   else ret tt) >>>
  has_metalness <- py_contains props "metalness" ;;;
  (if has_metalness then
     v <- py_getitem props "metalness" ;;;
     x <- as_float_value v ;;;
     update_node mat_name (fun p => mkPrincipled (base_color p) (roughness p) x)
   else ret tt).

Definition apply_material (obj_name material : json) : M unit :=
  obj <- objects_get obj_name ;;;
  match obj with
  | None => ret tt
  | Some (name, o) =>
      if negb (String.eqb (type o) "MESH") then ret tt
      else
        mat_name <- py_get material "name" (JStr "BisectMaterial") ;;;
        found <- materials_get mat_name ;;;
        mname <- match found, mat_name with
                 | Some (n, _), _ => ret n
                 | None, JStr n =>
                     b <- get_bpy ;;;
                     let n' := unique_name n (dom (materials b)) in
                     modify_bpy (fun b => set_materials (<[n' := new_material]> (materials b)) b) >>>
                     ret n'
                 | None, _ => raise TypeError
                 end ;;;
        b <- get_bpy ;;;
        (match materials b !! mname with
         | Some m =>
             if use_nodes m then
               match principled m with
               | Some _ => update_principled mname material
               | None => ret tt
               end
             else ret tt
         | None => ret tt
         end) >>>
        update_object name
          (fun o => set_obj_materials
                      (match obj_materials o with
                       | [] => [Some mname]
                       | _ :: r => Some mname :: r
                       end) o) >>>
        print (Print "Applied material" [JStr mname; JStr name])
  end.

(** ** The command executor *)

Definition identity_quaternion : Quaternion :=
  mkQuaternion (float_of_Z 1) (float_of_Z 0) (float_of_Z 0) (float_of_Z 0).

(** The name Blender gives the object of a primitive. *)
Definition primitive_name (p : Primitive) : string :=
  match p with
  | PRIMITIVE_CUBE => "Cube"
  | PRIMITIVE_UV_SPHERE => "Sphere"
  | PRIMITIVE_CYLINDER => "Cylinder"
  | PRIMITIVE_PLANE => "Plane"
  | PRIMITIVE_CONE => "Cone"
  | PRIMITIVE_TORUS => "Torus"
  end.

(** The object a [primitive_*_add] operator creates: a mesh with the
    geometry of the primitive [p], not rotated and not scaled. *)
Definition new_mesh (p : Primitive) (loc : Vector) : Object :=
  mkObject "MESH" loc "XYZ" identity_quaternion
    (mkEuler (float_of_Z 0) (float_of_Z 0) (float_of_Z 0))
    (mkVector (float_of_Z 1) (float_of_Z 1) (float_of_Z 1))
    None true true [] [] false EmptyString [] (float_of_Z 0) (float_of_Z 0)
    (Some p).

(** [bpy.ops.mesh.primitive_*_add(location=location)] for the primitive
    [p]: the other objects are deselected, the new one is selected and
    active, under the name of the primitive or a variant of it that is
    free. *)
Definition primitive_add (p : Primitive) (location_ : json) : M unit :=
  loc <- as_vector location_ ;;;
  b <- get_bpy ;;;
  let name := unique_name (primitive_name p) (dom (objects b)) in
  modify_bpy (fun b =>
    set_active_object (Some name)
      (set_objects (<[name := new_mesh p loc]> (set_selected false <$> objects b)) b)).

Definition rename_parent (old new : string) (o : Object) : Object :=
  mkObject (type o) (location o) (rotation_mode o) (rotation_quaternion o)
    (rotation_euler o) (scale o)
    (match parent o with
     | Some p => if String.eqb p old then Some new else Some p
     | None => None
     end)
    (visible o) (selected o) (obj_materials o) (modifiers o) (shade_smooth o)
    (data_type o) (data_color o) (data_energy o) (data_lens o) (mesh_shape o).

(** [obj.name = name]: the object gets the name, or a variant of it when
    another object has it; its children follow it. *)
Definition rename_object (old : string) (name : json) : M unit :=
  match name with
  | JStr n =>
      b <- get_bpy ;;;
      match objects b !! old with
      | Some o =>
          let n' := unique_name n (dom (objects b) ∖ {[old]}) in
          modify_bpy (fun b =>
            set_active_object
              (match active_object b with
               | Some a => if String.eqb a old then Some n' else Some a
               | None => None
               end)
              (set_objects
                 (rename_parent old n' <$> <[n' := o]> (delete old (objects b))) b))
      | None => ret tt
      end
  | _ => raise TypeError
  end.

Definition clear_parent (name : string) (o : Object) : Object :=
  mkObject (type o) (location o) (rotation_mode o) (rotation_quaternion o)
    (rotation_euler o) (scale o)
    (match parent o with
     | Some p => if String.eqb p name then None else Some p
     | None => None
     end)
    (visible o) (selected o) (obj_materials o) (modifiers o) (shade_smooth o)
    (data_type o) (data_color o) (data_energy o) (data_lens o) (mesh_shape o).

(** [bpy.data.objects.remove(obj, do_unlink=True)] *)
Definition remove_object (name : string) : M unit :=
  modify_bpy (fun b =>
    set_active_object
      (match active_object b with
       | Some a => if String.eqb a name then None else Some a
       | None => None
       end)
      (set_objects (clear_parent name <$> delete name (objects b)) b)).

(** [s.upper()] for a value that has to be a string. *)
Definition py_upper (v : json) : M string :=
  match v with
  | JStr s => ret (upper s)
  | _ => raise AttributeError
  end.

(** [bpy.ops.object.modifier_add(type=t)]: the active object gets the
    modifier; without an active object the operator refuses to run. *)
Definition modifier_add (t : string) : M unit :=
  b <- get_bpy ;;;
  match active_object b with
  | Some a =>
      update_object a
        (fun o => set_modifiers
                    (modifiers o ++ [mkModifier t 1 (float_of_literal "0.1")]) o)
  | None => raise RuntimeError
  end.

(** [obj.modifiers[-1].attr = v] for the attribute of the kind [t] of
    modifier. *)
Definition set_last_modifier (name t : string) (f : Modifier -> Modifier) : M unit :=
  b <- get_bpy ;;;
  match objects b !! name with
  | Some o =>
      match last (modifiers o) with
      | Some m =>
          if String.eqb (mod_type m) t
          then update_object name
                 (fun o => set_modifiers
                             (take (length (modifiers o) - 1) (modifiers o) ++ [f m]) o)
          else raise AttributeError
      | None => raise IndexError
      end
  | None => raise IndexError
  end.

Definition as_int (v : json) : M Z :=
  match v with
  | JInt n => ret n
  | JBool b => ret (if b then 1 else 0)
  | _ => raise TypeError
  end.

Definition handle_ai_execute (payload : json) : M unit :=
  action <- py_get payload "action" JNull ;;;
  params <- py_get payload "params" (JObj []) ;;;
  print (Print "AI Execute" [action]) >>>
  if is_str action "create_object" then
    t <- py_get params "type" (JStr "CUBE") ;;;
    obj_type <- py_upper t ;;;
    name <- py_get params "name" (JStr "AI_Object") ;;;
    location_ <- py_get params "position" (JArr [JInt 0; JInt 0; JInt 0]) ;;;
    (if String.eqb obj_type "CUBE" then primitive_add PRIMITIVE_CUBE location_
     else if String.eqb obj_type "SPHERE" then primitive_add PRIMITIVE_UV_SPHERE location_
     else if String.eqb obj_type "CYLINDER" then primitive_add PRIMITIVE_CYLINDER location_
     else if String.eqb obj_type "PLANE" then primitive_add PRIMITIVE_PLANE location_
     else if String.eqb obj_type "CONE" then primitive_add PRIMITIVE_CONE location_
     else if String.eqb obj_type "TORUS" then primitive_add PRIMITIVE_TORUS location_
     else ret tt) >>>
    b <- get_bpy ;;;
    match active_object b with
    | Some a =>
        rename_object a name >>>
        print (Print "Created" [JStr obj_type; name]) >>>
        b' <- get_bpy ;;;
        match active_object b' with
        | Some a' =>
            match objects b' !! a' with
            | Some o => send_message OBJECT_ADD (get_object_data b' a' o) >>> ret tt
            | None => ret tt
            end
        | None => ret tt
        end
    | None => ret tt
    end
  else if is_str action "delete_object" then
    id1 <- py_get params "objectId" JNull ;;;
    obj_name <- (if truthy id1 then ret id1 else py_get params "name" JNull) ;;;
    obj <- objects_get obj_name ;;;
    match obj with
    | Some (name, _) =>
        remove_object name >>>
        print (Print "Deleted" [obj_name]) >>>
        send_message OBJECT_DELETE (JObj [("objectId", obj_name)]) >>> ret tt
    | None => ret tt
    end
  else if is_str action "modify_mesh" then
    obj_name <- py_get params "objectId" JNull ;;;
    m <- py_get params "modifier" (JStr EmptyString) ;;;
    modifier <- py_upper m ;;;
    obj <- objects_get obj_name ;;;
    match obj with
    | Some (name, o) =>
        if String.eqb (type o) "MESH" then
          (if String.eqb modifier "SUBDIVIDE" then
             modify_bpy (set_active_object (Some name)) >>>
             modifier_add "SUBSURF" >>>
             levels <- py_get params "levels" (JInt 2) ;;;
             n <- as_int levels ;;;
             set_last_modifier name "SUBSURF"
               (fun m => mkModifier (mod_type m) n (mod_width m))
           else if String.eqb modifier "BEVEL" then
             modifier_add "BEVEL" >>>
             width <- py_get params "width" (JFloat (float_of_literal "0.1")) ;;;
             x <- as_float_value width ;;;
             set_last_modifier name "BEVEL"
               (fun m => mkModifier (mod_type m) (mod_levels m) x)
           else if String.eqb modifier "SMOOTH" then
             modify_bpy (fun b =>
               set_objects
                 ((fun o => if selected o then set_shade_smooth true o else o)
                    <$> objects b) b)
           else ret tt) >>>
          print (Print "Applied" [JStr modifier; obj_name])
        else ret tt
    | None => ret tt
    end
  else ret tt.

(** ** The inbound dispatcher *)

(** The items of [for x in v]. *)
Definition py_iter (v : json) : M (list json) :=
  match v with
  | JArr l => ret l
  | JStr s => ret (chars s)
  | JObj kvs => ret (map (fun kv => JStr (fst kv)) kvs)
  | _ => raise TypeError
  end.

Definition json_loads (raw : string) : M json :=
  match loads raw with
  | Some v => ret v
  | None => raise JSONDecodeError
  end.

(** The role this client announces when it joins, and the one it drops
    the messages of. *)
Definition own_role : string := "blender".

(** The body of the [try] for one frame taken from the queue. *)
Definition process_message (raw : string) : M unit :=
  message <- json_loads raw ;;;
  msg_type <- py_get message "type" JNull ;;;
  payload <- py_get message "payload" (JObj []) ;;;
  sender <- py_get payload "_senderType" (JStr EmptyString) ;;;
  if is_str sender own_role then ret tt
  else if is_str msg_type "joined" then
    cid <- py_get payload "clientId" (JStr EmptyString) ;;;
    modify_state (set_client_id cid) >>>
    sid <- py_get payload "sessionId" JNull ;;;
    print (Print "Joined session" [sid]) >>>
    info1 <- py_get payload "sessionInfo" (JObj []) ;;;
    nb <- py_get info1 "blender" (JInt 0) ;;;
    info2 <- py_get payload "sessionInfo" (JObj []) ;;;
    nw <- py_get info2 "bisect" (JInt 0) ;;;
    info3 <- py_get payload "sessionInfo" (JObj []) ;;;
    na <- py_get info3 "ai" (JInt 0) ;;;
    print (Print "Session info" [nb; nw; na])
  else if is_str msg_type SCENE_REQUEST then
    by_ <- py_get payload "requestedByType" (JStr "unknown") ;;;
    print (Print "Scene requested by" [by_]) >>>
    send_scene_state
  else if is_str msg_type TRANSFORM then
    obj_id <- py_get payload "objectId" JNull ;;;
    position <- py_get payload "position" (JArr [JInt 0; JInt 0; JInt 0]) ;;;
    rotation <- py_get payload "rotation" (JArr [JInt 0; JInt 0; JInt 0; JInt 1]) ;;;
    scale_ <- py_get payload "scale" (JArr [JInt 1; JInt 1; JInt 1]) ;;;
    apply_transform obj_id position rotation scale_
  else if is_str msg_type OBJECT_SELECT then
    obj_ids <- py_get payload "objectIds" (JArr []) ;;;
    modify_bpy (fun b => set_objects (set_selected false <$> objects b) b) >>>
    ids <- py_iter obj_ids ;;;
    for_each ids (fun obj_id =>
      obj <- objects_get obj_id ;;;
      match obj with
      | Some (name, _) =>
          update_object name (set_selected true) >>>
          modify_bpy (set_active_object (Some name))
      | None => ret tt
      end)
  else if is_str msg_type MATERIAL_ASSIGN then
    obj_id <- py_get payload "objectId" JNull ;;;
    material <- py_get payload "material" (JObj []) ;;;
    apply_material obj_id material
  else if is_str msg_type MATERIAL_UPDATE then
    mat_id <- py_get payload "materialId" JNull ;;;
    properties <- py_get payload "properties" (JObj []) ;;;
    mat <- materials_get mat_id ;;;
    match mat with
    | Some (name, m) =>
        if use_nodes m then
          match principled m with
          | Some _ => update_principled name properties
          | None => ret tt
          end
        else ret tt
    | None => ret tt
    end
  else if is_str msg_type AI_EXECUTE then handle_ai_execute payload
  else if is_str msg_type "client_joined" then
    client_type <- py_get payload "clientType" (JStr "unknown") ;;;
    print (Print "joined session" [client_type])
  else if is_str msg_type "client_left" then
    client_type <- py_get payload "clientType" (JStr "unknown") ;;;
    print (Print "left session" [client_type])
  else ret tt.

(** One turn of the [while] loop: [get_nowait] takes the frame at the head
    of the queue, the [try] runs, and an exception is printed. *)
Definition process_frame (raw : string) (rest : list string) : M unit :=
  modify_state (set_message_queue rest) >>>
  try_except (process_message raw)
    (fun e => print (PrintError "Message processing error" e)).

(** The loop over the frames that are in the queue when it starts.  No
    handler puts a frame into the queue, and the network thread is taken not
    to run during the loop. *)
Fixpoint process_frames (q : list string) : M unit :=
  match q with
  | [] => ret tt
  | raw :: rest => process_frame raw rest >>> process_frames rest
  end.

Definition process_incoming_messages : M unit :=
  s <- get_state ;;;
  process_frames (message_queue s).

(** ** Blender handlers *)

(** [current_time - last_sync_time < sync_interval] *)
Definition under_interval (current_time last : Q) : bool :=
  negb (Qle_bool sync_interval (current_time - last)).

(** The body of the loop over [depsgraph.updates].  An update whose [id] is
    an object carries the object; the model finds it in the scene by its
    name. *)
Definition scan_update (u : DepsgraphUpdate) : M unit :=
  match upd_id u with
  | IdObject name =>
      s <- get_state ;;;
      if bool_decide (name ∈ ignore_next_update s) then
        modify_state (fun s => set_ignore_next_update (ignore_next_update s ∖ {[name]}) s)
      else
        b <- get_bpy ;;;
        match objects b !! name with
        | Some o =>
            if String.eqb (type o) "MESH" && is_updated_transform u
            then send_transform name o
            else ret tt
        | None => ret tt
        end
  | IdOther _ => ret tt
  end.

Definition depsgraph_update_handler (updates : list DepsgraphUpdate) : M unit :=
  s <- get_state ;;;
  if negb (connected s) then ret tt
  else
    current_time <- time_time ;;;
    if under_interval current_time (last_sync_time s) then ret tt
    else
      modify_state (set_last_sync_time current_time) >>>
      for_each updates scan_update.

(** The value returned, the delay to the next call, is 0.1 s and is left
    out. *)
Definition timer_callback : M unit :=
  process_incoming_messages >>>
  b <- get_bpy ;;;
  s <- get_state ;;;
  let current_selection : gset string := list_to_set (selected_names b) in
  if bool_decide (current_selection = selected_objects s) then ret tt
  else
    modify_state (set_selected_objects current_selection) >>>
    send_selection (elements current_selection).

(* ====================================================================== *)
(** * bisect_sync.py, the older add-on *)
(* ====================================================================== *)

(** The functions of the older file that differ from the ones above and
    that the properties below are about. *)

(** A sequence assigned to [rotation_quaternion]: it has to have four
    floats, and Blender reads them as (w, x, y, z). *)
Definition quaternion_of_seq (rotation : json) : M Quaternion :=
  match rotation with
  | JArr [a; b; c; d] =>
      match as_float a, as_float b, as_float c, as_float d with
      | Some w, Some x, Some y, Some z => ret (mkQuaternion w x y z)
      | _, _, _, _ => raise TypeError
      end
  | JArr _ => raise ValueError
  | _ => raise TypeError
  end.

(** [Quaternion(rotation)]: four floats are (w, x, y, z), three are an
    exponential map. *)
Definition quaternion_new (rotation : json) : M Quaternion :=
  match rotation with
  | JArr [a; b; c] =>
      match as_float a, as_float b, as_float c with
      | Some x, Some y, Some z => ret (exp_map (mkVector x y z))
      | _, _, _ => raise TypeError
      end
  | _ => quaternion_of_seq rotation
  end.

Definition apply_transform_v1 (obj_name position rotation scale_ : json) : M unit :=
  obj <- objects_get obj_name ;;;
  match obj with
  | None => ret tt
  | Some (name, o) =>
      loc <- as_vector position ;;;
      update_object name (set_location loc) >>>
      (if String.eqb (rotation_mode o) "QUATERNION" then
         q <- quaternion_of_seq rotation ;;;
         update_object name (set_rotation_quaternion q)
       else
         q <- quaternion_new rotation ;;;
         update_object name (set_rotation_euler (to_euler q))) >>>
      sc <- as_vector scale_ ;;;
      update_object name (set_scale sc)
  end.

Definition send_transform_v1 (name : string) (o : Object) : M unit :=
  s <- get_state ;;;
  if negb (connected s) || negb (bool_decide (is_Some (ws s))) then ret tt
  else
    message <- create_message TRANSFORM (Some (transform_payload name o)) None ;;;
    try_except (ws_send message)
      (fun e => print (PrintError "Send error" e)).

Definition scan_update_v1 (u : DepsgraphUpdate) : M unit :=
  match upd_id u with
  | IdObject name =>
      b <- get_bpy ;;;
      match objects b !! name with
      | Some o =>
          if String.eqb (type o) "MESH" && is_updated_transform u
          then send_transform_v1 name o
          else ret tt
      | None => ret tt
      end
  | IdOther _ => ret tt
  end.

Definition depsgraph_update_handler_v1 (updates : list DepsgraphUpdate) : M unit :=
  s <- get_state ;;;
  if negb (connected s) then ret tt
  else
    current_time <- time_time ;;;
    if under_interval current_time (last_sync_time s) then ret tt
    else
      modify_state (set_last_sync_time current_time) >>>
      for_each updates scan_update_v1.

(* ====================================================================== *)
(** * Running the add-on and observing it *)
(* ====================================================================== *)

(** The world a computation leaves, and what it returns. *)
Definition exec {A : Type} (m : M A) (w : World) : World := snd (m w).
Definition eval {A : Type} (m : M A) (w : World) : result A := fst (m w).

(** The frames put on the wire so far. *)
Definition sent_frames (w : World) : list string :=
  match ws (sync_state w) with
  | Some app => sent app
  | None => []
  end.

(** The socket is up and the add-on knows it. *)
Definition online (w : World) : bool :=
  connected (sync_state w) &&
  match ws (sync_state w) with
  | Some app => sock_connected app
  | None => false
  end.

(** The network library connects the socket of the [WebSocketApp], or
    loses it. *)
Definition socket_up : M unit :=
  modify_state (fun s =>
    match ws s with
    | Some app => set_ws (Some (mkWebSocketApp true (sent app))) s
    | None => s
    end).

Definition socket_down : M unit :=
  modify_state (fun s =>
    match ws s with
    | Some app => set_ws (Some (mkWebSocketApp false (sent app))) s
    | None => s
    end).

(** The type of a decoded frame and a field of its payload, as the
    dispatcher of a peer reads them. *)
Definition frame_type (frame : string) : option json :=
  match loads frame with
  | Some (JObj kvs) => dict_lookup "type" kvs
  | _ => None
  end.

Definition frame_payload (frame : string) : option json :=
  match loads frame with
  | Some (JObj kvs) => dict_lookup "payload" kvs
  | _ => None
  end.

Definition frame_field (k : string) (frame : string) : option json :=
  match frame_payload frame with
  | Some (JObj p) => dict_lookup k p
  | _ => None
  end.

(** [frame] is a [transform] envelope for the entity [name]. *)
Definition is_transform_for (name : string) (frame : string) : bool :=
  match frame_type frame, frame_field "objectId" frame with
  | Some t, Some i => is_str t TRANSFORM && is_str i name
  | _, _ => false
  end.

Definition is_frame_of_type (t : string) (frame : string) : bool :=
  match frame_type frame with
  | Some v => is_str v t
  | None => false
  end.

(** The names of the objects a notification lists. *)
Fixpoint updated_objects (us : list DepsgraphUpdate) : list string :=
  match us with
  | [] => []
  | u :: r =>
      match upd_id u with
      | IdObject name => name :: updated_objects r
      | IdOther _ => updated_objects r
      end
  end.

(** An update that the outbound scan forwards when nothing suppresses it:
    the transform of a mesh. *)
Definition forwardable (b : BlendData) (u : DepsgraphUpdate) : bool :=
  match upd_id u with
  | IdObject name =>
      match objects b !! name with
      | Some o => String.eqb (type o) "MESH" && is_updated_transform u
      | None => false
      end
  | IdOther _ => false
  end.

(** The rate gate of [depsgraph_update_handler] lets the notification
    through. *)
Definition gate_open (w : World) : bool :=
  connected (sync_state w) &&
  negb (under_interval (now w) (last_sync_time (sync_state w))).

(** What happens to the add-on: Blender calls a handler, the network
    library calls a callback, the user presses a button, or the socket
    changes. *)
Inductive event : Type :=
  | EvDepsgraph (updates : list DepsgraphUpdate)
  | EvTimer
  | EvMessage (raw : string)
  | EvOpen (sid : string)
  | EvError (e : exn)
  | EvClose
  | EvConnect (sid : string)
  | EvDisconnect
  | EvSocketUp
  | EvSocketDown.

Definition run_event (ev : event) : M unit :=
  match ev with
  | EvDepsgraph updates => depsgraph_update_handler updates
  | EvTimer => timer_callback
  | EvMessage raw => on_message raw
  | EvOpen sid => try_except (on_open sid) on_error
  | EvError e => on_error e
  | EvClose => on_close
  | EvConnect sid => start_connection sid >>> ret tt
  | EvDisconnect => stop_connection
  | EvSocketUp => socket_up
  | EvSocketDown => socket_down
  end.

Fixpoint run_events (evs : list event) (w : World) : World :=
  match evs with
  | [] => w
  | ev :: r => run_events r (exec (run_event ev) w)
  end.

(** The frames of the queue up to a malformed one, each taken with the
    frames [rest] behind it still in the queue. *)
Fixpoint process_frames_before (q rest : list string) : M unit :=
  match q with
  | [] => ret tt
  | raw :: q' => process_frame raw (q' ++ rest) >>> process_frames_before q' rest
  end.

(** The frame [send_message] writes in the world [w]. *)
Definition frame_of (msg_type : string) (payload : json) (w : World) : string :=
  dumps (envelope msg_type (session_id (sync_state w)) (millis (now w))
           (py_or payload (JObj []))).

(** The world after [ws.send(frame)] went through. *)
Definition sent_world (app : WebSocketApp) (frame : string) (w : World) : World :=
  upd_state (set_ws (Some (mkWebSocketApp true (sent app ++ [frame])))) w.

(** The frames one turn of the outbound scan puts on the wire: nothing for
    an entity of the echo guard, for an update that is not the transform of
    a mesh, or when the add-on is not online. *)
Definition scan_output (u : DepsgraphUpdate) (w : World) : list string :=
  match upd_id u with
  | IdObject name =>
      if bool_decide (name ∈ ignore_next_update (sync_state w)) then []
      else
        match objects (bpy w) !! name with
        | Some o =>
            if String.eqb (type o) "MESH" && is_updated_transform u && online w
            then [frame_of TRANSFORM (transform_payload name o) w]
            else []
        | None => []
        end
  | IdOther _ => []
  end.

(** The echo guard after one turn of the scan. *)
Definition scan_guard (u : DepsgraphUpdate) (g : gset string) : gset string :=
  match upd_id u with
  | IdObject name => g ∖ {[name]}
  | IdOther _ => g
  end.

(** The frames a whole scan puts on the wire, in order. *)
Fixpoint scan_frames (us : list DepsgraphUpdate) (w : World) : list string :=
  match us with
  | [] => []
  | u :: r => scan_output u w ++ scan_frames r (exec (scan_update u) w)
  end.

(** The world in which the scan of an accepted notification starts. *)
Definition accepted (w : World) : World :=
  upd_state (set_last_sync_time (now w)) (tick w).

(** A computation that keeps a relation between the world it starts in and
    the world it leaves, whether it returns or raises. *)
Definition preserves {A : Type} (R : World -> World -> Prop) (m : M A) : Prop :=
  forall w, R w (exec m w).

(** The echo guard loses no entity. *)
Definition guard_grows (w w' : World) : Prop :=
  ignore_next_update (sync_state w) ⊆ ignore_next_update (sync_state w').

(** The rate limiter's state is untouched. *)
Definition same_last_sync (w w' : World) : Prop :=
  last_sync_time (sync_state w') = last_sync_time (sync_state w).

(** The inbound queue is untouched. *)
Definition same_queue (w w' : World) : Prop :=
  message_queue (sync_state w') = message_queue (sync_state w).

(** The rate limiter's time never goes back. *)
Definition last_sync_mono (w w' : World) : Prop :=
  (last_sync_time (sync_state w) <= last_sync_time (sync_state w'))%Q.

Definition frame_session (frame : string) : option json :=
  match loads frame with
  | Some (JObj kvs) => dict_lookup "sessionId" kvs
  | _ => None
  end.

Definition frame_timestamp (frame : string) : option json :=
  match loads frame with
  | Some (JObj kvs) => dict_lookup "timestamp" kvs
  | _ => None
  end.

(** The payload of the [join] envelope. *)
Definition join_payload (sid : string) : json :=
  JObj [("sessionId", JStr sid); ("clientType", JStr "blender")].

(* ====================================================================== *)
(** * bisect_sync.py: the rest of the older add-on *)
(* ====================================================================== *)

(** [create_message], the callbacks of the socket and [start_connection]
    are the same text in the two files and are the definitions above.  The
    older [stop_connection] has no client id to clear. *)
Definition stop_connection_v1 : M unit :=
  ws_close >>>
  modify_state (set_connected false) >>>
  modify_state (set_session_id EmptyString).

Definition send_selection_v1 (object_names : list string) : M unit :=
  s <- get_state ;;;
  if negb (connected s) || negb (bool_decide (is_Some (ws s))) then ret tt
  else
    message <- create_message OBJECT_SELECT
                 (Some (JObj [("objectIds", JArr (map JStr object_names))])) None ;;;
    try_except (ws_send message)
      (fun e => print (PrintError "Send error" e)).

(** The [dict] the older [send_scene_state] builds for a mesh. *)
Definition object_data_v1 (name : string) (o : Object) : json :=
  let rot := object_rotation o in
  JObj [("id", JStr name); ("name", JStr name); ("type", JStr (type o));
        ("position", json_of_vector (location o));
        ("rotation", JArr [JFloat (quat_x rot); JFloat (quat_y rot);
                           JFloat (quat_z rot); JFloat (quat_w rot)]);
        ("scale", json_of_vector (scale o));
        ("parent", json_of_option_string (parent o))].

(** The success line is printed inside the [try], after the send. *)
Definition send_scene_state_v1 : M unit :=
  s <- get_state ;;;
  if negb (connected s) || negb (bool_decide (is_Some (ws s))) then ret tt
  else
    b <- get_bpy ;;;
    let objs := map (fun no => object_data_v1 (fst no) (snd no))
                  (objects_of_type b "MESH") in
    message <- create_message SCENE_STATE (Some (JObj [("objects", JArr objs)])) None ;;;
    try_except
      (ws_send message >>>
       print (Print "Sent scene state" [JInt (Z.of_nat (length objs))]))
      (fun e => print (PrintError "Send error" e)).

(** The body of the [try] of the older dispatcher: no test of the sender,
    and the payload is read only in the branches. *)
Definition process_message_v1 (raw : string) : M unit :=
  message <- json_loads raw ;;;
  msg_type <- py_get message "type" JNull ;;;
  payload <- py_get message "payload" (JObj []) ;;;
  if is_str msg_type "joined" then
    sid <- py_get payload "sessionId" JNull ;;;
    print (Print "Joined session" [sid])
  else if is_str msg_type SCENE_REQUEST then send_scene_state_v1
  else if is_str msg_type TRANSFORM then
    obj_id <- py_get payload "objectId" JNull ;;;
    position <- py_get payload "position" (JArr [JInt 0; JInt 0; JInt 0]) ;;;
    rotation <- py_get payload "rotation" (JArr [JInt 0; JInt 0; JInt 0; JInt 1]) ;;;
    scale_ <- py_get payload "scale" (JArr [JInt 1; JInt 1; JInt 1]) ;;;
    apply_transform_v1 obj_id position rotation scale_
  else if is_str msg_type OBJECT_SELECT then
    obj_ids <- py_get payload "objectIds" (JArr []) ;;;
    modify_bpy (fun b => set_objects (set_selected false <$> objects b) b) >>>
    ids <- py_iter obj_ids ;;;
    for_each ids (fun obj_id =>
      obj <- objects_get obj_id ;;;
      match obj with
      | Some (name, _) =>
          update_object name (set_selected true) >>>
          modify_bpy (set_active_object (Some name))
      | None => ret tt
      end)
  else if is_str msg_type "client_joined" then
    client_type <- py_get payload "clientType" JNull ;;;
    print (Print "Client joined" [client_type])
  else if is_str msg_type "client_left" then
    client_type <- py_get payload "clientType" JNull ;;;
    print (Print "Client left" [client_type])
  else ret tt.

Definition process_frame_v1 (raw : string) (rest : list string) : M unit :=
  modify_state (set_message_queue rest) >>>
  try_except (process_message_v1 raw)
    (fun e => print (PrintError "Message processing error" e)).

Fixpoint process_frames_v1 (q : list string) : M unit :=
  match q with
  | [] => ret tt
  | raw :: rest => process_frame_v1 raw rest >>> process_frames_v1 rest
  end.

Definition process_incoming_messages_v1 : M unit :=
  s <- get_state ;;;
  process_frames_v1 (message_queue s).

Definition timer_callback_v1 : M unit :=
  process_incoming_messages_v1 >>>
  b <- get_bpy ;;;
  s <- get_state ;;;
  let current_selection : gset string := list_to_set (selected_names b) in
  if bool_decide (current_selection = selected_objects s) then ret tt
  else
    modify_state (set_selected_objects current_selection) >>>
    send_selection_v1 (elements current_selection).

(* ====================================================================== *)
(** * More ways to look at a world *)
(* ====================================================================== *)

(** The message types the dispatcher of [bisect_sync_v2.py] has a branch
    for. *)
Definition handled_types : list string :=
  ["joined"; SCENE_REQUEST; TRANSFORM; OBJECT_SELECT; MATERIAL_ASSIGN;
   MATERIAL_UPDATE; AI_EXECUTE; "client_joined"; "client_left"].

(** The names of the selected objects, as a set. *)
Definition selection (b : BlendData) : gset string := list_to_set (selected_names b).

(** The [ai_execute] payloads of the commands. *)
Definition delete_command (params : list (string * json)) : json :=
  JObj [("action", JStr "delete_object"); ("params", JObj params)].

Definition modify_command (params : list (string * json)) : json :=
  JObj [("action", JStr "modify_mesh"); ("params", JObj params)].

(** What neither the outbound scan nor a send changes: the scene, the
    inbound queue, and what the add-on remembers of the session. *)
Definition scene_kept (w w' : World) : Prop :=
  bpy w' = bpy w /\
  message_queue (sync_state w') = message_queue (sync_state w) /\
  selected_objects (sync_state w') = selected_objects (sync_state w) /\
  client_id (sync_state w') = client_id (sync_state w) /\
  session_id (sync_state w') = session_id (sync_state w) /\
  ws_thread (sync_state w') = ws_thread (sync_state w) /\
  connected (sync_state w') = connected (sync_state w).

(** [payload.get(k, d)] for a payload that is a [dict]. *)
Definition payload_get (p : list (string * json)) (k : string) (d : json) : json :=
  match dict_lookup k p with
  | Some v => v
  | None => d
  end.

(** The payload carries the sender mark of this client's own role. *)
Definition sent_by_self (p : list (string * json)) : bool :=
  is_str (payload_get p "_senderType" (JStr EmptyString)) own_role.

(** The object a well-formed [transform] leaves: position [p], rotation
    [q] (in the attribute of the object's rotation mode) and scale [sc]. *)
Definition transformed (p : Vector) (q : Quaternion) (sc : Vector) (o : Object) : Object :=
  set_scale sc
    ((if String.eqb (rotation_mode o) "QUATERNION"
      then set_rotation_quaternion q
      else set_rotation_euler (to_euler q)) (set_location p o)).

(** The echo guard with one more name. *)
Definition guard_add (name : string) (s : BisectSyncState) : BisectSyncState :=
  set_ignore_next_update ({[name]} ∪ ignore_next_update s) s.

(** The body of the loop of the [object_select] branch. *)
Definition select_one (obj_id : json) : M unit :=
  obj <- objects_get obj_id ;;;
  match obj with
  | Some (name, _) =>
      update_object name (set_selected true) >>>
      modify_bpy (set_active_object (Some name))
  | None => ret tt
  end.

(** The active object after the loop over [ids]: the last of them that
    names an object of [known], if there is one. *)
Definition last_known (known : gset string) (ids : list string)
  (active : option string) : option string :=
  fold_left (fun a i => if bool_decide (i ∈ known) then Some i else a) ids active.

(** The second half of [timer_callback]: the selection is compared with the
    one recorded at the last tick and sent when it differs. *)
Definition sync_selection : M unit :=
  b <- get_bpy ;;;
  s <- get_state ;;;
  let current_selection : gset string := list_to_set (selected_names b) in
  if bool_decide (current_selection = selected_objects s) then ret tt
  else
    modify_state (set_selected_objects current_selection) >>>
    send_selection (elements current_selection).

(** The payload of an [object_select]. *)
Definition selection_payload (names : list string) : json :=
  JObj [("objectIds", JArr (map JStr names))].

(** [params.get("objectId") or params.get("name")] *)
Definition delete_target (params : list (string * json)) : json :=
  let id1 := payload_get params "objectId" JNull in
  if truthy id1 then id1 else payload_get params "name" JNull.

(** What an update of the nodes of a material leaves alone: the objects,
    the names of the materials, and everything outside the scene. *)
Definition materials_kept (w w' : World) : Prop :=
  objects (bpy w') = objects (bpy w) /\
  dom (materials (bpy w')) = dom (materials (bpy w)) /\
  active_object (bpy w') = active_object (bpy w) /\
  sync_state w' = sync_state w /\
  stdout w' = stdout w.

(** The part of [apply_material] that follows the lookup or the creation of
    the material [mname]: its node is updated, the material is put in the
    first slot of the object, and a line is printed. *)
Definition assign_material (name mname : string) (material : json) : M unit :=
  b <- get_bpy ;;;
  (match materials b !! mname with
   | Some m =>
       if use_nodes m then
         match principled m with
         | Some _ => update_principled mname material
         | None => ret tt
         end
       else ret tt
   | None => ret tt
   end) >>>
  update_object name
    (fun o => set_obj_materials
                (match obj_materials o with
                 | [] => [Some mname]
                 | _ :: r => Some mname :: r
                 end) o) >>>
  print (Print "Applied material" [JStr mname; JStr name]).

(** The world with a new material called [mname]. *)
Definition with_new_material (mname : string) (w : World) : World :=
  upd_bpy (fun b => set_materials (<[mname := new_material]> (materials b)) b) w.

(** The payload of the [scene_state] of [bisect_sync_v2.py]. *)
Definition scene_payload (b : BlendData) : json :=
  JObj [("objects",
          JArr (map (fun no => get_object_data b (fst no) (snd no))
                  (objects_of_type b "MESH")));
        ("materials",
          JArr (map (fun nm => material_data (fst nm) (snd nm))
                  (map_to_list (materials b))));
        ("lights",
          JArr (map (fun no => light_data (fst no) (snd no))
                  (objects_of_type b "LIGHT")));
        ("cameras",
          JArr (map (fun no => camera_data (fst no) (snd no))
                  (objects_of_type b "CAMERA")));
        ("selection", JArr (map JStr (selected_names b)))].

(** The line [send_scene_state] prints, with the two counts. *)
Definition scene_line (b : BlendData) : output :=
  Print "Sent scene state"
    [JInt (Z.of_nat (length (objects_of_type b "MESH")));
     JInt (Z.of_nat (length (map_to_list (materials b))))].

(** The payload and the line of the older add-on. *)
Definition scene_payload_v1 (b : BlendData) : json :=
  JObj [("objects",
          JArr (map (fun no => object_data_v1 (fst no) (snd no))
                  (objects_of_type b "MESH")))].

Definition scene_line_v1 (b : BlendData) : output :=
  Print "Sent scene state" [JInt (Z.of_nat (length (objects_of_type b "MESH")))].

#[local] Set Warnings "-clear-no-such-hyp".

(* ====================================================================== *)
(** * Strings *)
(* ====================================================================== *)

Lemma append_cons (c : ascii) (s r : string) :
  String c s +:+ r = String c (s +:+ r).
Proof. reflexivity. Qed.

Lemma append_empty_l (r : string) : EmptyString +:+ r = r.
Proof. reflexivity. Qed.

Lemma append_empty_r (s : string) : s +:+ EmptyString = s.
Proof. induction s as [|c s IH]; [reflexivity|]. rewrite append_cons, IH. reflexivity. Qed.

Lemma append_assoc (s t r : string) : (s +:+ t) +:+ r = s +:+ (t +:+ r).
Proof.
  induction s as [|c s IH]; [reflexivity|].
  rewrite !append_cons, IH. reflexivity.
Qed.

Lemma length_append (s t : string) :
  String.length (s +:+ t) = (String.length s + String.length t)%nat.
Proof.
  induction s as [|c s IH]; [reflexivity|].
  rewrite append_cons. simpl. rewrite IH. reflexivity.
Qed.

(* ====================================================================== *)
(** * Strings on the wire *)
(* ====================================================================== *)

Ltac lia_div := zify; Z.to_euclidean_division_equations; lia.

Lemma byte_value_lt (c : ascii) : (byte_value c < 256)%N.
Proof. apply N_ascii_bounded. Qed.

Lemma byte_of_value (c : ascii) : byte_of (byte_value c) = c.
Proof. apply ascii_N_embedding. Qed.

Lemma byte_value_of (n : N) : (n < 256)%N -> byte_value (byte_of n) = n.
Proof. apply N_ascii_embedding. Qed.

Lemma byte_of_eq (n : N) (c : ascii) : n = byte_value c -> byte_of n = c.
Proof. intros ->. apply byte_of_value. Qed.

Lemma code_points_cons (b0 : ascii) (r0 : string) :
  code_points (String b0 r0) = (first_code_point b0 r0).1 :: code_points (first_code_point b0 r0).2.
Proof.
  unfold first_code_point. cbn [code_points].
  destruct (seq_len b0 r0) as [|[|[|[|k]]]]; try reflexivity;
    destruct r0 as [|b1 [|b2 [|b3 r3]]]; reflexivity.
Qed.

Lemma is_cont_spec (c : ascii) : is_cont c = true -> (128 <= byte_value c < 192)%N.
Proof.
  unfold is_cont. intros H. apply andb_true_iff in H as [H1 H2].
  apply N.leb_le in H1. apply N.ltb_lt in H2. lia.
Qed.

Lemma first_code_point_spec (b0 : ascii) (r0 : string) :
  exists pre,
    utf8 (first_code_point b0 r0).1 = Some pre /\
    String b0 r0 = pre +:+ (first_code_point b0 r0).2 /\
    is_high (first_code_point b0 r0).1 = false /\
    ((first_code_point b0 r0).1 < 1114112)%N /\
    (String.length (first_code_point b0 r0).2 <= String.length r0)%nat.
Proof.
  pose proof (byte_value_lt b0) as Hb0.
  assert (Hlone : exists pre,
             utf8 (lone b0) = Some pre /\ String b0 r0 = pre +:+ r0 /\
             is_high (lone b0) = false /\ (lone b0 < 1114112)%N /\
             (String.length r0 <= String.length r0)%nat).
  { exists (String b0 EmptyString). unfold lone, utf8, is_high, is_surrogate.
    destruct (byte_value b0 <? 128)%N eqn:E.
    - rewrite E, byte_of_value. apply N.ltb_lt in E.
      repeat split; try reflexivity; try lia.
      apply andb_false_iff. left. apply N.leb_gt. lia.
    - apply N.ltb_ge in E.
      replace (56320 + byte_value b0 <? 128)%N with false by (symmetry; apply N.ltb_ge; lia).
      replace (56320 + byte_value b0 <? 2048)%N with false by (symmetry; apply N.ltb_ge; lia).
      replace (56320 + byte_value b0 <? 65536)%N with true by (symmetry; apply N.ltb_lt; lia).
      replace (55296 <=? 56320 + byte_value b0)%N with true by (symmetry; apply N.leb_le; lia).
      replace (56320 + byte_value b0 <? 57344)%N with true by (symmetry; apply N.ltb_lt; lia).
      replace (56448 <=? 56320 + byte_value b0)%N with true by (symmetry; apply N.leb_le; lia).
      replace (56320 + byte_value b0 <? 56576)%N with true by (symmetry; apply N.ltb_lt; lia).
      replace (56320 + byte_value b0 <? 56320)%N with false by (symmetry; apply N.ltb_ge; lia).
      cbn [andb]. replace (56320 + byte_value b0 - 56320)%N with (byte_value b0) by lia.
      rewrite byte_of_value. repeat split; try reflexivity; lia. }
  unfold first_code_point, seq_len.
  destruct (byte_value b0 <? 194)%N eqn:E194; [exact Hlone|].
  apply N.ltb_ge in E194.
  destruct r0 as [|b1 r1]; [exact Hlone|].
  destruct (is_cont b1) eqn:C1; cbn [negb]; [|exact Hlone].
  apply is_cont_spec in C1. pose proof (byte_value_lt b1) as Hb1.
  destruct (byte_value b0 <? 224)%N eqn:E224.
  { apply N.ltb_lt in E224.
    exists (String b0 (String b1 EmptyString)). cbn [fst snd].
    unfold utf8, code2, low6, is_high.
    replace (_ <? 128)%N with false by (symmetry; apply N.ltb_ge; lia).
    replace (_ <? 2048)%N with true by (symmetry; apply N.ltb_lt; lia).
    rewrite (byte_of_eq _ b0), (byte_of_eq _ b1) by lia_div.
    repeat split; try reflexivity; try lia; [|cbn; lia].
    apply andb_false_iff. left. apply N.leb_gt. lia. }
  apply N.ltb_ge in E224.
  destruct r1 as [|b2 r2]; [exact Hlone|].
  destruct (is_cont b2) eqn:C2; cbn [negb]; [|exact Hlone].
  apply is_cont_spec in C2. pose proof (byte_value_lt b2) as Hb2.
  destruct (byte_value b0 <? 240)%N eqn:E240.
  { apply N.ltb_lt in E240.
    destruct ((2048 <=? code3 b0 b1 b2)%N && negb (is_surrogate (code3 b0 b1 b2))) eqn:V;
      [|exact Hlone].
    apply andb_true_iff in V as [V1 V2]. apply N.leb_le in V1.
    apply negb_true_iff in V2.
    exists (String b0 (String b1 (String b2 EmptyString))). cbn [fst snd].
    unfold utf8. rewrite V2.
    assert (Hlt : (code3 b0 b1 b2 < 65536)%N) by (unfold code3, low6; lia).
    replace (_ <? 128)%N with false by (symmetry; apply N.ltb_ge; lia).
    replace (_ <? 2048)%N with false by (symmetry; apply N.ltb_ge; lia).
    replace (_ <? 65536)%N with true by (symmetry; apply N.ltb_lt; lia).
    rewrite (byte_of_eq _ b0), (byte_of_eq _ b1), (byte_of_eq _ b2)
      by (unfold code3, low6; lia_div).
    repeat split; try reflexivity; try lia; [|cbn; lia].
    unfold is_surrogate in V2. unfold is_high.
    apply andb_false_iff in V2 as [V2|V2];
      [apply andb_false_iff; left; exact V2|].
    apply andb_false_iff. right. apply N.ltb_ge in V2. apply N.ltb_ge. lia. }
  apply N.ltb_ge in E240.
  destruct r2 as [|b3 r3]; [exact Hlone|].
  destruct (is_cont b3 && (byte_value b0 <? 245)%N
            && (65536 <=? code4 b0 b1 b2 b3)%N
            && (code4 b0 b1 b2 b3 <? 1114112)%N) eqn:V; [|exact Hlone].
  apply andb_true_iff in V as [V V4]. apply andb_true_iff in V as [V V3].
  apply andb_true_iff in V as [C3 V1].
  apply is_cont_spec in C3. pose proof (byte_value_lt b3) as Hb3.
  apply N.ltb_lt in V1, V4. apply N.leb_le in V3.
  exists (String b0 (String b1 (String b2 (String b3 EmptyString)))). cbn [fst snd].
  unfold utf8.
  replace (_ <? 128)%N with false by (symmetry; apply N.ltb_ge; lia).
  replace (_ <? 2048)%N with false by (symmetry; apply N.ltb_ge; lia).
  replace (_ <? 65536)%N with false by (symmetry; apply N.ltb_ge; lia).
  replace (_ <? 1114112)%N with true by (symmetry; apply N.ltb_lt; lia).
  rewrite (byte_of_eq _ b0), (byte_of_eq _ b1), (byte_of_eq _ b2), (byte_of_eq _ b3)
    by (unfold code4, low6 in *; lia_div).
  repeat split; try reflexivity; try lia; [|cbn; lia].
  unfold is_high. apply andb_false_iff. right. apply N.ltb_ge. lia.
Qed.

Lemma string_length_ind (P : string -> Prop) :
  (forall s, (forall t, (String.length t < String.length s)%nat -> P t) -> P s) ->
  forall s, P s.
Proof.
  intros H s. remember (String.length s) as n eqn:Hn.
  revert s Hn. induction n as [n IH] using lt_wf_ind. intros s ->.
  apply H. intros t Ht. apply (IH _ Ht t eq_refl).
Qed.

Lemma utf8_all_code_points (s : string) : utf8_all (code_points s) = Some s.
Proof.
  induction s as [s IH] using string_length_ind.
  destruct s as [|b0 r0]; [reflexivity|].
  rewrite code_points_cons. destruct (first_code_point_spec b0 r0) as (pre & Hu & Hs & _ & _ & Hl).
  cbn [utf8_all]. rewrite Hu, IH by (cbn; lia). rewrite Hs. reflexivity.
Qed.

Lemma str_of_code_points_inv (s : string) : str_of_code_points (code_points s) = Some s.
Proof.
  unfold str_of_code_points. rewrite utf8_all_code_points, bool_decide_eq_true_2; reflexivity.
Qed.

Lemma code_points_plain (s : string) : Forall plain (code_points s).
Proof.
  induction s as [s IH] using string_length_ind.
  destruct s as [|b0 r0]; [constructor|].
  rewrite code_points_cons. destruct (first_code_point_spec b0 r0) as (pre & _ & _ & Hh & Hlt & Hl).
  constructor; [split; assumption|]. apply IH. cbn. lia.
Qed.

Lemma hex_value_digit (d : N) : (d < 16)%N -> hex_value (hex_digit d) = Some d.
Proof.
  intros H.
  assert (E : (d = 0 \/ d = 1 \/ d = 2 \/ d = 3 \/ d = 4 \/ d = 5 \/ d = 6 \/ d = 7 \/
              d = 8 \/ d = 9 \/ d = 10 \/ d = 11 \/ d = 12 \/ d = 13 \/ d = 14 \/
              d = 15)%N) by lia.
  repeat (destruct E as [-> | E]; [reflexivity|]). subst d. reflexivity.
Qed.

Lemma unhex4_digits (u : N) :
  (u < 65536)%N ->
  unhex4 (hex_digit (u / 4096)) (hex_digit (u / 256 mod 16))
    (hex_digit (u / 16 mod 16)) (hex_digit (u mod 16)) = Some u.
Proof.
  intros H. unfold unhex4.
  rewrite !hex_value_digit by lia_div. f_equal. lia_div.
Qed.

Lemma scan_codes_u (h1 h2 h3 h4 : ascii) (r2 : string) :
  scan_codes (String backslash (String "u" (String h1 (String h2 (String h3 (String h4 r2))))))
  = match unhex4 h1 h2 h3 h4 with
    | Some u =>
        if is_high u then
          match r2 with
          | String e1 (String e2 (String g1 (String g2 (String g3 (String g4 r3))))) =>
              if Ascii.eqb e1 backslash && Ascii.eqb e2 "u" then
                match unhex4 g1 g2 g3 g4 with
                | Some v =>
                    if is_low v
                    then cons_code (65536 + (u - 55296) * 1024 + (v - 56320))%N
                           (scan_codes r3)
                    else cons_code u (scan_codes r2)
                | None => None
                end
              else cons_code u (scan_codes r2)
          | _ => cons_code u (scan_codes r2)
          end
        else cons_code u (scan_codes r2)
    | None => None
    end.
Proof. reflexivity. Qed.

Lemma scan_escape_u (u : N) (r : string) :
  (u < 65536)%N -> is_high u = false ->
  scan_codes (escape_u u +:+ r) = cons_code u (scan_codes r).
Proof.
  intros Hlt Hh. unfold escape_u. rewrite !append_cons.
  change (EmptyString +:+ r) with r.
  rewrite scan_codes_u, unhex4_digits, Hh by exact Hlt. reflexivity.
Qed.

Lemma scan_escape_pair (u : N) (r : string) :
  (65536 <= u < 1114112)%N ->
  scan_codes (escape_u (55296 + (u - 65536) / 1024)
              +:+ escape_u (56320 + (u - 65536) mod 1024) +:+ r)
  = cons_code u (scan_codes r).
Proof.
  intros Hu.
  set (hi := (55296 + (u - 65536) / 1024)%N).
  set (lo := (56320 + (u - 65536) mod 1024)%N).
  assert (Hhi : (55296 <= hi < 56320)%N) by (unfold hi; lia_div).
  assert (Hlo : (56320 <= lo < 57344)%N) by (unfold lo; lia_div).
  unfold escape_u at 1. rewrite !append_cons.
  change (EmptyString +:+ ?x) with x.
  rewrite scan_codes_u, unhex4_digits by lia.
  replace (is_high hi) with true
    by (symmetry; unfold is_high; apply andb_true_iff; split;
        [apply N.leb_le | apply N.ltb_lt]; lia).
  unfold escape_u. rewrite !append_cons.
  change (EmptyString +:+ r) with r.
  change (Ascii.eqb backslash backslash && Ascii.eqb "u" "u") with true.
  cbv iota. rewrite unhex4_digits by lia.
  replace (is_low lo) with true
    by (symmetry; unfold is_low; apply andb_true_iff; split;
        [apply N.leb_le | apply N.ltb_lt]; lia).
  replace (65536 + (hi - 55296) * 1024 + (lo - 56320))%N with u
    by (unfold hi, lo; lia_div).
  reflexivity.
Qed.

(** Reading back one escaped ASCII character. *)
Lemma scan_escape_ascii (c : ascii) (r : string) :
  (byte_value c < 128)%N ->
  scan_codes (escape_code (byte_value c) +:+ r) = cons_code (byte_value c) (scan_codes r).
Proof.
  destruct c as [[] [] [] [] [] [] [] []]; intros H;
    first [reflexivity | vm_compute in H; discriminate H].
Qed.

Lemma scan_escape_code (u : N) (r : string) :
  plain u -> scan_codes (escape_code u +:+ r) = cons_code u (scan_codes r).
Proof.
  intros [Hh Hlt].
  destruct (N.ltb_spec u 128) as [H128|H128].
  - rewrite <- (byte_value_of u) by lia. apply scan_escape_ascii.
    rewrite byte_value_of by lia. exact H128.
  - unfold escape_code.
    replace (u =? 34)%N with false by (symmetry; apply N.eqb_neq; lia).
    replace (u =? 92)%N with false by (symmetry; apply N.eqb_neq; lia).
    replace (u =? 10)%N with false by (symmetry; apply N.eqb_neq; lia).
    replace (u =? 13)%N with false by (symmetry; apply N.eqb_neq; lia).
    replace (u =? 9)%N with false by (symmetry; apply N.eqb_neq; lia).
    replace (u =? 8)%N with false by (symmetry; apply N.eqb_neq; lia).
    replace (u =? 12)%N with false by (symmetry; apply N.eqb_neq; lia).
    replace (126 <? u)%N with true by (symmetry; apply N.ltb_lt; lia).
    rewrite orb_true_r.
    destruct (N.ltb_spec u 65536) as [H16|H16].
    + apply scan_escape_u; assumption.
    + rewrite append_assoc. apply scan_escape_pair. lia.
Qed.

Lemma scan_escape_codes (l : list N) (r : string) :
  Forall plain l ->
  scan_codes (escape_codes l +:+ String dquote r) = Some (l, r).
Proof.
  induction 1 as [|u l Hu Hl IH].
  - reflexivity.
  - cbn [escape_codes]. rewrite append_assoc, scan_escape_code, IH by exact Hu.
    reflexivity.
Qed.

Lemma scanstring_escape (s r : string) :
  scanstring (escape_string s +:+ String dquote r) = Some (s, r).
Proof.
  unfold scanstring, escape_string.
  rewrite scan_escape_codes by apply code_points_plain.
  rewrite str_of_code_points_inv. reflexivity.
Qed.

Lemma quote_string_app (s r : string) :
  quote_string s +:+ r = String dquote (escape_string s +:+ String dquote r).
Proof. unfold quote_string. rewrite ?append_cons, append_assoc. reflexivity. Qed.


(* ====================================================================== *)
(** * Numbers on the wire *)
(* ====================================================================== *)

Lemma span_number_app (tok r : string) :
  all_number_chars tok = true -> ends_number r = true ->
  span_number (tok +:+ r) = (tok, r).
Proof.
  intros Htok Hr. induction tok as [|c tok IH].
  - rewrite append_empty_l. destruct r as [|c r]; [reflexivity|].
    simpl in *. apply negb_true_iff in Hr. rewrite Hr. reflexivity.
  - simpl in Htok. apply andb_true_iff in Htok as [Hc Htok].
    rewrite append_cons. simpl. rewrite Hc, (IH Htok). reflexivity.
Qed.

Lemma is_digit_number_char (c : ascii) : is_digit c = true -> is_number_char c = true.
Proof. intros Hc. unfold is_number_char. rewrite Hc. reflexivity. Qed.

Lemma all_digits_number_chars (s : string) :
  all_digits s = true -> all_number_chars s = true.
Proof.
  induction s as [|c s IH]; [reflexivity|]. simpl.
  intros [Hc Hs]%andb_true_iff. rewrite (is_digit_number_char _ Hc). auto.
Qed.

Lemma all_number_chars_app (s t : string) :
  all_number_chars s = true -> all_number_chars t = true ->
  all_number_chars (s +:+ t) = true.
Proof.
  induction s as [|c s IH]; [auto|]. simpl.
  intros [Hc Hs]%andb_true_iff Ht. rewrite ?append_cons. simpl.
  rewrite Hc. auto.
Qed.

Lemma span_digits_spec (s : string) :
  s = fst (span_digits s) +:+ snd (span_digits s) /\
  all_digits (fst (span_digits s)) = true.
Proof.
  induction s as [|c s [IH1 IH2]]; [split; reflexivity|]. simpl.
  destruct (is_digit c) eqn:Hc.
  - destruct (span_digits s) as [d t]. simpl in *. rewrite append_cons, Hc.
    split; [congruence | assumption].
  - split; reflexivity.
Qed.

Lemma is_nat_literal_digits (s : string) :
  is_nat_literal s = true -> all_digits s = true.
Proof.
  destruct s as [|c s]; [discriminate|]. simpl.
  destruct (Ascii.eqb_spec c "0") as [->|_].
  - intros ->%String.eqb_eq. reflexivity.
  - auto.
Qed.

Lemma is_exponent_opt_number_chars (s : string) :
  is_exponent_opt s = true -> all_number_chars s = true.
Proof.
  destruct s as [|c s]; [reflexivity|]. simpl.
  intros [Hc Hs]%andb_true_iff.
  assert (Hc' : is_number_char c = true).
  { unfold is_number_char. apply orb_true_iff in Hc as [-> | ->];
      rewrite ?orb_true_r; reflexivity. }
  rewrite Hc'. simpl. destruct s as [|g s]; [discriminate|].
  destruct (Ascii.eqb g "+" || Ascii.eqb g "-") eqn:Hg.
  - apply andb_true_iff in Hs as [_ Hs]. simpl.
    rewrite (all_digits_number_chars _ Hs), andb_true_r.
    unfold is_number_char. apply orb_true_iff in Hg as [-> | ->];
      rewrite ?orb_true_r; reflexivity.
  - apply all_digits_number_chars. exact Hs.
Qed.

Lemma is_frac_exp_number_chars (s : string) :
  is_frac_exp s = true -> all_number_chars s = true.
Proof.
  destruct s as [|c s]; [reflexivity|]. unfold is_frac_exp.
  destruct (Ascii.eqb_spec c ".") as [->|_].
  - destruct (span_digits_spec s) as [Hs Hd].
    destruct (span_digits s) as [d t]. simpl in Hs, Hd.
    intros [_ Ht]%andb_true_iff. rewrite Hs. simpl.
    apply all_number_chars_app.
    + apply all_digits_number_chars, Hd.
    + apply is_exponent_opt_number_chars, Ht.
  - apply is_exponent_opt_number_chars.
Qed.

Lemma is_number_literal_number_chars (s : string) :
  is_number_literal s = true -> all_number_chars s = true.
Proof.
  unfold is_number_literal.
  set (body := match s with
               | String c r => if Ascii.eqb c "-" then r else s
               | EmptyString => s
               end).
  intros H.
  assert (Hbody : all_number_chars body = true).
  { destruct (span_digits_spec body) as [Hs Hd].
    destruct (span_digits body) as [d t]. simpl in Hs, Hd.
    apply andb_true_iff in H as [_ Ht]. rewrite Hs.
    apply all_number_chars_app.
    - apply all_digits_number_chars, Hd.
    - apply is_frac_exp_number_chars, Ht. }
  subst body. destruct s as [|c r]; [reflexivity|].
  destruct (Ascii.eqb_spec c "-") as [->|_]; [|exact Hbody].
  simpl. exact Hbody.
Qed.

(** A number token starts with a digit or a minus sign. *)
Lemma is_number_literal_head (s : string) :
  is_number_literal s = true ->
  exists c r, s = String c r /\ (is_digit c || Ascii.eqb c "-") = true.
Proof.
  destruct s as [|c r].
  - discriminate.
  - intros H. exists c, r. split; [reflexivity|].
    unfold is_number_literal in H.
    destruct (Ascii.eqb c "-") eqn:Hc; [apply orb_true_r|].
    simpl in H. destruct (is_digit c) eqn:Hd; [reflexivity|].
    simpl in H. discriminate.
Qed.

Lemma is_int_literal_number (s : string) :
  is_int_literal s = true -> is_number_literal s = true.
Proof.
  assert (Hnat : forall d, is_nat_literal d = true ->
            (let '(d', t) := span_digits d in is_nat_literal d' && is_frac_exp t) = true).
  { intros d Hd. pose proof (is_nat_literal_digits _ Hd) as Hall.
    assert (Hsp : span_digits d = (d, EmptyString)).
    { clear Hd. induction d as [|c d IH]; [reflexivity|]. simpl in *.
      apply andb_true_iff in Hall as [-> Hall]. rewrite (IH Hall). reflexivity. }
    rewrite Hsp, Hd. reflexivity. }
  destruct s as [|c r]; [discriminate|].
  unfold is_int_literal, is_number_literal.
  destruct (Ascii.eqb c "-"); apply Hnat.
Qed.

(** The decimal text of a Python [int]. *)

Lemma string_of_uint_digits (d : Decimal.uint) :
  all_digits (NilEmpty.string_of_uint d) = true.
Proof. induction d; simpl; auto. Qed.

Lemma to_uint_literal (p : positive) :
  is_nat_literal (NilEmpty.string_of_uint (Pos.to_uint p)) = true.
Proof.
  pose proof (Unsigned.to_uint_nonzero p) as Hnz.
  pose proof (Unsigned.to_of (Pos.to_uint p)) as Hn.
  rewrite Unsigned.of_to in Hn. simpl in Hn.
  destruct (Pos.to_uint p) as [|u|u|u|u|u|u|u|u|u|u] eqn:Hp;
    try (simpl; apply string_of_uint_digits).
  - exfalso. apply (Unsigned.to_uint_nonnil p). exact Hp.
  - exfalso. rewrite unorm_D0 in Hn. unfold Decimal.unorm in Hn.
    destruct (Decimal.nzhead u) eqn:Hu; try (symmetry in Hn; revert Hn; rewrite <- Hu; apply nzhead_nonzero).
    apply Hnz. congruence.
Qed.

Lemma string_of_Z_int_literal (n : Z) : is_int_literal (string_of_Z n) = true.
Proof.
  unfold string_of_Z. destruct n as [|p|p]; simpl.
  - reflexivity.
  - pose proof (to_uint_literal p) as H.
    destruct (Pos.to_uint p) eqn:Hp; simpl in *; try exact H.
    exfalso. apply (Unsigned.to_uint_nonnil p). exact Hp.
  - pose proof (to_uint_literal p) as H.
    destruct (Pos.to_uint p) eqn:Hp; simpl in *; try exact H.
    exfalso. apply (Unsigned.to_uint_nonnil p). exact Hp.
Qed.

Lemma Z_of_literal_string_of_Z (n : Z) : Z_of_literal (string_of_Z n) = n.
Proof.
  unfold Z_of_literal, string_of_Z. rewrite NilZero.isi.
  - apply DecimalZ.of_to.
  - destruct n as [|p|p]; simpl; try discriminate.
    intros [= Hp]. apply (Unsigned.to_uint_nonnil p). exact Hp.
  - destruct n as [|p|p]; simpl; try discriminate.
    intros [= Hp]. apply (Unsigned.to_uint_nonnil p). exact Hp.
Qed.

Lemma scan_number_int (n : Z) (r : string) :
  ends_number r = true ->
  scan_number (string_of_Z n +:+ r) = Some (JInt n, r).
Proof.
  intros Hr. unfold scan_number.
  rewrite span_number_app; [|
    apply is_number_literal_number_chars, is_int_literal_number,
      string_of_Z_int_literal | exact Hr].
  rewrite string_of_Z_int_literal, Z_of_literal_string_of_Z. reflexivity.
Qed.

Lemma scan_number_float (x : float) (r : string) :
  is_float_literal (float_repr x) = true -> ends_number r = true ->
  scan_number (float_repr x +:+ r) = Some (JFloat x, r).
Proof.
  intros Hlit Hr. unfold scan_number.
  pose proof Hlit as [Hnum Hint]%andb_true_iff.
  rewrite span_number_app; [| apply is_number_literal_number_chars, Hnum | exact Hr].
  apply negb_true_iff in Hint. rewrite Hint, Hlit, (float_of_repr x).
  reflexivity.
Qed.

Lemma is_float_token_cases (s : string) :
  is_float_token s = true ->
  is_float_literal s = true \/ s = "NaN" \/ s = "Infinity" \/ s = "-Infinity".
Proof.
  unfold is_float_token. rewrite !orb_true_iff, !String.eqb_eq. tauto.
Qed.

(* ====================================================================== *)
(** * [loads] after [dumps] *)
(* ====================================================================== *)

Lemma dumps_arr (l : list json) : dumps (JArr l) = String "[" (dumps_items l).
Proof. reflexivity. Qed.

Lemma dumps_obj (kvs : list (string * json)) :
  dumps (JObj kvs) = String "{" (dumps_members kvs).
Proof. reflexivity. Qed.

Lemma dumps_items_cons (v w : json) (r : list json) :
  dumps_items (v :: w :: r) = dumps v +:+ ", " +:+ dumps_items (w :: r).
Proof. reflexivity. Qed.

Lemma dumps_members_cons (k : string) (v : json) (kv : string * json)
  (r : list (string * json)) :
  dumps_members ((k, v) :: kv :: r) =
  quote_string k +:+ ": " +:+ dumps v +:+ ", " +:+ dumps_members (kv :: r).
Proof. reflexivity. Qed.

(** The unfoldings of the scanner. *)

Lemma scan_items_S (n : nat) (s : string) :
  scan_items (S n) s =
  match scan_once n s with
  | Some (v, r) =>
      match skip_ws r with
      | String c r' =>
          if Ascii.eqb c "," then
            match scan_items n (skip_ws r') with
            | Some (l, r'') => Some (v :: l, r'')
            | None => None
            end
          else if Ascii.eqb c "]" then Some ([v], r')
          else None
      | EmptyString => None
      end
  | None => None
  end.
Proof. reflexivity. Qed.

Lemma scan_members_S (n : nat) (r0 : string) :
  scan_members (S n) (String dquote r0) =
  match scanstring r0 with
  | Some (k, r1) =>
      match skip_ws r1 with
      | String c r2 =>
          if Ascii.eqb c ":" then
            match scan_once n (skip_ws r2) with
            | Some (v, r3) =>
                match skip_ws r3 with
                | String c' r4 =>
                    if Ascii.eqb c' "," then
                      match scan_members n (skip_ws r4) with
                      | Some (l, r5) => Some ((k, v) :: l, r5)
                      | None => None
                      end
                    else if Ascii.eqb c' "}" then Some ([(k, v)], r4)
                    else None
                | EmptyString => None
                end
            | None => None
            end
          else None
      | EmptyString => None
      end
  | None => None
  end.
Proof. reflexivity. Qed.

Lemma scan_once_arr (n : nat) (r : string) :
  scan_once (S n) (String "[" r) =
  match skip_ws r with
  | String c' r' =>
      if Ascii.eqb c' "]" then Some (JArr [], r')
      else match scan_items n (skip_ws r) with
           | Some (l, r'') => Some (JArr l, r'')
           | None => None
           end
  | EmptyString => None
  end.
Proof. reflexivity. Qed.

Lemma scan_once_obj (n : nat) (r : string) :
  scan_once (S n) (String "{" r) =
  match skip_ws r with
  | String c' r' =>
      if Ascii.eqb c' "}" then Some (JObj [], r')
      else match scan_members n (skip_ws r) with
           | Some (pairs, r'') => Some (JObj (dict_of_pairs pairs), r'')
           | None => None
           end
  | EmptyString => None
  end.
Proof. reflexivity. Qed.

Lemma scan_once_str (n : nat) (r : string) :
  scan_once (S n) (String dquote r) =
  match scanstring r with
  | Some (str, r') => Some (JStr str, r')
  | None => None
  end.
Proof. reflexivity. Qed.

Lemma scan_once_number (n : nat) (c : ascii) (s : string) (p : json * string) :
  (is_digit c || Ascii.eqb c "-") = true ->
  scan_number (String c s) = Some p ->
  scan_once (S n) (String c s) = Some p.
Proof.
  intros Hc Hp.
  assert (H : scan_once (S n) (String c s) =
              match scan_number (String c s) with
              | Some p => Some p
              | None =>
                  if Ascii.eqb c "-"
                  then scan_word "-Infinity" (JFloat (float_of_literal "-Infinity"))
                         (String c s)
                  else None
              end).
  { destruct c as [[] [] [] [] [] [] [] []]; try discriminate; reflexivity. }
  rewrite H, Hp. reflexivity.
Qed.

Lemma scan_once_float (n : nat) (x : float) (r : string) :
  ends_number r = true ->
  scan_once (S n) (float_repr x +:+ r) = Some (JFloat x, r).
Proof.
  intros Hr.
  destruct (is_float_token_cases _ (float_repr_token x)) as [Hlit | [Hw | [Hw | Hw]]].
  - pose proof Hlit as [Hnum _]%andb_true_iff.
    destruct (is_number_literal_head _ Hnum) as (c & s & Hs & Hc).
    rewrite Hs, append_cons. apply scan_once_number; [exact Hc|].
    rewrite <- append_cons, <- Hs. apply scan_number_float; assumption.
  - rewrite <- (float_of_repr x) at 2. rewrite Hw. reflexivity.
  - rewrite <- (float_of_repr x) at 2. rewrite Hw. reflexivity.
  - rewrite <- (float_of_repr x) at 2. rewrite Hw. reflexivity.
Qed.

Lemma float_repr_head (x : float) :
  exists c s, float_repr x = String c s /\ value_head c = true.
Proof.
  destruct (is_float_token_cases _ (float_repr_token x)) as [Hlit | [Hw | [Hw | Hw]]].
  - pose proof Hlit as [Hnum _]%andb_true_iff.
    destruct (is_number_literal_head _ Hnum) as (c & s & Hs & Hc).
    exists c, s. split; [exact Hs|].
    destruct c as [[] [] [] [] [] [] [] []]; try discriminate; reflexivity.
  - rewrite Hw. eexists _, _. split; reflexivity.
  - rewrite Hw. eexists _, _. split; reflexivity.
  - rewrite Hw. eexists _, _. split; reflexivity.
Qed.

Lemma number_value_head (c : ascii) :
  (is_digit c || Ascii.eqb c "-") = true -> value_head c = true.
Proof.
  destruct c as [[] [] [] [] [] [] [] []]; try discriminate; reflexivity.
Qed.

Lemma value_head_spec (c : ascii) :
  value_head c = true ->
  is_ws c = false /\ Ascii.eqb c "]" = false /\ Ascii.eqb c "}" = false.
Proof.
  unfold value_head. intros [[H1 H2]%andb_true_iff H3]%andb_true_iff.
  apply negb_true_iff in H1, H2, H3. auto.
Qed.

Lemma skip_ws_head (c : ascii) (s : string) :
  is_ws c = false -> skip_ws (String c s) = String c s.
Proof. intros H. simpl. rewrite H. reflexivity. Qed.

Lemma dumps_head (v : json) :
  json_ok v = true -> exists c s, dumps v = String c s /\ value_head c = true.
Proof.
  destruct v as [|[]|n|x|s|l|kvs]; intros Hok.
  - exists "n"%char, "ull". split; reflexivity.
  - exists "t"%char, "rue". split; reflexivity.
  - exists "f"%char, "alse". split; reflexivity.
  - destruct (is_number_literal_head (string_of_Z n)) as (c & s & Hs & Hc).
    { apply is_int_literal_number, string_of_Z_int_literal. }
    exists c, s. split; [exact Hs | apply number_value_head, Hc].
  - apply float_repr_head.
  - eexists _, _. split; reflexivity.
  - rewrite dumps_arr. eexists _, _. split; reflexivity.
  - rewrite dumps_obj. eexists _, _. split; reflexivity.
Qed.

Lemma skip_ws_dumps (v : json) (r : string) :
  json_ok v = true -> skip_ws (dumps v +:+ r) = dumps v +:+ r.
Proof.
  intros Hok. destruct (dumps_head v Hok) as (c & s & -> & Hc).
  rewrite append_cons. apply skip_ws_head, value_head_spec, Hc.
Qed.

(** The statement for one value; [scan_once_dumps] below proves it for
    every value. *)
Definition scans_back (v : json) : Prop :=
  json_ok v = true ->
  forall (fuel : nat) (r : string),
    (json_size v <= fuel)%nat -> ends_number r = true ->
    scan_once fuel (dumps v +:+ r) = Some (v, r).

Lemma scan_items_dumps (l : list json) :
  l <> [] -> Forall scans_back l -> forallb json_ok l = true ->
  forall (fuel : nat) (r : string),
    (list_sum (map (fun v => S (json_size v)) l) <= fuel)%nat ->
    scan_items fuel (dumps_items l +:+ r) = Some (l, r).
Proof.
  induction l as [|v l IH]; [congruence|].
  intros _ Hall Hok fuel r Hfuel.
  apply Forall_cons in Hall as [Hv Hall].
  simpl in Hok. apply andb_true_iff in Hok as [Hokv Hok].
  simpl in Hfuel. destruct fuel as [|n]; [lia|].
  rewrite scan_items_S. destruct l as [|w l'].
  - change (dumps_items [v]) with (dumps v +:+ "]").
    rewrite append_assoc. change ("]" +:+ r) with (String "]" r).
    rewrite (Hv Hokv n (String "]" r)); [reflexivity | lia | reflexivity].
  - rewrite dumps_items_cons, !append_assoc.
    change (", " +:+ dumps_items (w :: l') +:+ r)
      with (String "," (String " " (dumps_items (w :: l') +:+ r))).
    rewrite (Hv Hokv n); [| lia | reflexivity].
    assert (Hsk : skip_ws (String " " (dumps_items (w :: l') +:+ r))
                  = dumps_items (w :: l') +:+ r).
    { change (skip_ws (String " " (dumps_items (w :: l') +:+ r)))
        with (skip_ws (dumps_items (w :: l') +:+ r)).
      simpl in Hok. apply andb_true_iff in Hok as [Hokw _].
      destruct l' as [|w' l''].
      - change (dumps_items [w]) with (dumps w +:+ "]").
        rewrite append_assoc. apply skip_ws_dumps, Hokw.
      - rewrite dumps_items_cons, append_assoc. apply skip_ws_dumps, Hokw. }
    change (skip_ws (String "," ?s)) with (String "," s).
    cbv beta iota. change (Ascii.eqb "," ",") with true. cbv iota.
    rewrite Hsk, IH; [reflexivity | discriminate | exact Hall | exact Hok |].
    simpl. simpl in Hfuel. lia.
Qed.

Lemma scan_members_dumps (kvs : list (string * json)) :
  kvs <> [] -> Forall (fun kv => scans_back (snd kv)) kvs ->
  forallb (fun kv => json_ok (snd kv)) kvs = true ->
  forall (fuel : nat) (r : string),
    (list_sum (map (fun kv => S (json_size (snd kv))) kvs) <= fuel)%nat ->
    scan_members fuel (dumps_members kvs +:+ r) = Some (kvs, r).
Proof.
  induction kvs as [|[k v] kvs IH]; [congruence|].
  intros _ Hall Hok fuel r Hfuel.
  apply Forall_cons in Hall as [Hv Hall]. simpl in Hv.
  simpl in Hok. apply andb_true_iff in Hok as [Hokv Hok].
  simpl in Hfuel. destruct fuel as [|n]; [lia|].
  destruct kvs as [|[k' w] kvs'].
  - change (dumps_members [(k, v)]) with (quote_string k +:+ ": " +:+ dumps v +:+ "}").
    rewrite !append_assoc, quote_string_app, scan_members_S, scanstring_escape.
    change (": " +:+ dumps v +:+ "}" +:+ r)
      with (String ":" (String " " (dumps v +:+ "}" +:+ r))).
    change (skip_ws (String ":" ?s)) with (String ":" s).
    cbv beta iota. change (Ascii.eqb ":" ":") with true. cbv iota.
    change (skip_ws (String " " ?s)) with (skip_ws s).
    rewrite skip_ws_dumps by exact Hokv.
    change ("}" +:+ r) with (String "}" r).
    rewrite (Hv Hokv n (String "}" r)); [reflexivity | lia | reflexivity].
  - rewrite dumps_members_cons, !append_assoc, quote_string_app, scan_members_S,
      scanstring_escape.
    change (": " +:+ dumps v +:+ ", " +:+ dumps_members ((k', w) :: kvs') +:+ r)
      with (String ":" (String " " (dumps v +:+ ", " +:+ dumps_members ((k', w) :: kvs') +:+ r))).
    change (skip_ws (String ":" ?s)) with (String ":" s).
    cbv beta iota. change (Ascii.eqb ":" ":") with true. cbv iota.
    change (skip_ws (String " " ?s)) with (skip_ws s).
    rewrite skip_ws_dumps by exact Hokv.
    change (", " +:+ dumps_members ((k', w) :: kvs') +:+ r)
      with (String "," (String " " (dumps_members ((k', w) :: kvs') +:+ r))).
    rewrite (Hv Hokv n); [| lia | reflexivity].
    assert (Hsk : skip_ws (String " " (dumps_members ((k', w) :: kvs') +:+ r))
                  = dumps_members ((k', w) :: kvs') +:+ r).
    { change (skip_ws (String " " (dumps_members ((k', w) :: kvs') +:+ r)))
        with (skip_ws (dumps_members ((k', w) :: kvs') +:+ r)).
      destruct kvs' as [|kv'' l''].
      - change (dumps_members [(k', w)])
          with (quote_string k' +:+ ": " +:+ dumps w +:+ "}").
        rewrite quote_string_app. reflexivity.
      - destruct kv'' as [k'' w'']. rewrite dumps_members_cons, quote_string_app.
        reflexivity. }
    change (skip_ws (String "," ?s)) with (String "," s).
    cbv beta iota. change (Ascii.eqb "," ",") with true. cbv iota.
    rewrite Hsk, IH; [reflexivity | discriminate | exact Hall | exact Hok |].
    simpl. simpl in Hfuel. lia.
Qed.

(** Writing the items of a [dict] one after the other gives the [dict]
    back when no key comes twice. *)

Lemma dict_set_fresh (k : string) (v : json) (d : list (string * json)) :
  k ∉ map fst d -> dict_set k v d = d ++ [(k, v)].
Proof.
  induction d as [|[k' v'] d IH]; [reflexivity|]. simpl.
  intros Hk. apply not_elem_of_cons in Hk as [Hne Hk].
  destruct (String.eqb_spec k k') as [->|_]; [congruence|].
  rewrite (IH Hk). reflexivity.
Qed.

Lemma dict_of_pairs_acc (pairs d : list (string * json)) :
  NoDup (map fst (d ++ pairs)) ->
  fold_left (fun d kv => dict_set (fst kv) (snd kv) d) pairs d = d ++ pairs.
Proof.
  revert d. induction pairs as [|[k v] pairs IH]; intros d Hnd.
  - simpl. rewrite app_nil_r. reflexivity.
  - simpl. rewrite dict_set_fresh.
    + rewrite IH; rewrite <- app_assoc; [reflexivity | exact Hnd].
    + rewrite map_app in Hnd. apply NoDup_app in Hnd as (_ & Hdis & _).
      intros Hin. apply (Hdis k Hin). simpl. left.
Qed.

Lemma dict_of_pairs_nodup (kvs : list (string * json)) :
  NoDup (map fst kvs) -> dict_of_pairs kvs = kvs.
Proof. intros Hnd. apply (dict_of_pairs_acc kvs []). exact Hnd. Qed.

Lemma scan_once_dumps (v : json) : scans_back v.
Proof.
  induction v as [|b|n|x|s|l IH|kvs IH] using json_ind;
    intros Hok fuel r Hfuel Hr; simpl in Hfuel;
    (destruct fuel as [|m]; [lia|]).
  - reflexivity.
  - destruct b; reflexivity.
  - destruct (is_number_literal_head (string_of_Z n)) as (c & s & Hs & Hc).
    { apply is_int_literal_number, string_of_Z_int_literal. }
    change (dumps (JInt n)) with (string_of_Z n).
    rewrite Hs, append_cons. apply scan_once_number; [exact Hc|].
    rewrite <- append_cons, <- Hs. apply scan_number_int, Hr.
  - change (dumps (JFloat x)) with (float_repr x). apply scan_once_float, Hr.
  - change (dumps (JStr s)) with (quote_string s).
    rewrite quote_string_app, scan_once_str, scanstring_escape. reflexivity.
  - rewrite dumps_arr, append_cons, scan_once_arr. simpl in Hok.
    destruct l as [|v l].
    + reflexivity.
    + assert (Hsk : skip_ws (dumps_items (v :: l) +:+ r) = dumps_items (v :: l) +:+ r).
      { simpl in Hok. apply andb_true_iff in Hok as [Hokv _].
        destruct l as [|w l'].
        - change (dumps_items [v]) with (dumps v +:+ "]").
          rewrite append_assoc. apply skip_ws_dumps, Hokv.
        - rewrite dumps_items_cons, append_assoc. apply skip_ws_dumps, Hokv. }
      rewrite Hsk.
      assert (Hhd : exists c s, dumps_items (v :: l) +:+ r = String c s
                                /\ Ascii.eqb c "]" = false).
      { simpl in Hok. apply andb_true_iff in Hok as [Hokv _].
        destruct (dumps_head v Hokv) as (c & s & Hs & Hc).
        apply value_head_spec in Hc as (_ & Hc & _).
        destruct l as [|w l'].
        - change (dumps_items [v]) with (dumps v +:+ "]").
          rewrite Hs, !append_cons. eauto.
        - rewrite dumps_items_cons, Hs, !append_cons. eauto. }
      destruct Hhd as (c & s & Hs & Hc). rewrite Hs, Hc, <- Hs.
      rewrite scan_items_dumps; [reflexivity | discriminate | exact IH | exact Hok |].
      lia.
  - rewrite dumps_obj, append_cons, scan_once_obj. simpl in Hok.
    apply andb_true_iff in Hok as [Hnd%bool_decide_eq_true Hok].
    destruct kvs as [|[k v] kvs].
    + reflexivity.
    + assert (Hhd : exists s, dumps_members ((k, v) :: kvs) +:+ r = String dquote s).
      { destruct kvs as [|[k' w] kvs'].
        - change (dumps_members [(k, v)])
            with (quote_string k +:+ ": " +:+ dumps v +:+ "}").
          rewrite quote_string_app. eauto.
        - rewrite dumps_members_cons, quote_string_app. eauto. }
      destruct Hhd as (s & Hs). rewrite Hs.
      change (skip_ws (String dquote s)) with (String dquote s).
      cbv beta iota. change (Ascii.eqb dquote "}") with false. cbv iota.
      rewrite <- Hs.
      rewrite scan_members_dumps; [| discriminate | exact IH | exact Hok | lia].
      rewrite dict_of_pairs_nodup by exact Hnd. reflexivity.
Qed.

(** The text is at least as long as the value is large, so [loads] gives
    the scanner enough fuel. *)

Lemma dumps_nonempty (v : json) : json_ok v = true -> (1 <= String.length (dumps v))%nat.
Proof.
  intros Hok. destruct (dumps_head v Hok) as (c & s & -> & _). simpl. lia.
Qed.

Lemma json_size_length (v : json) :
  json_ok v = true -> (json_size v <= String.length (dumps v))%nat.
Proof.
  induction v as [|b|n|x|s|l IH|kvs IH] using json_ind; intros Hok;
    try (apply (dumps_nonempty _ Hok)).
  - rewrite dumps_arr. simpl. apply le_n_S. simpl in Hok.
    induction l as [|v l IHl]; [simpl; lia|].
    apply Forall_cons in IH as [Hv IH].
    simpl in Hok. apply andb_true_iff in Hok as [Hokv Hok].
    specialize (IHl IH Hok). specialize (Hv Hokv).
    destruct l as [|w l'].
    + change (dumps_items [v]) with (dumps v +:+ "]").
      rewrite length_append. simpl. lia.
    + rewrite dumps_items_cons, !length_append.
      change (map (fun v => S (json_size v)) (v :: w :: l'))
        with (S (json_size v) :: map (fun v => S (json_size v)) (w :: l')).
      change (list_sum (?a :: ?b)) with (a + list_sum b)%nat.
      change (String.length ", ") with 2%nat. lia.
  - rewrite dumps_obj. simpl. apply le_n_S. simpl in Hok.
    apply andb_true_iff in Hok as [_ Hok].
    induction kvs as [|[k v] l IHl]; [simpl; lia|].
    apply Forall_cons in IH as [Hv IH]. simpl in Hv.
    simpl in Hok. apply andb_true_iff in Hok as [Hokv Hok].
    specialize (IHl IH Hok). specialize (Hv Hokv).
    destruct l as [|[k' w] l'].
    + change (dumps_members [(k, v)])
        with (quote_string k +:+ ": " +:+ dumps v +:+ "}").
      rewrite !length_append. simpl. lia.
    + rewrite dumps_members_cons, !length_append.
      change (map (fun kv => S (json_size (snd kv))) ((k, v) :: (k', w) :: l'))
        with (S (json_size v) :: map (fun kv => S (json_size (snd kv))) ((k', w) :: l')).
      change (list_sum (?a :: ?b)) with (a + list_sum b)%nat.
      change (String.length ", ") with 2%nat. lia.
Qed.

(** Decoding what [dumps] wrote gives the value back. *)
Lemma loads_dumps (v : json) : json_ok v = true -> loads (dumps v) = Some v.
Proof.
  intros Hok. unfold loads.
  pose proof (skip_ws_dumps v EmptyString Hok) as Hsk.
  rewrite append_empty_r in Hsk. rewrite Hsk.
  pose proof (scan_once_dumps v Hok (S (String.length (dumps v))) EmptyString) as H.
  rewrite append_empty_r in H. rewrite H; [reflexivity | | reflexivity].
  pose proof (json_size_length v Hok). lia.
Qed.

(* ====================================================================== *)
(** * Doubles and the timestamp *)
(* ====================================================================== *)

Lemma pow2_pos (e : Z) : (0 < pow2 e)%Q.
Proof. apply Qpower_0_lt. reflexivity. Qed.

Lemma pow2_nonzero (e : Z) : ~ (pow2 e == 0)%Q.
Proof. pose proof (pow2_pos e). intros H0. rewrite H0 in H. discriminate. Qed.

Lemma pow2_add (a b : Z) : (pow2 (a + b) == pow2 a * pow2 b)%Q.
Proof. apply Qpower_plus. discriminate. Qed.

Lemma pow2_le (a b : Z) : a <= b -> (pow2 a <= pow2 b)%Q.
Proof. intros H. apply Qpower_le_compat_l; [exact H | discriminate]. Qed.

Lemma pow2_lt_inv (a b : Z) : (pow2 a < pow2 b)%Q -> a < b.
Proof. intros H. apply (Qpower_lt_compat_l_inv 2); [exact H | reflexivity]. Qed.

Lemma pow2_Z (n : Z) : 0 <= n -> (pow2 n == inject_Z (2 ^ n))%Q.
Proof. intros H. unfold pow2. symmetry. apply (Zpower_Qpower 2 n H). Qed.

Lemma binade_spec (q : Q) :
  (0 < q)%Q -> (pow2 (binade q) <= q)%Q /\ (q < pow2 (binade q + 1))%Q.
Proof.
  intros Hq. destruct q as [n d]. unfold Qlt in Hq. simpl in Hq.
  assert (Hn : 0 < n) by lia.
  pose proof (Z.log2_spec n Hn) as [Ha1 Ha2].
  pose proof (Z.log2_spec (Z.pos d) ltac:(lia)) as [Hb1 Hb2].
  pose proof (Z.log2_nonneg n) as Ha0.
  pose proof (Z.log2_nonneg (Z.pos d)) as Hb0.
  set (a := Z.log2 n) in *. set (b := Z.log2 (Z.pos d)) in *.
  assert (Hlow : (pow2 (a - b - 1) <= n # d)%Q).
  { apply (Qmult_le_r _ _ (pow2 (b + 1))); [apply pow2_pos|].
    rewrite <- pow2_add. replace (a - b - 1 + (b + 1)) with a by lia.
    rewrite !pow2_Z by lia. unfold Qle. simpl.
    unfold Z.succ in *. nia. }
  assert (Hup : (n # d < pow2 (a - b + 1))%Q).
  { apply (Qmult_lt_r _ _ (pow2 b)); [apply pow2_pos|].
    rewrite <- pow2_add. replace (a - b + 1 + b) with (a + 1) by lia.
    rewrite !pow2_Z by lia. unfold Qlt. simpl.
    unfold Z.succ in *. nia. }
  unfold binade. simpl Qnum. simpl Qden. fold a b.
  destruct (Qle_bool (pow2 (a - b)) (n # d)) eqn:Hk.
  - apply Qle_bool_iff in Hk. split; assumption.
  - assert (Hlt : (n # d < pow2 (a - b))%Q).
    { apply Qnot_le_lt. intros H. apply Qle_bool_iff in H. congruence. }
    split; [exact Hlow|]. replace (a - b - 1 + 1) with (a - b) by lia. exact Hlt.
Qed.

Lemma binade_mono (x y : Q) : (0 < x)%Q -> (x <= y)%Q -> binade x <= binade y.
Proof.
  intros Hx Hxy.
  destruct (binade_spec x Hx) as [H1 _].
  destruct (binade_spec y ltac:(lra)) as [_ H2].
  assert (H : (pow2 (binade x) < pow2 (binade y + 1))%Q) by lra.
  apply pow2_lt_inv in H. lia.
Qed.

Lemma binade_lt (x : Q) (k : Z) : (0 < x)%Q -> (x < pow2 k)%Q -> binade x < k.
Proof.
  intros Hx H. destruct (binade_spec x Hx) as [H1 _].
  apply pow2_lt_inv. lra.
Qed.


Lemma rhe_bounds (q : Q) :
  Qfloor q <= round_half_even q <= Qfloor q + 1.
Proof.
  unfold round_half_even.
  destruct (q - inject_Z (Qfloor q) ?= 1 # 2)%Q; [destruct (Z.even (Qfloor q))| |]; lia.
Qed.

Lemma rhe_inject (n : Z) : round_half_even (inject_Z n) = n.
Proof.
  unfold round_half_even. rewrite Qfloor_Z.
  destruct (Qcompare_spec (inject_Z n - inject_Z n) (1 # 2)) as [E|L|G];
    [lra | reflexivity | lra].
Qed.

Lemma rhe_mono (a b : Q) : (a <= b)%Q -> round_half_even a <= round_half_even b.
Proof.
  intros Hab.
  pose proof (Qfloor_resp_le a b Hab) as Hf.
  pose proof (rhe_bounds a) as Ha. pose proof (rhe_bounds b) as Hb.
  destruct (Z.eq_dec (Qfloor a) (Qfloor b)) as [E|NE]; [|lia].
  unfold round_half_even in *. rewrite E in *.
  destruct (Qcompare_spec (a - inject_Z (Qfloor b)) (1 # 2)) as [Ea|La|Ga];
    destruct (Qcompare_spec (b - inject_Z (Qfloor b)) (1 # 2)) as [Eb|Lb|Gb];
    try destruct (Z.even (Qfloor b)); try lia; lra.
Qed.

Lemma rhe_comp (a b : Q) : (a == b)%Q -> round_half_even a = round_half_even b.
Proof.
  intros H. apply Z.le_antisymm; apply rhe_mono; rewrite H; apply Qle_refl.
Qed.

Lemma rhe_le_half (q : Q) : (inject_Z (round_half_even q) <= q + (1 # 2))%Q.
Proof.
  unfold round_half_even.
  pose proof (Qfloor_le q) as Hf.
  destruct (Qcompare_spec (q - inject_Z (Qfloor q)) (1 # 2)) as [E|L|G];
    [destruct (Z.even (Qfloor q))| |];
    rewrite ?inject_Z_plus; try lra.
  all: change (inject_Z 1) with 1%Q; lra.
Qed.



Lemma double_pos_eq (q : Q) :
  double_pos q = (inject_Z (round_half_even (q / pow2 (exponent q))) * pow2 (exponent q))%Q.
Proof. reflexivity. Qed.

Lemma scaled_lt (x : Q) : (0 < x)%Q -> (x / pow2 (exponent x) < pow2 53)%Q.
Proof.
  intros Hx. destruct (binade_spec x Hx) as [_ H].
  apply Qlt_shift_div_r; [apply pow2_pos|]. rewrite <- pow2_add.
  eapply Qlt_le_trans; [exact H|]. apply pow2_le. unfold exponent. lia.
Qed.

Lemma scaled_ge (x : Q) :
  (0 < x)%Q -> exponent x = binade x - 52 -> (pow2 52 <= x / pow2 (exponent x))%Q.
Proof.
  intros Hx He. destruct (binade_spec x Hx) as [H _].
  apply Qle_shift_div_l; [apply pow2_pos|]. rewrite <- pow2_add.
  rewrite He. replace (52 + (binade x - 52)) with (binade x) by lia. exact H.
Qed.

Lemma double_pos_nonneg (x : Q) : (0 < x)%Q -> (0 <= double_pos x)%Q.
Proof.
  intros Hx. rewrite double_pos_eq.
  apply Qmult_le_0_compat; [|apply Qlt_le_weak, pow2_pos].
  change 0%Q with (inject_Z 0). rewrite <- Zle_Qle.
  rewrite <- (rhe_inject 0). apply rhe_mono.
  apply Qle_shift_div_l; [apply pow2_pos|].
  change (inject_Z 0) with 0%Q. rewrite Qmult_0_l. lra.
Qed.

Lemma double_pos_mono (x y : Q) :
  (0 < x)%Q -> (x <= y)%Q -> (double_pos x <= double_pos y)%Q.
Proof.
  intros Hx Hxy. assert (Hy : (0 < y)%Q) by lra.
  rewrite !double_pos_eq.
  assert (He : exponent x <= exponent y).
  { unfold exponent. pose proof (binade_mono x y Hx Hxy). lia. }
  destruct (Z.eq_dec (exponent x) (exponent y)) as [E|NE].
  - rewrite E. apply Qmult_le_compat_r; [|apply Qlt_le_weak, pow2_pos].
    rewrite <- Zle_Qle. apply rhe_mono.
    apply Qmult_le_compat_r; [exact Hxy|].
    apply Qlt_le_weak, Qinv_lt_0_compat, pow2_pos.
  - assert (Hlt : exponent x < exponent y) by lia.
    assert (Hey : exponent y = binade y - 52) by (unfold exponent in *; lia).
    apply Qle_trans with (pow2 53 * pow2 (exponent x))%Q.
    + apply Qmult_le_compat_r; [|apply Qlt_le_weak, pow2_pos].
      rewrite (pow2_Z 53) by lia. rewrite <- Zle_Qle.
      rewrite <- (rhe_inject (2 ^ 53)). apply rhe_mono.
      rewrite <- (pow2_Z 53) by lia. apply Qlt_le_weak, scaled_lt, Hx.
    + apply Qle_trans with (pow2 52 * pow2 (exponent y))%Q.
      * rewrite <- !pow2_add. apply pow2_le. lia.
      * apply Qmult_le_compat_r; [|apply Qlt_le_weak, pow2_pos].
        rewrite (pow2_Z 52) by lia. rewrite <- Zle_Qle.
        rewrite <- (rhe_inject (2 ^ 52)). apply rhe_mono.
        rewrite <- (pow2_Z 52) by lia. apply scaled_ge; assumption.
Qed.

Lemma double_pos_int (n : Z) :
  0 < n < 2 ^ 53 -> (double_pos (inject_Z n) == inject_Z n)%Q.
Proof.
  intros [Hn Hlt].
  assert (Hq : (0 < inject_Z n)%Q) by (change 0%Q with (inject_Z 0); rewrite <- Zlt_Qlt; lia).
  assert (Hb : binade (inject_Z n) < 53).
  { apply binade_lt; [exact Hq|]. rewrite pow2_Z by lia. rewrite <- Zlt_Qlt. exact Hlt. }
  rewrite double_pos_eq. set (e := exponent (inject_Z n)).
  assert (He : e <= 0) by (unfold e, exponent; lia).
  assert (Hs : (inject_Z n / pow2 e == inject_Z (n * 2 ^ (- e)))%Q).
  { rewrite inject_Z_mult, <- pow2_Z by lia.
    apply Qmult_inj_r with (pow2 e); [apply pow2_nonzero|].
    unfold Qdiv. rewrite <- !Qmult_assoc, <- pow2_add.
    rewrite (Qmult_comm (/ pow2 e)), Qmult_inv_r by apply pow2_nonzero.
    replace (- e + e) with 0 by lia. reflexivity. }
  rewrite (rhe_comp _ _ Hs), rhe_inject, inject_Z_mult, <- pow2_Z by lia.
  rewrite <- Qmult_assoc, <- pow2_add. replace (- e + e) with 0 by lia.
  change (pow2 0) with 1%Q. apply Qmult_1_r.
Qed.

Lemma double_pos_le_half (x : Q) :
  (0 < x)%Q -> (x < pow2 53)%Q -> (double_pos x <= x + (1 # 2))%Q.
Proof.
  intros Hx Hlt. rewrite double_pos_eq. set (e := exponent x).
  assert (He : e <= 0).
  { pose proof (binade_lt x 53 Hx Hlt). unfold e, exponent. lia. }
  pose proof (rhe_le_half (x / pow2 e)) as H.
  pose proof (pow2_pos e) as Hp.
  assert (Hp1 : (pow2 e <= 1)%Q) by (change 1%Q with (pow2 0); apply pow2_le, He).
  apply Qle_trans with ((x / pow2 e + (1 # 2)) * pow2 e)%Q.
  - apply Qmult_le_compat_r; [exact H | lra].
  - rewrite Qmult_plus_distr_l. unfold Qdiv.
    rewrite <- Qmult_assoc, (Qmult_comm (/ pow2 e)), Qmult_inv_r by apply pow2_nonzero.
    rewrite Qmult_1_r. lra.
Qed.


Lemma double_of_pos (x : Q) : (0 < x)%Q -> double_of x = double_pos x.
Proof.
  intros H. unfold double_of.
  destruct (Qcompare_spec x 0) as [E|L|G]; [lra | lra | reflexivity].
Qed.

Lemma double_of_neg (x : Q) : (x < 0)%Q -> double_of x = (- double_pos (- x))%Q.
Proof.
  intros H. unfold double_of.
  destruct (Qcompare_spec x 0) as [E|L|G]; [lra | reflexivity | lra].
Qed.

Lemma double_of_zero (x : Q) : (x == 0)%Q -> double_of x = 0%Q.
Proof.
  intros H. unfold double_of.
  destruct (Qcompare_spec x 0) as [E|L|G]; [reflexivity | lra | lra].
Qed.

Lemma double_of_mono (x y : Q) : (x <= y)%Q -> (double_of x <= double_of y)%Q.
Proof.
  intros Hxy.
  destruct (Qlt_le_dec 0 x) as [Hx|Hx].
  - rewrite !double_of_pos by lra. apply double_pos_mono; assumption.
  - destruct (Qlt_le_dec 0 y) as [Hy|Hy].
    + rewrite (double_of_pos y) by exact Hy.
      pose proof (double_pos_nonneg y Hy) as H0.
      destruct (Qlt_le_dec x 0) as [Hx'|Hx'].
      * rewrite double_of_neg by exact Hx'.
        pose proof (double_pos_nonneg (- x) ltac:(lra)). lra.
      * rewrite double_of_zero by lra. exact H0.
    + destruct (Qlt_le_dec y 0) as [Hy'|Hy'].
      * rewrite !double_of_neg by lra.
        pose proof (double_pos_mono (- y) (- x) ltac:(lra) ltac:(lra)). lra.
      * rewrite (double_of_zero y) by lra.
        destruct (Qlt_le_dec x 0) as [Hx'|Hx'].
        -- rewrite double_of_neg by exact Hx'.
           pose proof (double_pos_nonneg (- x) ltac:(lra)). lra.
        -- rewrite double_of_zero by lra. apply Qle_refl.
Qed.

Lemma double_of_int (n : Z) :
  0 <= n < 2 ^ 53 -> (double_of (inject_Z n) == inject_Z n)%Q.
Proof.
  intros [H0 Hlt]. destruct (Z.eq_dec n 0) as [->|Hn]; [reflexivity|].
  rewrite double_of_pos.
  - apply double_pos_int. lia.
  - change 0%Q with (inject_Z 0). rewrite <- Zlt_Qlt. lia.
Qed.

Lemma trunc_mono (a b : Q) : (a <= b)%Q -> trunc a <= trunc b.
Proof.
  unfold Qle, trunc. intros H.
  rewrite <- (Z.quot_mul_cancel_r (Qnum a) (Z.pos (Qden a)) (Z.pos (Qden b))) by lia.
  rewrite <- (Z.quot_mul_cancel_r (Qnum b) (Z.pos (Qden b)) (Z.pos (Qden a))) by lia.
  rewrite (Z.mul_comm (Z.pos (Qden b)) (Z.pos (Qden a))).
  apply Z.quot_le_mono; lia.
Qed.

Lemma trunc_inject (n : Z) : trunc (inject_Z n) = n.
Proof. unfold trunc. simpl. apply Z.quot_1_r. Qed.

Lemma trunc_le (q : Q) : (0 <= q)%Q -> (inject_Z (trunc q) <= q)%Q.
Proof.
  intros H. destruct q as [n d]. unfold Qle in *. unfold trunc. simpl in *.
  rewrite Z.quot_div_nonneg by lia.
  pose proof (Z.mul_div_le n (Z.pos d) ltac:(lia)). lia.
Qed.

Lemma millis_mono (a b : Q) : (a <= b)%Q -> millis a <= millis b.
Proof.
  intros H. unfold millis. apply trunc_mono, double_of_mono.
  apply Qmult_le_compat_r; [exact H | discriminate].
Qed.

Lemma millis_bounds (t : Q) :
  (0 <= t)%Q -> (t * 1000 < inject_Z (2 ^ 53))%Q ->
  (t * 1000 - 1 < inject_Z (millis t))%Q /\
  (inject_Z (millis t) <= t * 1000 + (1 # 2))%Q.
Proof.
  intros H0 Hlt. set (x := (t * 1000)%Q) in *.
  assert (Hx : (0 <= x)%Q) by (unfold x; lra).
  split.
  - assert (Hfl : 0 <= Qfloor x < 2 ^ 53).
    { split.
      - rewrite <- (Qfloor_Z 0). apply Qfloor_resp_le. exact Hx.
      - rewrite Zlt_Qlt. eapply Qle_lt_trans; [apply Qfloor_le | exact Hlt]. }
    assert (H1 : Qfloor x <= millis t).
    { unfold millis. fold x. rewrite <- (trunc_inject (Qfloor x)).
      apply trunc_mono. rewrite <- (double_of_int (Qfloor x) Hfl).
      apply double_of_mono, Qfloor_le. }
    pose proof (Qlt_floor x) as H2. rewrite inject_Z_plus in H2.
    change (inject_Z 1) with 1%Q in H2.
    rewrite Zle_Qle in H1. lra.
  - unfold millis. fold x.
    destruct (Qlt_le_dec 0 x) as [Hp|Hz].
    + eapply Qle_trans; [apply trunc_le|].
      * rewrite double_of_pos by exact Hp. apply double_pos_nonneg, Hp.
      * rewrite double_of_pos by exact Hp. apply double_pos_le_half; [exact Hp|].
        rewrite pow2_Z by lia. exact Hlt.
    + rewrite double_of_zero by lra. change (trunc 0) with 0.
      change (inject_Z 0) with 0%Q. lra.
Qed.

Lemma millis_whole (n : Z) (t : Q) :
  0 <= n < 2 ^ 53 -> (t * 1000 == inject_Z n)%Q -> millis t = n.
Proof.
  intros Hn Ht. unfold millis.
  assert (E : (double_of (t * 1000) == inject_Z n)%Q).
  { rewrite <- (double_of_int n Hn).
    apply Qle_antisym; apply double_of_mono; rewrite Ht; apply Qle_refl. }
  rewrite <- (trunc_inject n).
  apply Z.le_antisymm; apply trunc_mono; rewrite E; apply Qle_refl.
Qed.

(* ====================================================================== *)
(** * Sending *)
(* ====================================================================== *)

#[local] Arguments frame_of : simpl never.
#[local] Arguments dumps : simpl never.
#[local] Arguments loads : simpl never.
#[local] Arguments send_message : simpl never.
#[local] Arguments create_message : simpl never.

Lemma create_message_spec (msg_type : string) (payload : option json)
  (sid : option string) (w : World) :
  create_message msg_type payload sid w =
  (Ok (dumps (envelope msg_type (session_or sid (sync_state w)) (millis (now w))
                (payload_or payload))),
   tick w).
Proof. reflexivity. Qed.

Lemma send_message_offline (msg_type : string) (payload : json) (w : World) :
  connected (sync_state w) = false \/ ws (sync_state w) = None ->
  send_message msg_type payload w = (Ok false, w).
Proof.
  intros H. unfold send_message, bind, get_state.
  destruct H as [-> | ->]; [reflexivity|].
  rewrite orb_true_r. reflexivity.
Qed.

Lemma send_message_online (msg_type : string) (payload : json) (w : World)
  (app : WebSocketApp) :
  connected (sync_state w) = true -> ws (sync_state w) = Some app ->
  sock_connected app = true ->
  send_message msg_type payload w =
  (Ok true, sent_world app (frame_of msg_type payload w) (tick w)).
Proof.
  intros Hc Hws Hsock.
  unfold send_message, bind, get_state, try_except, create_message, time_time,
    ws_send, bind, get_state, modify_state, ret.
  rewrite Hc, Hws. simpl. rewrite Hws, Hsock. reflexivity.
Qed.

Lemma send_message_socket_closed (msg_type : string) (payload : json) (w : World)
  (app : WebSocketApp) :
  connected (sync_state w) = true -> ws (sync_state w) = Some app ->
  sock_connected app = false ->
  send_message msg_type payload w =
  (Ok false,
   printed (PrintError "Send error" WebSocketConnectionClosedException) (tick w)).
Proof.
  intros Hc Hws Hsock.
  unfold send_message, bind, get_state, try_except, create_message, time_time,
    ws_send, bind, get_state, modify_state, ret, raise, print.
  rewrite Hc, Hws. simpl. rewrite Hws, Hsock. reflexivity.
Qed.

(** [send_message] returns and never raises. *)
Lemma send_message_total (msg_type : string) (payload : json) (w : World) :
  exists b w', send_message msg_type payload w = (Ok b, w').
Proof.
  destruct (connected (sync_state w)) eqn:Hc.
  - destruct (ws (sync_state w)) as [app|] eqn:Hws.
    + destruct (sock_connected app) eqn:Hsock.
      * rewrite (send_message_online _ _ _ app) by assumption. eauto.
      * rewrite (send_message_socket_closed _ _ _ app) by assumption. eauto.
    + rewrite send_message_offline by auto. eauto.
  - rewrite send_message_offline by auto. eauto.
Qed.

(* ====================================================================== *)
(** * Envelopes on the wire *)
(* ====================================================================== *)

Lemma json_ok_envelope (msg_type sid : string) (ts : Z) (payload : json) :
  json_ok payload = true -> json_ok (envelope msg_type sid ts payload) = true.
Proof.
  intros Hp. unfold envelope.
  change (json_ok (JObj ?kvs))
    with (bool_decide (NoDup (map fst kvs)) && forallb (fun kv => json_ok (snd kv)) kvs).
  apply andb_true_iff. split.
  - vm_compute. reflexivity.
  - simpl. rewrite Hp. reflexivity.
Qed.

Lemma loads_envelope (msg_type sid : string) (ts : Z) (payload : json) :
  json_ok payload = true ->
  loads (dumps (envelope msg_type sid ts payload)) =
  Some (envelope msg_type sid ts payload).
Proof. intros Hp. apply loads_dumps, json_ok_envelope, Hp. Qed.

Lemma frame_type_envelope (msg_type sid : string) (ts : Z) (payload : json) :
  json_ok payload = true ->
  frame_type (dumps (envelope msg_type sid ts payload)) = Some (JStr msg_type).
Proof. intros Hp. unfold frame_type. rewrite loads_envelope by exact Hp. reflexivity. Qed.

Lemma frame_payload_envelope (msg_type sid : string) (ts : Z) (payload : json) :
  json_ok payload = true ->
  frame_payload (dumps (envelope msg_type sid ts payload)) = Some payload.
Proof. intros Hp. unfold frame_payload. rewrite loads_envelope by exact Hp. reflexivity. Qed.

Lemma json_ok_vector (v : Vector) : json_ok (json_of_vector v) = true.
Proof. reflexivity. Qed.

Lemma json_ok_transform_payload (name : string) (o : Object) :
  json_ok (transform_payload name o) = true.
Proof.
  unfold transform_payload, get_object_transform.
  change (json_ok (JObj ?kvs))
    with (bool_decide (NoDup (map fst kvs)) && forallb (fun kv => json_ok (snd kv)) kvs).
  apply andb_true_iff. split.
  - vm_compute. reflexivity.
  - reflexivity.
Qed.

Lemma is_transform_for_frame (name e : string) (o : Object) (w : World) :
  is_transform_for e (frame_of TRANSFORM (transform_payload name o) w)
  = String.eqb name e.
Proof.
  unfold is_transform_for, frame_of, frame_field.
  change (py_or (transform_payload name o) (JObj [])) with (transform_payload name o).
  rewrite frame_type_envelope, frame_payload_envelope
    by apply json_ok_transform_payload.
  reflexivity.
Qed.

(* ====================================================================== *)
(** * The outbound scan *)
(* ====================================================================== *)

Lemma sent_frames_tick (w : World) : sent_frames (tick w) = sent_frames w.
Proof. reflexivity. Qed.

Lemma online_tick (w : World) : online (tick w) = online w.
Proof. reflexivity. Qed.

(** What one turn of the scan changes. *)
Lemma scan_update_spec (u : DepsgraphUpdate) (w : World) :
  let w1 := exec (scan_update u) w in
  eval (scan_update u) w = Ok tt /\
  sent_frames w1 = sent_frames w ++ scan_output u w /\
  ignore_next_update (sync_state w1) = scan_guard u (ignore_next_update (sync_state w)) /\
  bpy w1 = bpy w /\
  online w1 = online w /\
  connected (sync_state w1) = connected (sync_state w) /\
  last_sync_time (sync_state w1) = last_sync_time (sync_state w) /\
  session_id (sync_state w1) = session_id (sync_state w) /\
  clock w1 = clock w.
Proof.
  unfold exec, eval, scan_update, scan_output, scan_guard.
  destruct (upd_id u) as [name|name]; cbn -[send_transform].
  2: { rewrite app_nil_r. repeat split; reflexivity. }
  unfold bind, get_state. cbn -[send_transform].
  destruct (bool_decide (name ∈ ignore_next_update (sync_state w))) eqn:Hin.
  { cbn. rewrite app_nil_r. repeat split; reflexivity. }
  cbn -[send_transform].
  assert (Hg : ignore_next_update (sync_state w) =
               ignore_next_update (sync_state w) ∖ {[name]}).
  { apply bool_decide_eq_false in Hin. set_solver. }
  destruct (objects (bpy w) !! name) as [o|] eqn:Ho; cbn -[send_transform].
  2: { rewrite app_nil_r. repeat split; try reflexivity. exact Hg. }
  destruct (String.eqb (type o) "MESH" && is_updated_transform u) eqn:Hfw;
    cbn -[send_transform].
  2: { rewrite app_nil_r. repeat split; try reflexivity. exact Hg. }
  unfold send_transform, bind.
  destruct (connected (sync_state w)) eqn:Hc.
  2: { rewrite send_message_offline by auto.
       assert (Hon : online w = false) by (unfold online; rewrite Hc; reflexivity).
       rewrite Hon, ?andb_false_r. cbn. rewrite app_nil_r.
       repeat split; try reflexivity; assumption. }
  destruct (ws (sync_state w)) as [app|] eqn:Hws.
  2: { rewrite send_message_offline by auto.
       assert (Hon : online w = false) by (unfold online; rewrite Hc, Hws; reflexivity).
       rewrite Hon, ?andb_false_r. cbn. rewrite app_nil_r.
       repeat split; try reflexivity; assumption. }
  destruct (sock_connected app) eqn:Hsock.
  - rewrite (send_message_online _ _ _ app) by assumption.
    assert (Hon : online w = true) by (unfold online; rewrite Hc, Hws; exact Hsock).
    rewrite Hon. cbn. unfold online, sent_frames. cbn. rewrite Hc, Hws. cbn.
    repeat split; try reflexivity; assumption.
  - rewrite (send_message_socket_closed _ _ _ app) by assumption.
    assert (Hon : online w = false) by (unfold online; rewrite Hc, Hws; exact Hsock).
    rewrite Hon, ?andb_false_r. cbn. rewrite app_nil_r.
    repeat split; try reflexivity; try assumption.
Qed.

Lemma for_each_cons_ok {A : Type} (f : A -> M unit) (x : A) (l : list A) (w : World) :
  eval (f x) w = Ok tt ->
  for_each (x :: l) f w = for_each l f (exec (f x) w).
Proof.
  unfold eval, exec. intros H. simpl. unfold bind.
  destruct (f x w) as [r w1]. simpl in *. subst r. reflexivity.
Qed.

(** What a whole scan changes. *)
Lemma scan_spec (us : list DepsgraphUpdate) (w : World) :
  let w' := exec (for_each us scan_update) w in
  eval (for_each us scan_update) w = Ok tt /\
  sent_frames w' = sent_frames w ++ scan_frames us w /\
  ignore_next_update (sync_state w') =
    ignore_next_update (sync_state w) ∖ list_to_set (updated_objects us) /\
  bpy w' = bpy w /\
  online w' = online w /\
  connected (sync_state w') = connected (sync_state w) /\
  last_sync_time (sync_state w') = last_sync_time (sync_state w) /\
  session_id (sync_state w') = session_id (sync_state w) /\
  clock w' = clock w.
Proof.
  revert w. induction us as [|u us IH]; intros w.
  - cbn. rewrite app_nil_r. repeat split; try reflexivity. set_solver.
  - destruct (scan_update_spec u w) as (Hev & Hs & Hg & Hb & Ho & Hc & Hl & Hsid & Hck).
    unfold exec, eval in *. rewrite (for_each_cons_ok _ _ _ _ Hev).
    destruct (IH (exec (scan_update u) w))
      as (Hev' & Hs' & Hg' & Hb' & Ho' & Hc' & Hl' & Hsid' & Hck').
    unfold exec, eval in *.
    rewrite Hev', Hs', Hg', Hb', Ho', Hc', Hl', Hsid', Hck'.
    rewrite Hs, Hg, Hb, Ho, Hc, Hl, Hsid, Hck.
    repeat split; try reflexivity.
    + rewrite <- app_assoc. reflexivity.
    + unfold scan_guard. simpl. destruct (upd_id u); set_solver.
Qed.

(** The three ways a notification goes. *)
Lemma handler_disconnected (us : list DepsgraphUpdate) (w : World) :
  connected (sync_state w) = false ->
  depsgraph_update_handler us w = (Ok tt, w).
Proof.
  intros Hc. unfold depsgraph_update_handler, bind, get_state. rewrite Hc. reflexivity.
Qed.

Lemma handler_dropped (us : list DepsgraphUpdate) (w : World) :
  connected (sync_state w) = true ->
  under_interval (now w) (last_sync_time (sync_state w)) = true ->
  depsgraph_update_handler us w = (Ok tt, tick w).
Proof.
  intros Hc Hu. unfold depsgraph_update_handler, bind, get_state, time_time.
  rewrite Hc. cbn. rewrite Hu. reflexivity.
Qed.

Lemma handler_accepted (us : list DepsgraphUpdate) (w : World) :
  gate_open w = true ->
  depsgraph_update_handler us w = for_each us scan_update (accepted w).
Proof.
  unfold gate_open. intros [Hc Hu%negb_true_iff]%andb_true_iff.
  unfold depsgraph_update_handler, bind, get_state, time_time, modify_state.
  rewrite Hc. cbn. rewrite Hu. reflexivity.
Qed.

Lemma handler_cases (us : list DepsgraphUpdate) (w : World) :
  depsgraph_update_handler us w =
  if gate_open w then for_each us scan_update (accepted w)
  else if connected (sync_state w) then (Ok tt, tick w)
  else (Ok tt, w).
Proof.
  destruct (gate_open w) eqn:Hg; [apply handler_accepted, Hg|].
  destruct (connected (sync_state w)) eqn:Hc; [|apply handler_disconnected, Hc].
  apply handler_dropped; [exact Hc|].
  unfold gate_open in Hg. rewrite Hc in Hg. simpl in Hg.
  apply negb_false_iff in Hg. exact Hg.
Qed.

(** A scan writes no [transform] for an entity that is in the echo guard
    when its one update comes. *)
Lemma scan_frames_suppressed (e : string) (us : list DepsgraphUpdate) (w : World) :
  NoDup (updated_objects us) ->
  e ∈ ignore_next_update (sync_state w) \/ e ∉ updated_objects us ->
  Forall (fun f => is_transform_for e f = false) (scan_frames us w).
Proof.
  revert w. induction us as [|u us IH]; intros w Hnd He; [constructor|].
  simpl. apply Forall_app. split.
  - unfold scan_output. destruct (upd_id u) as [name|name] eqn:Hu; [|constructor].
    destruct (bool_decide (name ∈ ignore_next_update (sync_state w))) eqn:Hin;
      [constructor|].
    destruct (objects (bpy w) !! name) as [o|]; [|constructor].
    destruct (String.eqb (type o) "MESH" && is_updated_transform u && online w);
      [|constructor].
    constructor; [|constructor]. rewrite is_transform_for_frame.
    apply String.eqb_neq. intros ->.
    apply bool_decide_eq_false in Hin.
    destruct He as [He | He]; [contradiction|].
    apply He. simpl. rewrite Hu. left.
  - destruct (scan_update_spec u w) as (_ & _ & Hg & _).
    simpl in Hnd. apply IH.
    + destruct (upd_id u); [apply NoDup_cons in Hnd as [_ Hnd]|]; exact Hnd.
    + rewrite Hg. unfold scan_guard. simpl in He.
      destruct (upd_id u) as [name|name]; [|exact He].
      apply NoDup_cons in Hnd as [Hnotin _].
      destruct (decide (e = name)) as [->|Hne]; [right; exact Hnotin|].
      destruct He as [He | He]; [left; set_solver | right].
      intros Hin. apply He. right. exact Hin.
Qed.

(** A scan writes a [transform] for an entity that is not in the echo guard
    when the update is the transform of a mesh and the add-on is online. *)
Lemma scan_frames_emitted (e : string) (u : DepsgraphUpdate)
  (us : list DepsgraphUpdate) (w : World) :
  u ∈ us -> upd_id u = IdObject e -> forwardable (bpy w) u = true ->
  online w = true -> e ∉ ignore_next_update (sync_state w) ->
  Exists (fun f => is_transform_for e f = true) (scan_frames us w).
Proof.
  revert w. induction us as [|u0 us IH]; intros w Hin Hu Hfw Hon He.
  - apply elem_of_nil in Hin. contradiction.
  - simpl. apply Exists_app. apply elem_of_cons in Hin as [<- | Hin].
    + left. unfold scan_output. rewrite Hu.
      rewrite bool_decide_eq_false_2 by exact He.
      unfold forwardable in Hfw. rewrite Hu in Hfw.
      destruct (objects (bpy w) !! e) as [o|]; [|discriminate].
      rewrite Hfw, Hon. simpl. constructor.
      rewrite is_transform_for_frame. apply String.eqb_refl.
    + right. destruct (scan_update_spec u0 w) as (_ & _ & Hg & Hb & Ho & _).
      apply IH; try assumption.
      * rewrite Hb. exact Hfw.
      * rewrite Ho. exact Hon.
      * rewrite Hg. unfold scan_guard. destruct (upd_id u0); set_solver.
Qed.

(* ====================================================================== *)
(** * Relations every step of a computation keeps *)
(* ====================================================================== *)

Section preserves.
Context (R : World -> World -> Prop).
Hypothesis R_refl : forall w, R w w.
Hypothesis R_trans : forall w1 w2 w3, R w1 w2 -> R w2 w3 -> R w1 w3.

Lemma preserves_ret {A : Type} (a : A) : preserves R (ret a).
Proof. intros w. apply R_refl. Qed.

Lemma preserves_raise {A : Type} (e : exn) : preserves R (@raise A e).
Proof. intros w. apply R_refl. Qed.

Lemma preserves_get_state : preserves R get_state.
Proof. intros w. apply R_refl. Qed.

Lemma preserves_get_bpy : preserves R get_bpy.
Proof. intros w. apply R_refl. Qed.

Lemma preserves_bind {A B : Type} (m : M A) (k : A -> M B) :
  preserves R m -> (forall a, preserves R (k a)) -> preserves R (bind m k).
Proof.
  intros Hm Hk w. unfold exec, bind. specialize (Hm w). unfold exec in Hm.
  destruct (m w) as [[a|e] w1]; simpl in *.
  - eapply R_trans; [exact Hm | apply (Hk a w1)].
  - exact Hm.
Qed.

Lemma preserves_try_except {A : Type} (m : M A) (h : exn -> M A) :
  preserves R m -> (forall e, preserves R (h e)) -> preserves R (try_except m h).
Proof.
  intros Hm Hh w. unfold exec, try_except. specialize (Hm w). unfold exec in Hm.
  destruct (m w) as [[a|e] w1]; simpl in *.
  - exact Hm.
  - eapply R_trans; [exact Hm | apply (Hh e w1)].
Qed.

Lemma preserves_for_each {A : Type} (l : list A) (f : A -> M unit) :
  (forall x, preserves R (f x)) -> preserves R (for_each l f).
Proof.
  intros Hf. induction l as [|x l IH]; simpl.
  - apply preserves_ret.
  - apply preserves_bind; [apply Hf | intros _; exact IH].
Qed.

Lemma preserves_modify_state (f : BisectSyncState -> BisectSyncState) :
  (forall w, R w (upd_state f w)) -> preserves R (modify_state f).
Proof. intros H w. apply H. Qed.

Lemma preserves_modify_bpy (f : BlendData -> BlendData) :
  (forall w, R w (upd_bpy f w)) -> preserves R (modify_bpy f).
Proof. intros H w. apply H. Qed.

Lemma preserves_print (o : output) :
  (forall w, R w (printed o w)) -> preserves R (print o).
Proof. intros H w. apply H. Qed.

Lemma preserves_time_time :
  (forall w, R w (tick w)) -> preserves R time_time.
Proof. intros H w. apply H. Qed.
End preserves.

(** One step of the proof that a function of the add-on keeps a relation:
    through the structure of the computation, then into the function
    called. *)
Ltac head_of t :=
  lazymatch t with
  | ?f _ => head_of f
  | _ => t
  end.

Ltac preserves_leaf :=
  intros; unfold guard_grows, same_last_sync, same_queue; cbn;
  repeat (match goal with
          | |- context [match ?x with _ => _ end] => destruct x; cbn
          end);
  first [reflexivity | set_solver].

Ltac preserves_order :=
  unfold guard_grows, same_last_sync, same_queue; intros;
  first [reflexivity | congruence | set_solver].

Create HintDb preserves_db.

Ltac preserves_step :=
  first [ solve [auto 1 with preserves_db] |
  lazymatch goal with
  | |- preserves _ (bind _ _) => apply preserves_bind; [preserves_order | | intros ?]
  | |- preserves _ (ret _) => apply preserves_ret; preserves_order
  | |- preserves _ (raise _) => apply preserves_raise; preserves_order
  | |- preserves _ get_state => apply preserves_get_state; preserves_order
  | |- preserves _ get_bpy => apply preserves_get_bpy; preserves_order
  | |- preserves _ (try_except _ _) =>
      apply preserves_try_except; [preserves_order | | intros ?]
  | |- preserves _ (for_each _ _) =>
      apply preserves_for_each; [preserves_order | preserves_order | intros ?]
  | |- preserves _ (modify_state _) => apply preserves_modify_state; preserves_leaf
  | |- preserves _ (modify_bpy _) => apply preserves_modify_bpy; preserves_leaf
  | |- preserves _ (print _) => apply preserves_print; preserves_leaf
  | |- preserves _ time_time => apply preserves_time_time; preserves_leaf
  | |- preserves _ (if ?b then _ else _) => destruct b
  | |- preserves _ (match ?x with _ => _ end) => destruct x
  | |- preserves _ (let '(_, _) := ?x in _) => destruct x
  | |- preserves _ ?m => let h := head_of m in unfold h
  end ].

Ltac preserves_tac := repeat preserves_step.

(** The functions on the inbound side lose no entity of the echo guard and
    touch neither the rate limiter nor the queue. *)

Lemma send_message_guard (t : string) (p : json) :
  preserves guard_grows (send_message t p).
Proof. preserves_tac. Qed.

Lemma send_message_last_sync (t : string) (p : json) :
  preserves same_last_sync (send_message t p).
Proof. preserves_tac. Qed.

Lemma send_message_queue (t : string) (p : json) :
  preserves same_queue (send_message t p).
Proof. preserves_tac. Qed.

Lemma process_message_guard (raw : string) :
  preserves guard_grows (process_message raw).
Proof. preserves_tac. Qed.

Lemma process_message_last_sync (raw : string) :
  preserves same_last_sync (process_message raw).
Proof. preserves_tac. Qed.

Lemma process_message_queue (raw : string) :
  preserves same_queue (process_message raw).
Proof. preserves_tac. Qed.

#[local] Hint Resolve process_message_guard process_message_last_sync
  process_message_queue : preserves_db.

Lemma process_frames_guard (q : list string) :
  preserves guard_grows (process_frames q).
Proof. induction q as [|raw q IH]; simpl; preserves_tac. Qed.

Lemma process_frames_last_sync (q : list string) :
  preserves same_last_sync (process_frames q).
Proof. induction q as [|raw q IH]; simpl; preserves_tac. Qed.

#[local] Hint Resolve process_frames_guard process_frames_last_sync : preserves_db.

(** Only the outbound scan takes an entity out of the echo guard or moves
    the rate limiter. *)
Lemma run_event_guard (ev : event) :
  (forall us, ev <> EvDepsgraph us) -> preserves guard_grows (run_event ev).
Proof. intros Hev. destruct ev; try (exfalso; eapply Hev; reflexivity); preserves_tac. Qed.

Lemma run_event_last_sync (ev : event) :
  (forall us, ev <> EvDepsgraph us) -> preserves same_last_sync (run_event ev).
Proof. intros Hev. destruct ev; try (exfalso; eapply Hev; reflexivity); preserves_tac. Qed.

(* ====================================================================== *)
(** * The rate gate *)
(* ====================================================================== *)

Lemma under_interval_true (t last : Q) :
  under_interval t last = true <-> (t - last < sync_interval)%Q.
Proof.
  unfold under_interval. rewrite negb_true_iff.
  destruct (Qle_bool sync_interval (t - last)) eqn:H.
  - apply Qle_bool_iff in H. split; [discriminate | intros H'; lra].
  - split; [intros _ | reflexivity].
    apply Qnot_le_lt. intros Hle. apply Qle_bool_iff in Hle. congruence.
Qed.

Lemma under_interval_false (t last : Q) :
  under_interval t last = false <-> (sync_interval <= t - last)%Q.
Proof.
  unfold under_interval. rewrite negb_false_iff. apply Qle_bool_iff.
Qed.

Lemma sync_interval_pos : (0 < sync_interval)%Q.
Proof. reflexivity. Qed.

(** What a notification does to the rate limiter, to the echo guard and to
    the wire, by the state of the gate. *)
Lemma handler_closed (us : list DepsgraphUpdate) (w : World) :
  gate_open w = false ->
  let w' := exec (depsgraph_update_handler us) w in
  sync_state w' = sync_state w /\ bpy w' = bpy w /\ stdout w' = stdout w /\
  sent_frames w' = sent_frames w.
Proof.
  intros Hg. unfold exec. rewrite handler_cases, Hg.
  destruct (connected (sync_state w)); repeat split; reflexivity.
Qed.

Lemma handler_open (us : list DepsgraphUpdate) (w : World) :
  gate_open w = true ->
  let w' := exec (depsgraph_update_handler us) w in
  sent_frames w' = sent_frames w ++ scan_frames us (accepted w) /\
  ignore_next_update (sync_state w') =
    ignore_next_update (sync_state w) ∖ list_to_set (updated_objects us) /\
  last_sync_time (sync_state w') = now w /\
  bpy w' = bpy w /\ online w' = online w.
Proof.
  intros Hg. unfold exec. rewrite handler_accepted by exact Hg.
  destruct (scan_spec us (accepted w)) as (_ & Hs & Hi & Hb & Ho & _ & Hl & _).
  unfold exec in *. rewrite Hs, Hi, Hb, Ho, Hl. repeat split; reflexivity.
Qed.

Lemma handler_last_sync (us : list DepsgraphUpdate) (w : World) :
  last_sync_time (sync_state (exec (depsgraph_update_handler us) w)) =
  if gate_open w then now w else last_sync_time (sync_state w).
Proof.
  destruct (gate_open w) eqn:Hg.
  - apply (handler_open us w Hg).
  - destruct (handler_closed us w Hg) as (-> & _). reflexivity.
Qed.

Lemma classic_event (ev : event) :
  (exists us, ev = EvDepsgraph us) \/ (forall us, ev <> EvDepsgraph us).
Proof. destruct ev; try (right; discriminate). left. eauto. Qed.

Lemma run_event_last_sync_mono (ev : event) (w : World) :
  last_sync_mono w (exec (run_event ev) w).
Proof.
  unfold last_sync_mono.
  destruct (classic_event ev) as [[us ->] | Hev].
  - simpl. rewrite handler_last_sync. destruct (gate_open w) eqn:Hg; [|lra].
    unfold gate_open in Hg. apply andb_true_iff in Hg as [_ Hg%negb_true_iff].
    apply under_interval_false in Hg. pose proof sync_interval_pos. lra.
  - rewrite (run_event_last_sync ev Hev w). lra.
Qed.

Lemma run_events_last_sync_mono (evs : list event) (w : World) :
  last_sync_mono w (run_events evs w).
Proof.
  revert w. induction evs as [|ev evs IH]; intros w; unfold last_sync_mono in *.
  - simpl. lra.
  - simpl. pose proof (run_event_last_sync_mono ev w) as H1.
    pose proof (IH (exec (run_event ev) w)) as H2.
    unfold last_sync_mono in *. lra.
Qed.

(** The older add-on, [bisect_sync.py], has the same gate in front of its
    scan. *)
Lemma handler_v1_cases (us : list DepsgraphUpdate) (w : World) :
  depsgraph_update_handler_v1 us w =
  if gate_open w then for_each us scan_update_v1 (accepted w)
  else if connected (sync_state w) then (Ok tt, tick w)
  else (Ok tt, w).
Proof.
  unfold gate_open, depsgraph_update_handler_v1, bind, get_state, time_time,
    modify_state.
  destruct (connected (sync_state w)); [|reflexivity]. cbn.
  destruct (under_interval (now w) (last_sync_time (sync_state w))); reflexivity.
Qed.

Lemma scan_update_v1_last_sync (u : DepsgraphUpdate) :
  preserves same_last_sync (scan_update_v1 u).
Proof. preserves_tac. Qed.

Lemma handler_v1_closed (us : list DepsgraphUpdate) (w : World) :
  gate_open w = false ->
  let w' := exec (depsgraph_update_handler_v1 us) w in
  sync_state w' = sync_state w /\ bpy w' = bpy w /\ sent_frames w' = sent_frames w.
Proof.
  intros Hg. unfold exec. rewrite handler_v1_cases, Hg.
  destruct (connected (sync_state w)); repeat split; reflexivity.
Qed.

Lemma handler_v1_last_sync (us : list DepsgraphUpdate) (w : World) :
  last_sync_time (sync_state (exec (depsgraph_update_handler_v1 us) w)) =
  if gate_open w then now w else last_sync_time (sync_state w).
Proof.
  destruct (gate_open w) eqn:Hg.
  - unfold exec. rewrite handler_v1_cases, Hg.
    pose proof (preserves_for_each same_last_sync) as H.
    specialize (H ltac:(preserves_order) ltac:(preserves_order) _ us scan_update_v1
                  scan_update_v1_last_sync (accepted w)).
    unfold same_last_sync, exec in H. rewrite H. reflexivity.
  - destruct (handler_v1_closed us w Hg) as (-> & _). reflexivity.
Qed.

(* ====================================================================== *)
(** * What a scan writes *)
(* ====================================================================== *)

(** A scan that finds no transform of a mesh writes nothing. *)
Lemma scan_frames_none (us : list DepsgraphUpdate) (w : World) :
  (forall u, u ∈ us -> forwardable (bpy w) u = false) ->
  scan_frames us w = [].
Proof.
  revert w. induction us as [|u us IH]; intros w Hno; [reflexivity|].
  simpl. destruct (scan_update_spec u w) as (_ & _ & _ & Hb & _).
  rewrite IH by (intros u' Hu'; rewrite Hb; apply Hno; right; exact Hu').
  rewrite app_nil_r.
  pose proof (Hno u ltac:(left)) as Hu. unfold forwardable in Hu.
  unfold scan_output. destruct (upd_id u) as [name|name]; [|reflexivity].
  destruct (bool_decide (name ∈ ignore_next_update (sync_state w))); [reflexivity|].
  destruct (objects (bpy w) !! name) as [o|]; [|reflexivity].
  rewrite Hu. reflexivity.
Qed.

(** [send_transform] of the older add-on. *)
Lemma send_transform_v1_spec (name : string) (o : Object) (w : World) :
  exists w1,
    send_transform_v1 name o w = (Ok tt, w1) /\
    bpy w1 = bpy w /\ online w1 = online w /\
    sent_frames w1 =
      sent_frames w ++
      (if online w then [frame_of TRANSFORM (transform_payload name o) w] else []).
Proof.
  unfold send_transform_v1, bind at 1, get_state.
  destruct (connected (sync_state w)) eqn:Hc; cbn [negb orb].
  2: { eexists. split; [reflexivity|]. unfold online. rewrite Hc. cbn.
       rewrite app_nil_r. repeat split; reflexivity. }
  destruct (ws (sync_state w)) as [app|] eqn:Hws.
  2: { rewrite bool_decide_eq_false_2 by (intros [? ?]; discriminate). cbn.
       eexists. split; [reflexivity|]. unfold online. rewrite Hc, Hws. cbn.
       rewrite app_nil_r. repeat split; reflexivity. }
  rewrite bool_decide_eq_true_2 by eauto. cbn [negb].
  unfold bind. rewrite create_message_spec.
  unfold try_except, ws_send, bind, get_state, modify_state, raise, print. cbn.
  rewrite Hws. unfold online, sent_frames. rewrite Hc, Hws. cbn.
  destruct (sock_connected app) eqn:Hsock; cbn.
  - eexists. split; [reflexivity|]. cbn. rewrite Hc. repeat split; reflexivity.
  - eexists. split; [reflexivity|]. cbn. rewrite Hc, Hws, Hsock, app_nil_r.
    repeat split; reflexivity.
Qed.

(** One turn of the scan of the older add-on: it returns, reads the scene,
    and writes a [transform] exactly for the transform of a mesh, when the
    add-on is online. *)
Lemma scan_update_v1_spec (u : DepsgraphUpdate) (w : World) :
  exists w1 out,
    scan_update_v1 u w = (Ok tt, w1) /\
    bpy w1 = bpy w /\ online w1 = online w /\
    sent_frames w1 = sent_frames w ++ out /\
    (forall e, online w = true -> upd_id u = IdObject e ->
               forwardable (bpy w) u = true ->
               Exists (fun f => is_transform_for e f = true) out) /\
    (forwardable (bpy w) u = false -> out = []).
Proof.
  unfold scan_update_v1, forwardable.
  destruct (upd_id u) as [name|name].
  2: { exists w, []. rewrite app_nil_r. repeat split; try reflexivity.
       intros e _ [=]. }
  unfold bind, get_bpy. cbn -[send_transform_v1].
  destruct (objects (bpy w) !! name) as [o|].
  2: { exists w, []. rewrite app_nil_r. repeat split; try reflexivity.
       intros e _ _ [=]. }
  destruct (String.eqb (type o) "MESH" && is_updated_transform u).
  2: { exists w, []. rewrite app_nil_r. repeat split; try reflexivity.
       intros e _ _ [=]. }
  destruct (send_transform_v1_spec name o w) as (w1 & Hs & Hb & Hon & Hf).
  exists w1. eexists. split; [exact Hs|]. split; [exact Hb|]. split; [exact Hon|].
  split; [exact Hf|]. split; [|discriminate].
  intros e Hone [= ->] _. rewrite Hone.
  constructor. rewrite is_transform_for_frame. apply String.eqb_refl.
Qed.

(** A scan of the older add-on only adds frames to the wire, and none when
    it finds no transform of a mesh. *)
Lemma scan_v1_grows (us : list DepsgraphUpdate) (w : World) :
  exists out,
    sent_frames (exec (for_each us scan_update_v1) w) = sent_frames w ++ out /\
    ((forall u, u ∈ us -> forwardable (bpy w) u = false) -> out = []).
Proof.
  revert w. induction us as [|u us IH]; intros w.
  - exists []. rewrite app_nil_r. split; reflexivity.
  - destruct (scan_update_v1_spec u w) as (w1 & o1 & Hs & Hb & _ & Hf & _ & Hn).
    unfold exec. cbn [for_each]. unfold bind. rewrite Hs.
    destruct (IH w1) as (o2 & Ho2 & Hn2). exists (o1 ++ o2).
    unfold exec in Ho2. rewrite Ho2, Hf, app_assoc. split; [reflexivity|].
    intros Hno. rewrite Hn by (apply Hno; left).
    rewrite Hn2; [reflexivity|]. intros u' Hu'. rewrite Hb. apply Hno. right. exact Hu'.
Qed.

Lemma scan_v1_emits (us : list DepsgraphUpdate) (u : DepsgraphUpdate)
  (e : string) (w : World) :
  online w = true -> u ∈ us -> upd_id u = IdObject e ->
  forwardable (bpy w) u = true ->
  exists out,
    sent_frames (exec (for_each us scan_update_v1) w) = sent_frames w ++ out /\
    Exists (fun f => is_transform_for e f = true) out.
Proof.
  revert w. induction us as [|u0 us IH]; intros w Hon Hu Hid Hfw.
  - apply elem_of_nil in Hu. contradiction.
  - destruct (scan_update_v1_spec u0 w) as (w1 & out0 & Hs & Hb & Hon1 & Hf & Hem & _).
    unfold exec. cbn [for_each]. unfold bind. rewrite Hs.
    apply elem_of_cons in Hu as [<- | Hu].
    + destruct (scan_v1_grows us w1) as (out1 & Hout1 & _).
      exists (out0 ++ out1). unfold exec in Hout1.
      rewrite Hout1, Hf, app_assoc. split; [reflexivity|].
      apply Exists_app. left. apply (Hem e Hon Hid Hfw).
    + destruct (IH w1) as (out1 & Hf1 & Hex); try assumption.
      * rewrite Hon1. exact Hon.
      * rewrite Hb. exact Hfw.
      * exists (out0 ++ out1). unfold exec in Hf1. rewrite Hf1, Hf, app_assoc.
        split; [reflexivity|]. apply Exists_app. right. exact Hex.
Qed.

(** The older handler when the gate opens: what its scan writes. *)
Lemma handler_v1_open (us : list DepsgraphUpdate) (w : World) :
  gate_open w = true ->
  let w' := exec (depsgraph_update_handler_v1 us) w in
  (exists out, sent_frames w' = sent_frames w ++ out) /\
  (online w = true ->
   forall u n, u ∈ us -> upd_id u = IdObject n -> forwardable (bpy w) u = true ->
     exists out, sent_frames w' = sent_frames w ++ out /\
                 Exists (fun f => is_transform_for n f = true) out) /\
  ((forall u, u ∈ us -> forwardable (bpy w) u = false) ->
   sent_frames w' = sent_frames w).
Proof.
  intros Hg w'. subst w'. unfold exec. rewrite handler_v1_cases, Hg.
  assert (Hs : sent_frames (accepted w) = sent_frames w) by reflexivity.
  assert (Hb : bpy (accepted w) = bpy w) by reflexivity.
  assert (Ho : online (accepted w) = online w) by reflexivity.
  split; [|split].
  - destruct (scan_v1_grows us (accepted w)) as (out & Hout & _).
    exists out. unfold exec in Hout. rewrite Hout, Hs. reflexivity.
  - intros Hon u n Hu Hid Hfw.
    destruct (scan_v1_emits us u n (accepted w)) as (out & Hout & Hex);
      try assumption.
    exists out. unfold exec in Hout. rewrite Hout, Hs. split; [reflexivity | exact Hex].
  - intros Hno. destruct (scan_v1_grows us (accepted w)) as (out & Hout & Hnone).
    unfold exec in Hout. rewrite Hout, Hs, Hnone by exact Hno. apply app_nil_r.
Qed.

(* ====================================================================== *)
(** * The echo guard and the rate gate *)
(* ====================================================================== *)

Lemma apply_transform_guard (e : string) (o : Object)
  (position rotation scale_ : json) (w : World) :
  objects (bpy w) !! e = Some o ->
  e ∈ ignore_next_update
        (sync_state (exec (apply_transform (JStr e) position rotation scale_) w)).
Proof.
  intros Ho.
  assert (Htail : forall m : M unit,
            preserves guard_grows m ->
            e ∈ ignore_next_update (sync_state
                  (exec (modify_state (fun s =>
                           set_ignore_next_update ({[e]} ∪ ignore_next_update s) s)
                         >>> m) w))).
  { intros m Hm. unfold exec, bind, modify_state. simpl.
    apply (Hm (upd_state _ w)). simpl. set_solver. }
  unfold apply_transform, exec, bind at 1, objects_get, bind at 1, get_bpy, ret.
  simpl. rewrite Ho. apply Htail. preserves_tac.
Qed.

(** C1 (as amended).  Echo suppression: applying a received [transform] for
    an existing entity [e] puts [e] into the echo guard; the next
    notification that passes the gate and lists [e] (once, as the depsgraph
    does) writes no [transform] for [e] and takes [e] out of the guard; and
    a later notification that passes the gate while [e] is not in the guard
    writes a [transform] for [e], when the update is the transform of a
    mesh and the add-on is online. *)
Theorem echo_suppression (e : string) (o : Object)
  (position rotation scale_ : json) (us1 us2 : list DepsgraphUpdate)
  (u : DepsgraphUpdate) (w0 w : World) :
  objects (bpy w0) !! e = Some o ->
  let w1 := exec (apply_transform (JStr e) position rotation scale_) w0 in
  let w2 := exec (depsgraph_update_handler us1) w1 in
  let w3 := exec (depsgraph_update_handler us2) w in
  gate_open w1 = true -> NoDup (updated_objects us1) -> e ∈ updated_objects us1 ->
  gate_open w = true -> online w = true ->
  e ∉ ignore_next_update (sync_state w) ->
  u ∈ us2 -> upd_id u = IdObject e -> forwardable (bpy w) u = true ->
  e ∈ ignore_next_update (sync_state w1) /\
  (exists out, sent_frames w2 = sent_frames w1 ++ out /\
               Forall (fun f => is_transform_for e f = false) out) /\
  (e ∉ ignore_next_update (sync_state w2)) /\
  (exists out, sent_frames w3 = sent_frames w ++ out /\
               Exists (fun f => is_transform_for e f = true) out).
Proof.
  intros Ho w1 w2 w3 Hg1 Hnd He1 Hg Hon Hne Hu Hid Hfw.
  assert (Hin : e ∈ ignore_next_update (sync_state w1))
    by (apply (apply_transform_guard e o), Ho).
  destruct (handler_open us1 w1 Hg1) as (Hs1 & Hi1 & _).
  destruct (handler_open us2 w Hg) as (Hs2 & _).
  split; [exact Hin|]. split; [|split].
  - eexists. split; [exact Hs1|].
    apply scan_frames_suppressed; [exact Hnd | left; exact Hin].
  - fold w2 in Hi1. rewrite Hi1. set_solver.
  - eexists. split; [exact Hs2|].
    apply (scan_frames_emitted e u); try assumption.
Qed.

(** C2.  Rate gate, in the two add-ons.  A notification that the gate
    refuses changes nothing but the clock: the whole batch is dropped,
    nothing is queued.  When a notification has passed the gate, every
    notification that arrives less than the interval after it is refused,
    whatever happened in between; so of two notifications less than the
    interval apart at most one writes a batch.  A notification that arrives
    when the add-on is connected and the interval has elapsed since the last
    accepted one passes the gate and writes its batch, which holds a
    [transform] for every mesh whose transform it reports (the add-on being
    online and, in [bisect_sync_v2.py], no entity of the notification being
    in the echo guard) and is empty when it reports the transform of no
    mesh: the gate has opened and nothing is written.  The time of the last
    accepted batch is set to the arrival time exactly when the gate
    opens. *)
Theorem rate_gate :
  (forall us w,
     gate_open w = false ->
     let w' := exec (depsgraph_update_handler us) w in
     let w1 := exec (depsgraph_update_handler_v1 us) w in
     (sync_state w' = sync_state w /\ bpy w' = bpy w /\
      sent_frames w' = sent_frames w) /\
     (sync_state w1 = sync_state w /\ bpy w1 = bpy w /\
      sent_frames w1 = sent_frames w)) /\
  (forall us1 evs w,
     gate_open w = true ->
     let w2 := run_events evs (exec (depsgraph_update_handler us1) w) in
     (now w2 - now w < sync_interval)%Q ->
     gate_open w2 = false) /\
  (forall us1 w,
     gate_open w = true ->
     let w2 := exec (depsgraph_update_handler_v1 us1) w in
     (now w2 - now w < sync_interval)%Q ->
     gate_open w2 = false) /\
  (forall us w,
     connected (sync_state w) = true ->
     (sync_interval <= now w - last_sync_time (sync_state w))%Q ->
     let w' := exec (depsgraph_update_handler us) w in
     gate_open w = true /\
     sent_frames w' = sent_frames w ++ scan_frames us (accepted w) /\
     (online w = true ->
      (forall n, n ∈ updated_objects us -> n ∉ ignore_next_update (sync_state w)) ->
      forall u n, u ∈ us -> upd_id u = IdObject n -> forwardable (bpy w) u = true ->
        Exists (fun f => is_transform_for n f = true) (scan_frames us (accepted w))) /\
     ((forall u, u ∈ us -> forwardable (bpy w) u = false) ->
      sent_frames w' = sent_frames w)) /\
  (forall us w,
     connected (sync_state w) = true ->
     (sync_interval <= now w - last_sync_time (sync_state w))%Q ->
     let w' := exec (depsgraph_update_handler_v1 us) w in
     gate_open w = true /\
     (exists out, sent_frames w' = sent_frames w ++ out) /\
     (online w = true ->
      forall u n, u ∈ us -> upd_id u = IdObject n -> forwardable (bpy w) u = true ->
        exists out, sent_frames w' = sent_frames w ++ out /\
                    Exists (fun f => is_transform_for n f = true) out) /\
     ((forall u, u ∈ us -> forwardable (bpy w) u = false) ->
      sent_frames w' = sent_frames w)) /\
  (forall us w,
     last_sync_time (sync_state (exec (depsgraph_update_handler us) w)) =
       (if gate_open w then now w else last_sync_time (sync_state w)) /\
     last_sync_time (sync_state (exec (depsgraph_update_handler_v1 us) w)) =
       (if gate_open w then now w else last_sync_time (sync_state w))).
Proof.
  assert (Hgate : forall w, connected (sync_state w) = true ->
            (sync_interval <= now w - last_sync_time (sync_state w))%Q ->
            gate_open w = true).
  { intros w Hc Hel. unfold gate_open. rewrite Hc. simpl. apply negb_true_iff.
    apply under_interval_false. exact Hel. }
  split; [|split; [|split; [|split; [|split]]]].
  - intros us w Hg. split.
    + destruct (handler_closed us w Hg) as (H1 & H2 & _ & H3). auto.
    + apply handler_v1_closed, Hg.
  - intros us1 evs w Hg w2 Hlt.
    destruct (handler_open us1 w Hg) as (_ & _ & Hl & _).
    pose proof (run_events_last_sync_mono evs (exec (depsgraph_update_handler us1) w)) as Hm.
    unfold last_sync_mono in Hm. fold w2 in Hm. rewrite Hl in Hm.
    unfold gate_open. apply andb_false_iff. right. apply negb_false_iff.
    apply under_interval_true. lra.
  - intros us1 w Hg w2 Hlt.
    pose proof (handler_v1_last_sync us1 w) as Hl. rewrite Hg in Hl. fold w2 in Hl.
    unfold gate_open. apply andb_false_iff. right. apply negb_false_iff.
    apply under_interval_true. rewrite Hl. exact Hlt.
  - intros us w Hc Hel w'.
    pose proof (Hgate w Hc Hel) as Hg.
    destruct (handler_open us w Hg) as (Hs & _).
    split; [exact Hg|]. split; [exact Hs|]. split.
    + intros Hon Hno u n Hu Hid Hfw.
      apply (scan_frames_emitted n u); try assumption.
      apply Hno. clear -Hu Hid. induction us as [|u0 us IH].
      * apply elem_of_nil in Hu. contradiction.
      * simpl. apply elem_of_cons in Hu as [<- | Hu].
        -- rewrite Hid. left.
        -- destruct (upd_id u0); [right|]; apply IH, Hu.
    + intros Hno. fold w' in Hs. rewrite Hs, scan_frames_none by exact Hno.
      apply app_nil_r.
  - intros us w Hc Hel w'.
    pose proof (Hgate w Hc Hel) as Hg.
    split; [exact Hg|]. apply handler_v1_open, Hg.
  - intros us w. split; [apply handler_last_sync | apply handler_v1_last_sync].
Qed.

(** C10.  The echo guard across a closed gate.  Of all the events, only a
    notification that passes the gate and lists [e] takes [e] out of the
    echo guard.  A notification that the gate refuses leaves the guard as it
    is, so the entry of [e] stays; and the next notification that passes
    the gate and lists [e] takes the entry out and writes no [transform]
    for [e], whatever [e] is by then. *)
Theorem echo_guard_survives_closed_gate (e : string) :
  (forall ev w,
     e ∈ ignore_next_update (sync_state w) ->
     e ∉ ignore_next_update (sync_state (exec (run_event ev) w)) ->
     exists us, ev = EvDepsgraph us /\ gate_open w = true /\ e ∈ updated_objects us) /\
  (forall us w,
     gate_open w = false ->
     ignore_next_update (sync_state (exec (depsgraph_update_handler us) w)) =
     ignore_next_update (sync_state w)) /\
  (forall us w,
     e ∈ ignore_next_update (sync_state w) ->
     gate_open w = true -> NoDup (updated_objects us) -> e ∈ updated_objects us ->
     let w' := exec (depsgraph_update_handler us) w in
     (e ∉ ignore_next_update (sync_state w')) /\
     exists out, sent_frames w' = sent_frames w ++ out /\
                 Forall (fun f => is_transform_for e f = false) out).
Proof.
  split; [|split].
  - intros ev w Hin Hout.
    destruct (classic_event ev) as [[us ->] | Hev].
    + exists us. split; [reflexivity|]. simpl in Hout.
      destruct (gate_open w) eqn:Hg.
      * split; [reflexivity|]. destruct (handler_open us w Hg) as (_ & Hi & _).
        rewrite Hi in Hout. apply dec_stable. intros Hn. apply Hout. set_solver.
      * destruct (handler_closed us w Hg) as (Hs & _). rewrite Hs in Hout.
        contradiction.
    + exfalso. apply Hout. apply (run_event_guard ev Hev w). exact Hin.
  - intros us w Hg. destruct (handler_closed us w Hg) as (-> & _). reflexivity.
  - intros us w Hin Hg Hnd He w'.
    destruct (handler_open us w Hg) as (Hs & Hi & _). split.
    + fold w' in Hi. rewrite Hi. set_solver.
    + eexists. split; [exact Hs|].
      apply scan_frames_suppressed; [exact Hnd | left; exact Hin].
Qed.

(* ====================================================================== *)
(** * Sending when the connection is gone *)
(* ====================================================================== *)

(** C9.  Send failure semantics.  [send_message] always returns and never
    raises.  When the connected flag is clear or there is no connection
    object it returns [False] at once and changes nothing; this is the case
    after [on_error] and after [on_close], which clear the flag.  When the
    flag is still set and the socket's own [send] raises, the exception is
    caught and [False] is returned. *)
Theorem send_fails_fast (msg_type : string) (payload : json) :
  (forall w, exists b w', send_message msg_type payload w = (Ok b, w')) /\
  (forall w,
     connected (sync_state w) = false \/ ws (sync_state w) = None ->
     send_message msg_type payload w = (Ok false, w)) /\
  (forall e w,
     let w1 := exec (on_error e) w in
     connected (sync_state w1) = false /\
     send_message msg_type payload w1 = (Ok false, w1)) /\
  (forall w,
     let w1 := exec on_close w in
     connected (sync_state w1) = false /\
     send_message msg_type payload w1 = (Ok false, w1)) /\
  (forall w app,
     connected (sync_state w) = true -> ws (sync_state w) = Some app ->
     sock_connected app = false ->
     eval (send_message msg_type payload) w = Ok false).
Proof.
  split; [|split; [|split; [|split]]].
  - apply send_message_total.
  - apply send_message_offline.
  - intros e w w1. split; [reflexivity|]. apply send_message_offline. left. reflexivity.
  - intros w w1. split; [reflexivity|]. apply send_message_offline. left. reflexivity.
  - intros w app Hc Hws Hsock. unfold eval.
    rewrite (send_message_socket_closed _ _ _ app) by assumption. reflexivity.
Qed.

(* ====================================================================== *)
(** * The inbound dispatcher *)
(* ====================================================================== *)

(** C5.  Self-echo discard.  A frame whose payload carries [_senderType]
    equal to this client's own role is dropped: no handler runs, nothing is
    printed or sent, and the one change is that the frame has left the
    queue. *)
Theorem self_echo_discarded (raw : string) (kvs p : list (string * json))
  (rest : list string) (w : World) :
  loads raw = Some (JObj kvs) ->
  dict_lookup "payload" kvs = Some (JObj p) ->
  dict_lookup "_senderType" p = Some (JStr own_role) ->
  process_message raw w = (Ok tt, w) /\
  process_frame raw rest w = (Ok tt, upd_state (set_message_queue rest) w).
Proof.
  intros Hraw Hp Hs.
  assert (H : forall w, process_message raw w = (Ok tt, w)).
  { intros w'. unfold process_message, json_loads. rewrite Hraw.
    unfold bind, ret, py_get. simpl. rewrite Hp. simpl. rewrite Hs. reflexivity. }
  split; [apply H|].
  unfold process_frame, bind, modify_state, try_except. rewrite H. reflexivity.
Qed.

Lemma process_frame_total (raw : string) (rest : list string) (w : World) :
  eval (process_frame raw rest) w = Ok tt.
Proof.
  unfold eval, process_frame, bind, modify_state, try_except.
  destruct (process_message raw (upd_state (set_message_queue rest) w))
    as [[[]|e] w1]; reflexivity.
Qed.

Lemma process_frames_total (q : list string) (w : World) :
  eval (process_frames q) w = Ok tt.
Proof.
  revert w. induction q as [|raw q IH]; intros w; [reflexivity|].
  unfold eval in *. simpl. unfold bind.
  pose proof (process_frame_total raw q w) as H. unfold eval in H.
  destruct (process_frame raw q w) as [r w1]. simpl in H. subst r. apply IH.
Qed.

Lemma process_frames_app (q1 q2 : list string) (w : World) :
  process_frames (q1 ++ q2) w =
  process_frames q2 (exec (process_frames_before q1 q2) w).
Proof.
  revert w. induction q1 as [|raw q1 IH]; intros w; [reflexivity|].
  simpl. unfold exec, bind.
  pose proof (process_frame_total raw (q1 ++ q2) w) as H. unfold eval in H.
  destruct (process_frame raw (q1 ++ q2) w) as [r w1]. simpl in H. subst r.
  rewrite IH. reflexivity.
Qed.

Lemma process_frame_queue (raw : string) (rest : list string) (w : World) :
  message_queue (sync_state (exec (process_frame raw rest) w)) = rest.
Proof.
  unfold exec, process_frame, bind, modify_state, try_except.
  pose proof (process_message_queue raw (upd_state (set_message_queue rest) w)) as H.
  unfold same_queue, exec in H.
  destruct (process_message raw (upd_state (set_message_queue rest) w))
    as [[[]|e] w1]; simpl in *; exact H.
Qed.

Lemma process_frames_drained (q : list string) (w : World) :
  q <> [] -> message_queue (sync_state (exec (process_frames q) w)) = [].
Proof.
  revert w. induction q as [|raw q IH]; intros w Hq; [congruence|].
  unfold exec. simpl. unfold bind.
  pose proof (process_frame_total raw q w) as H. unfold eval in H.
  pose proof (process_frame_queue raw q w) as Hq'. unfold exec in Hq'.
  destruct (process_frame raw q w) as [r w1]. simpl in H, Hq'. subst r.
  destruct q as [|raw' q'].
  - simpl. exact Hq'.
  - apply IH. discriminate.
Qed.

(** C7 (as amended).  Malformed-frame resilience.  A frame that is not
    JSON is printed as an error and skipped: nothing else changes but that
    it has left the queue.  A frame that is a JSON object without [type]
    (and whose payload, if it has one, is an object) is skipped without a
    line being printed.  No frame makes the dispatcher
    raise; the frames queued behind a malformed one are processed by the
    same loop, and the queue is empty when the tick ends. *)
Theorem malformed_frame_skipped :
  (forall raw rest w,
     loads raw = None ->
     process_frame raw rest w =
     (Ok tt, printed (PrintError "Message processing error" JSONDecodeError)
               (upd_state (set_message_queue rest) w))) /\
  (forall raw kvs rest w,
     loads raw = Some (JObj kvs) ->
     dict_lookup "type" kvs = None ->
     dict_lookup "payload" kvs = None \/
       (exists p, dict_lookup "payload" kvs = Some (JObj p)) ->
     process_frame raw rest w = (Ok tt, upd_state (set_message_queue rest) w)) /\
  (forall q w, eval (process_frames q) w = Ok tt) /\
  (forall q1 raw q2 w,
     loads raw = None ->
     process_frames (q1 ++ raw :: q2) w =
     process_frames q2
       (printed (PrintError "Message processing error" JSONDecodeError)
          (upd_state (set_message_queue q2)
             (exec (process_frames_before q1 (raw :: q2)) w)))) /\
  (forall w,
     message_queue (sync_state (exec process_incoming_messages w)) = []).
Proof.
  assert (Hbad : forall raw rest w,
            loads raw = None ->
            process_frame raw rest w =
            (Ok tt, printed (PrintError "Message processing error" JSONDecodeError)
                      (upd_state (set_message_queue rest) w))).
  { intros raw rest w Hraw.
    unfold process_frame, bind, modify_state, try_except, process_message, json_loads.
    rewrite Hraw. reflexivity. }
  split; [exact Hbad|]. split; [|split; [|split]].
  - intros raw kvs rest w Hraw Ht [Hp | [p Hp]];
      unfold process_frame, bind, modify_state, try_except, process_message, json_loads;
      rewrite Hraw; unfold bind, ret, py_get; simpl; rewrite Ht, Hp; [reflexivity|].
    simpl. destruct (dict_lookup "_senderType" p) as [v|]; [|reflexivity].
    destruct (is_str v own_role); reflexivity.
  - apply process_frames_total.
  - intros q1 raw q2 w Hraw. rewrite process_frames_app. simpl. unfold bind.
    rewrite Hbad by exact Hraw. reflexivity.
  - intros w. unfold process_incoming_messages, exec, bind, get_state.
    destruct (message_queue (sync_state w)) as [|raw q] eqn:Hq.
    + simpl. exact Hq.
    + apply (process_frames_drained (raw :: q) w). discriminate.
Qed.

(* ====================================================================== *)
(** * The envelope codec *)
(* ====================================================================== *)

(** C6.  Encode/decode round trip.  For every message type, session id and
    payload map, whatever the strings in them, the frame [create_message]
    returns decodes to an envelope with the same type, the same payload, and
    the session id it was given (the session's own id when none is given; an
    empty one counts as not given, so it is never lost while a session has
    an id).  A payload that is left out is encoded as the empty map.  The
    timestamp is [int(time.time() * 1000)], the reading of the clock in
    milliseconds: it is less than a millisecond from the reading, it is the
    reading when that is a whole number of milliseconds (as long as the
    doubles hold every whole number, up to 2^53), and it does not go down
    from one encode to the next when the clock does not. *)
Theorem encode_decode_roundtrip (msg_type : string)
  (payload : list (string * json)) (sid : option string) (w : World) :
  json_ok (JObj payload) = true ->
  exists frame,
    create_message msg_type (Some (JObj payload)) sid w = (Ok frame, tick w) /\
    loads frame =
      Some (envelope msg_type (session_or sid (sync_state w)) (millis (now w))
              (JObj payload)) /\
    frame_type frame = Some (JStr msg_type) /\
    frame_session frame = Some (JStr (session_or sid (sync_state w))) /\
    frame_payload frame = Some (JObj payload) /\
    frame_timestamp frame = Some (JInt (millis (now w))) /\
    (forall x, sid = Some x -> x <> EmptyString -> session_or sid (sync_state w) = x) /\
    (sid = None -> session_or sid (sync_state w) = session_id (sync_state w)) /\
    (exists frame0,
       create_message msg_type None sid w = (Ok frame0, tick w) /\
       frame_type frame0 = Some (JStr msg_type) /\
       frame_payload frame0 = Some (JObj [])) /\
    ((0 <= now w)%Q -> (now w * 1000 < inject_Z (2 ^ 53))%Q ->
     exists t, frame_timestamp frame = Some (JInt t) /\
               (now w * 1000 - 1 < inject_Z t)%Q /\
               (inject_Z t <= now w * 1000 + (1 # 2))%Q) /\
    (forall n, 0 <= n < 2 ^ 53 -> (now w * 1000 == inject_Z n)%Q ->
               frame_timestamp frame = Some (JInt n)) /\
    (forall frame' w',
       (now w <= now w')%Q ->
       eval (create_message msg_type (Some (JObj payload)) sid) w' = Ok frame' ->
       exists t t', frame_timestamp frame = Some (JInt t) /\
                    frame_timestamp frame' = Some (JInt t') /\ t <= t').
Proof.
  intros Hok.
  assert (Hpay : payload_or (Some (JObj payload)) = JObj payload).
  { unfold payload_or, py_or. destruct payload; reflexivity. }
  assert (Hts : forall w0,
            frame_timestamp
              (dumps (envelope msg_type (session_or sid (sync_state w0))
                        (millis (now w0)) (JObj payload)))
            = Some (JInt (millis (now w0)))).
  { intros w0. unfold frame_timestamp. rewrite loads_envelope by exact Hok.
    reflexivity. }
  eexists. rewrite create_message_spec, Hpay.
  split; [reflexivity|].
  split; [apply loads_envelope, Hok|].
  split; [apply frame_type_envelope, Hok|].
  split; [unfold frame_session; rewrite loads_envelope by exact Hok; reflexivity|].
  split; [apply frame_payload_envelope, Hok|].
  split; [apply Hts|].
  split.
  { intros x -> Hx. simpl. apply String.eqb_neq in Hx. rewrite Hx. reflexivity. }
  split; [intros ->; reflexivity|].
  split.
  { eexists. rewrite create_message_spec. split; [reflexivity|].
    split; [apply frame_type_envelope | apply frame_payload_envelope]; reflexivity. }
  split.
  { intros H0 Hlt. exists (millis (now w)). split; [apply Hts|].
    apply millis_bounds; assumption. }
  split.
  { intros n Hn Hw. rewrite Hts. rewrite (millis_whole n (now w) Hn Hw). reflexivity. }
  intros frame' w' Hle Hev. unfold eval in Hev.
  rewrite create_message_spec, Hpay in Hev. simpl in Hev. injection Hev as <-.
  exists (millis (now w)), (millis (now w')).
  split; [apply Hts|]. split; [apply Hts|]. apply millis_mono, Hle.
Qed.

(* ====================================================================== *)
(** * The join handshake *)
(* ====================================================================== *)

(** C4 (as amended).  Join handshake.  When the connection of a client that
    was not connecting opens, the first and only frame on the wire is the
    [join] envelope: its type is [join], it carries the session id both at
    the level of the envelope and in the payload, the payload names the
    client type [blender], and the envelope has the timestamp of every
    envelope. *)
Theorem join_handshake (sid : string) (w : World) :
  ws_thread (sync_state w) = false ->
  let w1 := exec (start_connection sid) w in
  let w2 := exec socket_up w1 in
  let w3 := exec (on_open sid) w2 in
  eval (start_connection sid) w = Ok true /\
  eval (on_open sid) w2 = Ok tt /\
  connected (sync_state w3) = true /\
  exists frame,
    sent_frames w3 = [frame] /\
    loads frame = Some (envelope JOIN sid (millis (now w)) (join_payload sid)) /\
    frame_type frame = Some (JStr "join") /\
    frame_session frame = Some (JStr sid) /\
    frame_field "sessionId" frame = Some (JStr sid) /\
    frame_field "clientType" frame = Some (JStr "blender").
Proof.
  intros Ht w1 w2 w3.
  assert (Hok : json_ok (join_payload sid) = true).
  { unfold join_payload.
    change (json_ok (JObj ?kvs))
      with (bool_decide (NoDup (map fst kvs)) && forallb (fun kv => json_ok (snd kv)) kvs).
    apply andb_true_iff. split; [vm_compute; reflexivity | reflexivity]. }
  subst w1 w2 w3.
  unfold exec, eval, start_connection, socket_up, on_open, bind, get_state,
    modify_state, ws_thread_func, print, ret.
  rewrite Ht. cbn -[dumps loads frame_type frame_session frame_field envelope].
  split; [reflexivity|]. split; [reflexivity|]. split; [reflexivity|].
  eexists. split; [reflexivity|].
  change (payload_or (Some (JObj [("sessionId", JStr sid); ("clientType", JStr "blender")])))
    with (join_payload sid).
  unfold now. cbn -[dumps loads frame_type frame_session frame_field envelope].
  split; [apply loads_envelope, Hok|].
  split; [apply frame_type_envelope, Hok|].
  split; [unfold frame_session; rewrite loads_envelope by exact Hok; reflexivity|].
  unfold frame_field. rewrite frame_payload_envelope by exact Hok.
  split; [reflexivity|]. simpl.
  reflexivity.
Qed.

(* ====================================================================== *)
(** * The command executor *)
(* ====================================================================== *)



(* ====================================================================== *)
(** * The quaternion convention *)
(* ====================================================================== *)

Lemma as_vector_json_of_vector (v : Vector) : as_vector (json_of_vector v) = ret v.
Proof. destruct v. reflexivity. Qed.

(** C3.  The quaternion convention, in the two add-ons.  Both encode a
    rotation as [x, y, z, w].  On applying a [transform] whose rotation is
    [x, y, z, s], [bisect_sync_v2.py] builds the quaternion with scalar part
    [s], the fourth component, and encoding the object again gives the
    rotation that was received.  The older [bisect_sync.py] hands the list
    to Blender as it is, and Blender reads it as (w, x, y, z): the scalar
    part becomes [x], the first component, and encoding the object again
    gives [y, z, s, x]. *)
Theorem quaternion_convention (e : string) (o : Object) (p sc : Vector)
  (x y z s : float) (w : World) :
  objects (bpy w) !! e = Some o ->
  let rotation := JArr [JFloat x; JFloat y; JFloat z; JFloat s] in
  let w2 := exec (apply_transform (JStr e) (json_of_vector p) rotation
                    (json_of_vector sc)) w in
  let w1 := exec (apply_transform_v1 (JStr e) (json_of_vector p) rotation
                    (json_of_vector sc)) w in
  (exists o2,
     objects (bpy w2) !! e = Some o2 /\
     (if String.eqb (rotation_mode o) "QUATERNION"
      then rotation_quaternion o2 = mkQuaternion s x y z /\
           quat_w (rotation_quaternion o2) = s /\
           dict_lookup "rotation" (get_object_transform o2) = Some rotation
      else rotation_euler o2 = to_euler (mkQuaternion s x y z))) /\
  (exists o1,
     objects (bpy w1) !! e = Some o1 /\
     (if String.eqb (rotation_mode o) "QUATERNION"
      then rotation_quaternion o1 = mkQuaternion x y z s /\
           quat_w (rotation_quaternion o1) = x /\
           dict_lookup "rotation" (get_object_transform o1) =
             Some (JArr [JFloat y; JFloat z; JFloat s; JFloat x])
      else rotation_euler o1 = to_euler (mkQuaternion x y z s))).
Proof.
  intros Ho rotation w2 w1. split.
  - subst w2. unfold exec, apply_transform, bind at 1, objects_get, bind at 1,
      get_bpy, ret. simpl. rewrite Ho.
    unfold bind, modify_state, update_object, modify_bpy, ret,
      quaternion_of_xyzw, index_float, bind, ret.
    destruct (String.eqb (rotation_mode o) "QUATERNION") eqn:Hm; cbn;
      rewrite !lookup_alter_eq, Ho; cbn; eexists; (split; [reflexivity|]).
    + unfold get_object_transform, object_rotation. cbn. rewrite Hm.
      repeat split; reflexivity.
    + reflexivity.
  - subst w1. unfold exec, apply_transform_v1, bind at 1, objects_get, bind at 1,
      get_bpy, ret. simpl. rewrite Ho.
    unfold bind, modify_state, update_object, modify_bpy, ret,
      quaternion_new, quaternion_of_seq, bind, ret.
    destruct (String.eqb (rotation_mode o) "QUATERNION") eqn:Hm; cbn;
      rewrite !lookup_alter_eq, Ho; cbn; eexists; (split; [reflexivity|]).
    + unfold get_object_transform, object_rotation. cbn. rewrite Hm.
      repeat split; reflexivity.
    + reflexivity.
Qed.
(* ====================================================================== *)
(** * The callbacks Blender calls *)
(* ====================================================================== *)

Lemma eval_bind_ok {A B : Type} (m : M A) (k : A -> M B) (a : A) (w : World) :
  eval m w = Ok a -> bind m k w = k a (exec m w).
Proof.
  unfold eval, exec, bind. destruct (m w) as [r w1]. simpl. intros ->. reflexivity.
Qed.

Lemma for_each_total {A : Type} (f : A -> M unit) (l : list A) :
  (forall x w, eval (f x) w = Ok tt) -> forall w, eval (for_each l f) w = Ok tt.
Proof.
  intros Hf. induction l as [|x l IH]; intros w; [reflexivity|].
  unfold eval. rewrite (for_each_cons_ok f x l w (Hf x w)). apply IH.
Qed.

Lemma send_transform_total (name : string) (o : Object) (w : World) :
  eval (send_transform name o) w = Ok tt.
Proof.
  unfold eval, send_transform, bind.
  destruct (send_message_total TRANSFORM (transform_payload name o) w) as (b & w' & ->).
  reflexivity.
Qed.

Lemma send_selection_total (names : list string) (w : World) :
  eval (send_selection names) w = Ok tt.
Proof.
  unfold eval, send_selection, bind.
  destruct (send_message_total OBJECT_SELECT
              (JObj [("objectIds", JArr (map JStr names))]) w) as (b & w' & ->).
  reflexivity.
Qed.

(** A send of the older add-on: the frame is made outside the [try], which
    cannot fail, and the send is inside. *)
Lemma send_v1_total (msg_type : string) (payload : json) (w : World) :
  eval (message <- create_message msg_type (Some payload) None ;;;
        try_except (ws_send message) (fun e => print (PrintError "Send error" e))) w
  = Ok tt.
Proof.
  unfold eval, bind. rewrite create_message_spec.
  unfold try_except, ws_send, bind, get_state, modify_state, raise, print. cbn.
  destruct (ws (sync_state w)) as [app|]; [destruct (sock_connected app)|]; reflexivity.
Qed.

Lemma send_transform_v1_total (name : string) (o : Object) (w : World) :
  eval (send_transform_v1 name o) w = Ok tt.
Proof.
  unfold send_transform_v1, eval, bind at 1, get_state.
  destruct (negb (connected (sync_state w)) || negb (bool_decide (is_Some (ws (sync_state w)))));
    [reflexivity|].
  apply send_v1_total.
Qed.

Lemma send_selection_v1_total (names : list string) (w : World) :
  eval (send_selection_v1 names) w = Ok tt.
Proof.
  unfold send_selection_v1, eval, bind at 1, get_state.
  destruct (negb (connected (sync_state w)) || negb (bool_decide (is_Some (ws (sync_state w)))));
    [reflexivity|].
  apply send_v1_total.
Qed.

Lemma scan_update_v1_total (u : DepsgraphUpdate) (w : World) :
  eval (scan_update_v1 u) w = Ok tt.
Proof.
  unfold scan_update_v1. destruct (upd_id u) as [name|name]; [|reflexivity].
  unfold eval, bind, get_bpy. cbn -[send_transform_v1].
  destruct (objects (bpy w) !! name) as [o|]; [|reflexivity].
  destruct (String.eqb (type o) "MESH" && is_updated_transform u); [|reflexivity].
  apply send_transform_v1_total.
Qed.

Lemma process_frame_v1_total (raw : string) (rest : list string) (w : World) :
  eval (process_frame_v1 raw rest) w = Ok tt.
Proof.
  unfold eval, process_frame_v1, bind, modify_state, try_except.
  destruct (process_message_v1 raw (upd_state (set_message_queue rest) w))
    as [[[]|e] w1]; reflexivity.
Qed.

Lemma process_frames_v1_total (q : list string) (w : World) :
  eval (process_frames_v1 q) w = Ok tt.
Proof.
  revert w. induction q as [|raw q IH]; intros w; [reflexivity|].
  unfold eval. simpl.
  rewrite (eval_bind_ok _ _ tt w (process_frame_v1_total raw q w)). apply IH.
Qed.

(** X13.  The handlers Blender calls never raise: whatever the frames in
    the queue, the updates of the notification and the state of the
    connection, the depsgraph handler and the timer callback of the two
    add-ons return. *)
Theorem callbacks_never_raise (us : list DepsgraphUpdate) (w : World) :
  eval (depsgraph_update_handler us) w = Ok tt /\
  eval timer_callback w = Ok tt /\
  eval (depsgraph_update_handler_v1 us) w = Ok tt /\
  eval timer_callback_v1 w = Ok tt.
Proof.
  split; [|split; [|split]].
  - unfold eval. rewrite handler_cases.
    destruct (gate_open w); [apply (scan_spec us (accepted w))|].
    destruct (connected (sync_state w)); reflexivity.
  - unfold eval, timer_callback.
    assert (H : eval process_incoming_messages w = Ok tt).
    { unfold process_incoming_messages, eval, bind, get_state. cbn.
      apply process_frames_total. }
    rewrite (eval_bind_ok _ _ tt w H).
    unfold bind at 1, get_bpy. cbn -[send_selection]. unfold bind at 1, get_state.
    cbn -[send_selection].
    destruct (bool_decide _); [reflexivity|].
    unfold bind, modify_state. cbn -[send_selection]. apply send_selection_total.
  - unfold eval. rewrite handler_v1_cases.
    destruct (gate_open w); [apply for_each_total, scan_update_v1_total|].
    destruct (connected (sync_state w)); reflexivity.
  - unfold eval, timer_callback_v1.
    assert (H : eval process_incoming_messages_v1 w = Ok tt).
    { unfold process_incoming_messages_v1, eval, bind, get_state. cbn.
      apply process_frames_v1_total. }
    rewrite (eval_bind_ok _ _ tt w H).
    unfold bind at 1, get_bpy. cbn -[send_selection_v1]. unfold bind at 1, get_state.
    cbn -[send_selection_v1].
    destruct (bool_decide _); [reflexivity|].
    unfold bind, modify_state. cbn -[send_selection_v1]. apply send_selection_v1_total.
Qed.

(* ====================================================================== *)
(** * Connecting and disconnecting *)
(* ====================================================================== *)

(** X15.  [stop_connection] can be called in any state, also when nothing
    was ever connected: it returns, writes nothing on the wire, leaves the
    add-on offline with the session id and the client id cleared, and a
    second call changes nothing more.  It does not touch the inbound queue,
    the echo guard, the rate limiter or the scene, and every send after it
    returns [False]. *)
Theorem stop_connection_idempotent (w : World) :
  let w1 := exec stop_connection w in
  eval stop_connection w = Ok tt /\
  connected (sync_state w1) = false /\
  session_id (sync_state w1) = EmptyString /\
  client_id (sync_state w1) = JStr EmptyString /\
  online w1 = false /\
  sent_frames w1 = sent_frames w /\
  message_queue (sync_state w1) = message_queue (sync_state w) /\
  ignore_next_update (sync_state w1) = ignore_next_update (sync_state w) /\
  last_sync_time (sync_state w1) = last_sync_time (sync_state w) /\
  bpy w1 = bpy w /\ stdout w1 = stdout w /\
  stop_connection w1 = (Ok tt, w1) /\
  (forall msg_type payload, send_message msg_type payload w1 = (Ok false, w1)).
Proof.
  destruct w as [[app c sid cid q th l sel g] b out ck t].
  destruct app as [[sk fs]|]; cbn; repeat split; intros; apply send_message_offline;
    left; reflexivity.
Qed.

(** X16.  [start_connection] while a connection thread is alive returns
    [False] and changes nothing; in particular the session id of the
    connection that is running is not overwritten.  So of two calls in a
    row the first wins.  The call itself writes nothing on the wire. *)
Theorem start_connection_once (sid1 sid2 : string) (w : World) :
  (ws_thread (sync_state w) = true -> start_connection sid2 w = (Ok false, w)) /\
  (ws_thread (sync_state w) = false ->
   let w1 := exec (start_connection sid1) w in
   eval (start_connection sid1) w = Ok true /\
   session_id (sync_state w1) = sid1 /\
   sent_frames w1 = [] /\
   start_connection sid2 w1 = (Ok false, w1) /\
   session_id (sync_state (exec (start_connection sid2) w1)) = sid1).
Proof.
  split; intros Ht.
  - unfold start_connection, bind, get_state. rewrite Ht. reflexivity.
  - unfold exec, eval, start_connection, bind, get_state. rewrite Ht. cbn.
    repeat split; reflexivity.
Qed.

(* ====================================================================== *)
(** * What the outbound side leaves alone *)
(* ====================================================================== *)

Ltac preserves_order ::=
  unfold guard_grows, same_last_sync, same_queue, scene_kept; intros;
  first [reflexivity | congruence | set_solver | intuition congruence].

Ltac preserves_leaf ::=
  intros; unfold guard_grows, same_last_sync, same_queue, scene_kept; cbn;
  repeat (match goal with
          | |- context [match ?x with _ => _ end] => destruct x; cbn
          end);
  first [reflexivity | set_solver | repeat split; reflexivity].

Lemma send_message_scene_kept (t : string) (p : json) :
  preserves scene_kept (send_message t p).
Proof. preserves_tac. Qed.

Lemma handler_scene_kept (us : list DepsgraphUpdate) :
  preserves scene_kept (depsgraph_update_handler us).
Proof. preserves_tac. Qed.

Lemma scan_frames_transform (us : list DepsgraphUpdate) (w : World) :
  Forall (fun f => frame_type f = Some (JStr TRANSFORM)) (scan_frames us w).
Proof.
  revert w. induction us as [|u us IH]; intros w; [constructor|].
  simpl. apply Forall_app. split; [|apply IH].
  unfold scan_output. destruct (upd_id u) as [name|name]; [|constructor].
  destruct (bool_decide _); [constructor|].
  destruct (objects (bpy w) !! name) as [o|]; [|constructor].
  destruct (_ && online w); [|constructor].
  constructor; [|constructor]. unfold frame_of.
  change (py_or (transform_payload name o) (JObj [])) with (transform_payload name o).
  apply frame_type_envelope, json_ok_transform_payload.
Qed.

(** X14.  The outbound scan only reads the scene.  Whatever the
    notification lists, [depsgraph_update_handler] changes neither the
    scene, nor the inbound queue, nor the recorded selection, nor the
    session id, the client id or the connected flag; it adds no entity to
    the echo guard; and every frame it writes is appended to the wire and
    is a [transform]. *)
Theorem outbound_scan_read_only (us : list DepsgraphUpdate) (w : World) :
  let w' := exec (depsgraph_update_handler us) w in
  bpy w' = bpy w /\
  message_queue (sync_state w') = message_queue (sync_state w) /\
  selected_objects (sync_state w') = selected_objects (sync_state w) /\
  client_id (sync_state w') = client_id (sync_state w) /\
  session_id (sync_state w') = session_id (sync_state w) /\
  connected (sync_state w') = connected (sync_state w) /\
  ignore_next_update (sync_state w') ⊆ ignore_next_update (sync_state w) /\
  exists out,
    sent_frames w' = sent_frames w ++ out /\
    Forall (fun f => frame_type f = Some (JStr TRANSFORM)) out.
Proof.
  intros w'. destruct (handler_scene_kept us w) as (Hb & Hq & Hs & Hc & Hi & _ & Hn).
  fold w' in Hb, Hq, Hs, Hc, Hi, Hn.
  repeat (split; [assumption|]).
  destruct (gate_open w) eqn:Hg.
  - destruct (handler_open us w Hg) as (Hf & Hgd & _). fold w' in Hf, Hgd.
    split; [rewrite Hgd; set_solver|].
    exists (scan_frames us (accepted w)). split; [exact Hf|apply scan_frames_transform].
  - destruct (handler_closed us w Hg) as (Hst & _ & _ & Hf). fold w' in Hst, Hf.
    split; [rewrite Hst; set_solver|].
    exists []. rewrite app_nil_r. split; [exact Hf|constructor].
Qed.

(* ====================================================================== *)
(** * What the dispatcher has no branch for *)
(* ====================================================================== *)

Lemma forallb_json_ok_floats (l : list float) :
  forallb json_ok (map JFloat l) = true.
Proof. induction l as [|x l IH]; [reflexivity|exact IH]. Qed.

Lemma json_ok_obj (kvs : list (string * json)) :
  json_ok (JObj kvs) =
  bool_decide (NoDup (map fst kvs)) && forallb (fun kv => json_ok (snd kv)) kvs.
Proof. reflexivity. Qed.

Lemma json_ok_object_data (b : BlendData) (name : string) (o : Object) :
  json_ok (get_object_data b name o) = true.
Proof.
  unfold get_object_data, get_object_transform. cbn [dict_lookup String.eqb Ascii.eqb Bool.eqb].
  assert (Hbase : forall p,
            json_ok (JObj [("id", JStr name); ("name", JStr name); ("type", JStr (type o));
                           ("position", json_of_vector (location o));
                           ("rotation", p); ("scale", json_of_vector (scale o));
                           ("parent", json_of_option_string (parent o));
                           ("visible", JBool (visible o))]) = json_ok p).
  { intros p. rewrite json_ok_obj. cbn [map fst snd forallb].
    replace (bool_decide _) with true by (symmetry; vm_compute; reflexivity).
    cbn. destruct (parent o); cbn; rewrite ?andb_true_r; reflexivity. }
  destruct (String.eqb (type o) "MESH"); [|rewrite Hbase; reflexivity].
  destruct (obj_materials o) as [|[mat_name|] slots]; try (rewrite Hbase; reflexivity).
  destruct (materials b !! mat_name) as [mat|]; [|rewrite Hbase; reflexivity].
  cbn [dict_set String.eqb Ascii.eqb Bool.eqb]. rewrite json_ok_obj. cbn [map fst snd forallb].
  replace (bool_decide _) with true by (symmetry; vm_compute; reflexivity).
  cbn. rewrite forallb_json_ok_floats. destruct (parent o); reflexivity.
Qed.

Lemma not_handled (t : string) :
  t ∉ handled_types ->
  Forall (fun h => String.eqb t h = false) handled_types.
Proof.
  intros H. apply Forall_forall. intros h Hh. apply String.eqb_neq. intros ->.
  exact (H Hh).
Qed.

Lemma process_message_unhandled (raw : string) (kvs : list (string * json))
  (t : string) (w : World) :
  loads raw = Some (JObj kvs) ->
  dict_lookup "type" kvs = Some (JStr t) ->
  t ∉ handled_types ->
  dict_lookup "payload" kvs = None \/
    (exists p, dict_lookup "payload" kvs = Some (JObj p)) ->
  process_message raw w = (Ok tt, w).
Proof.
  intros Hraw Ht Hn Hp. apply not_handled in Hn.
  unfold handled_types in Hn.
  repeat (apply Forall_cons_1 in Hn as [? Hn]).
  unfold process_message, json_loads. rewrite Hraw.
  unfold bind at 1, ret at 1. unfold bind at 1, py_get at 1, ret at 1. rewrite Ht.
  unfold bind at 1, py_get at 1, ret at 1.
  unfold is_str at 2 3 4 5 6 7 8 9 10.
  repeat match goal with
         | H : String.eqb t _ = false |- _ => rewrite H; clear H
         end.
  destruct Hp as [-> | [p ->]]; [reflexivity|].
  unfold bind, py_get, ret.
  destruct (dict_lookup "_senderType" p) as [v|];
    [destruct (is_str v own_role)|]; reflexivity.
Qed.

(** X3.  The dispatcher has a branch for nine message types.  A frame of
    any other type (among them [object_add], [object_delete],
    [object_rename], [transform_batch], [hierarchy_update] and [ping], which
    the add-on declares and partly sends itself) is dropped without any
    effect: nothing is applied, printed or sent.  So the [object_add] a
    client writes after a create command changes nothing in a peer that
    runs the same add-on. *)
Theorem unhandled_types_ignored :
  (forall raw kvs t w,
     loads raw = Some (JObj kvs) ->
     dict_lookup "type" kvs = Some (JStr t) ->
     t ∉ handled_types ->
     dict_lookup "payload" kvs = None \/
       (exists p, dict_lookup "payload" kvs = Some (JObj p)) ->
     process_message raw w = (Ok tt, w)) /\
  (forall b name o w0 w,
     process_message (frame_of OBJECT_ADD (get_object_data b name o) w0) w = (Ok tt, w)) /\
  (forall name w0 w,
     process_message (frame_of OBJECT_DELETE (JObj [("objectId", JStr name)]) w0) w
     = (Ok tt, w)).
Proof.
  split; [exact process_message_unhandled|]. split.
  - intros b name o w0 w.
    assert (Hp : exists p, get_object_data b name o = JObj p /\ p <> []).
    { unfold get_object_data. destruct (String.eqb (type o) "MESH"); [|eexists; split; [reflexivity|discriminate]].
      destruct (obj_materials o) as [|[m|] r]; try (eexists; split; [reflexivity|discriminate]).
      destruct (materials b !! m); eexists; (split; [reflexivity|discriminate]). }
    destruct Hp as (p & Hp & Hne).
    assert (Hor : py_or (get_object_data b name o) (JObj []) = JObj p).
    { rewrite Hp. unfold py_or, truthy. destruct p; [congruence|reflexivity]. }
    unfold frame_of. rewrite Hor.
    eapply process_message_unhandled.
    + apply loads_envelope. rewrite <- Hp. apply json_ok_object_data.
    + reflexivity.
    + unfold handled_types. intros H.
      repeat (apply elem_of_cons in H as [H | H]; [discriminate H|]).
      apply elem_of_nil in H. exact H.
    + right. exists p. reflexivity.
  - intros name w0 w. unfold frame_of.
    change (py_or (JObj [("objectId", JStr name)]) (JObj []))
      with (JObj [("objectId", JStr name)]).
    eapply process_message_unhandled.
    + apply loads_envelope. reflexivity.
    + reflexivity.
    + unfold handled_types. intros H.
      repeat (apply elem_of_cons in H as [H | H]; [discriminate H|]).
      apply elem_of_nil in H. exact H.
    + right. eexists. reflexivity.
Qed.

(* ====================================================================== *)
(** * Transforms from the wire *)
(* ====================================================================== *)

(** A frame the dispatcher takes for what its type says: a JSON object
    whose payload is a map without this client's own sender mark. *)
Lemma process_message_payload (raw : string) (kvs p : list (string * json))
  (t : string) (w : World) :
  loads raw = Some (JObj kvs) ->
  dict_lookup "type" kvs = Some (JStr t) ->
  dict_lookup "payload" kvs = Some (JObj p) ->
  sent_by_self p = false ->
  forall k : json -> json -> M unit,
    (message <- json_loads raw ;;;
     msg_type <- py_get message "type" JNull ;;;
     payload <- py_get message "payload" (JObj []) ;;;
     sender <- py_get payload "_senderType" (JStr EmptyString) ;;;
     if is_str sender own_role then ret tt else k msg_type payload) w
    = k (JStr t) (JObj p) w.
Proof.
  intros Hraw Ht Hp Hs k. unfold json_loads. rewrite Hraw.
  unfold bind, ret, py_get. rewrite Ht, Hp. unfold ret. cbv beta iota.
  unfold sent_by_self, payload_get in Hs. rewrite Hs. reflexivity.
Qed.

Lemma process_message_transform (raw : string) (kvs p : list (string * json))
  (w : World) :
  loads raw = Some (JObj kvs) ->
  dict_lookup "type" kvs = Some (JStr TRANSFORM) ->
  dict_lookup "payload" kvs = Some (JObj p) ->
  sent_by_self p = false ->
  process_message raw w =
  apply_transform (payload_get p "objectId" JNull)
    (payload_get p "position" (JArr [JInt 0; JInt 0; JInt 0]))
    (payload_get p "rotation" (JArr [JInt 0; JInt 0; JInt 0; JInt 1]))
    (payload_get p "scale" (JArr [JInt 1; JInt 1; JInt 1])) w.
Proof.
  intros Hraw Ht Hp Hs. unfold process_message.
  rewrite (process_message_payload raw kvs p TRANSFORM w Hraw Ht Hp Hs).
  cbn -[apply_transform]. unfold bind, py_get, ret, payload_get. reflexivity.
Qed.

(** What a well-formed [transform] does to the world. *)
Lemma apply_transform_spec (e : string) (o : Object) (p sc : Vector)
  (x y z s : float) (w : World) :
  objects (bpy w) !! e = Some o ->
  let m := apply_transform (JStr e) (json_of_vector p)
             (JArr [JFloat x; JFloat y; JFloat z; JFloat s]) (json_of_vector sc) in
  eval m w = Ok tt /\
  objects (bpy (exec m w)) !! e = Some (transformed p (mkQuaternion s x y z) sc o) /\
  (forall n, n <> e -> objects (bpy (exec m w)) !! n = objects (bpy w) !! n) /\
  materials (bpy (exec m w)) = materials (bpy w) /\
  active_object (bpy (exec m w)) = active_object (bpy w) /\
  sync_state (exec m w) = guard_add e (sync_state w) /\
  stdout (exec m w) = stdout w /\ clock (exec m w) = clock w /\
  ticks (exec m w) = ticks w.
Proof.
  intros Ho m. subst m. destruct p as [px py pz], sc as [sx sy sz].
  unfold eval, exec, apply_transform, bind at 1 3 5 7 9 11 13 15 17, objects_get,
    bind at 1 2 3 4 5 6 7 8 9, get_bpy, ret. simpl. rewrite Ho.
  unfold bind, modify_state, update_object, modify_bpy, ret,
    quaternion_of_xyzw, index_float, bind, ret, transformed.
  destruct (String.eqb (rotation_mode o) "QUATERNION") eqn:Hm; cbn;
    rewrite ?lookup_alter_eq, ?Ho; cbn; rewrite ?Hm;
    (repeat split; try reflexivity);
    try (intros n Hn; rewrite !lookup_alter_ne by congruence; reflexivity).
Qed.

Lemma online_inv (w : World) :
  online w = true ->
  connected (sync_state w) = true /\
  exists app, ws (sync_state w) = Some app /\ sock_connected app = true.
Proof.
  unfold online. intros [Hc Hs]%andb_true_iff. split; [exact Hc|].
  destruct (ws (sync_state w)) as [app|]; [eauto|discriminate].
Qed.

(** The frame on the wire after a send that went through. *)
Lemma send_message_frame (msg_type : string) (payload : json) (w : World) :
  online w = true ->
  eval (send_message msg_type payload) w = Ok true /\
  sent_frames (exec (send_message msg_type payload) w) =
    sent_frames w ++ [frame_of msg_type payload w] /\
  bpy (exec (send_message msg_type payload) w) = bpy w /\
  stdout (exec (send_message msg_type payload) w) = stdout w /\
  online (exec (send_message msg_type payload) w) = true.
Proof.
  intros (Hc & app & Hws & Hsock)%online_inv.
  unfold eval, exec. rewrite (send_message_online _ _ _ app) by assumption.
  unfold sent_frames, online. cbn. rewrite Hws, Hc. repeat split; reflexivity.
Qed.

(** X1.  A transform survives the wire.  The frame [send_transform] writes
    for an object, handed as it is to the dispatcher of a client that has
    an object of that name, gives that object the location and the scale
    of the sender's and its rotation (as its quaternion when the object is
    in quaternion mode, else converted to Euler angles); no other object
    changes, nothing is sent back, and the name is put in the echo
    guard. *)
Theorem transform_wire_roundtrip (e : string) (o o' : Object) (w w' : World) :
  online w = true ->
  objects (bpy w') !! e = Some o' ->
  let frame := frame_of TRANSFORM (transform_payload e o) w in
  let w2 := exec (process_message frame) w' in
  sent_frames (exec (send_transform e o) w) = sent_frames w ++ [frame] /\
  eval (process_message frame) w' = Ok tt /\
  (exists o2,
     objects (bpy w2) !! e = Some o2 /\
     location o2 = location o /\ scale o2 = scale o /\
     (if String.eqb (rotation_mode o') "QUATERNION"
      then rotation_quaternion o2 = object_rotation o
      else rotation_euler o2 = to_euler (object_rotation o)) /\
     type o2 = type o' /\ parent o2 = parent o' /\
     rotation_mode o2 = rotation_mode o') /\
  (forall n, n <> e -> objects (bpy w2) !! n = objects (bpy w') !! n) /\
  e ∈ ignore_next_update (sync_state w2) /\
  sent_frames w2 = sent_frames w'.
Proof.
  intros Hon Ho' frame w2.
  split.
  { destruct (send_message_frame TRANSFORM (transform_payload e o) w Hon) as (_ & Hs & _).
    unfold exec, send_transform, bind in *.
    destruct (send_message TRANSFORM (transform_payload e o) w) as [[b|ex] w1];
      exact Hs. }
  assert (Hl : loads frame =
               Some (envelope TRANSFORM (session_id (sync_state w)) (millis (now w))
                       (transform_payload e o))).
  { subst frame. unfold frame_of.
    change (py_or (transform_payload e o) (JObj [])) with (transform_payload e o).
    apply loads_envelope, json_ok_transform_payload. }
  assert (Hpm : process_message frame w' =
                apply_transform (JStr e) (json_of_vector (location o))
                  (JArr [JFloat (quat_x (object_rotation o));
                         JFloat (quat_y (object_rotation o));
                         JFloat (quat_z (object_rotation o));
                         JFloat (quat_w (object_rotation o))])
                  (json_of_vector (scale o)) w').
  { apply (process_message_transform frame _
             (("objectId", JStr e) :: get_object_transform o) w' Hl);
      reflexivity. }
  subst w2. unfold eval, exec. rewrite Hpm.
  destruct (apply_transform_spec e o' (location o) (scale o)
              (quat_x (object_rotation o)) (quat_y (object_rotation o))
              (quat_z (object_rotation o)) (quat_w (object_rotation o)) w' Ho')
    as (Hev & Hobj & Hoth & _ & _ & Hst & _).
  unfold eval, exec in *.
  split; [exact Hev|]. split; [|split; [exact Hoth|split]].
  - eexists. split; [exact Hobj|]. unfold transformed.
    destruct (object_rotation o) as [qw qx qy qz].
    destruct (String.eqb (rotation_mode o') "QUATERNION"); repeat split; reflexivity.
  - rewrite Hst. unfold guard_add. cbn. set_solver.
  - unfold sent_frames. rewrite Hst. reflexivity.
Qed.

(** X2.  A transform is not applied as a whole.  When the rotation of a
    [transform] for an existing object has fewer than four components,
    [apply_transform] raises [IndexError] after it has put the name in the
    echo guard and moved the object: the location is the new one, rotation
    and scale are the old ones.  The dispatcher prints the error and goes
    on, so the object stays half updated and its next local change is
    taken for an echo. *)
Theorem transform_not_atomic (e : string) (o : Object) (p : Vector)
  (rotation : list json) (scale_ : json) (w : World) :
  objects (bpy w) !! e = Some o ->
  (length rotation < 4)%nat ->
  let m := apply_transform (JStr e) (json_of_vector p) (JArr rotation) scale_ in
  eval m w = Raise IndexError /\
  objects (bpy (exec m w)) !! e = Some (set_location p o) /\
  e ∈ ignore_next_update (sync_state (exec m w)) /\
  stdout (exec (try_except m (fun ex => print (PrintError "Message processing error" ex))) w)
  = stdout w ++ [PrintError "Message processing error" IndexError].
Proof.
  intros Ho Hlen m.
  assert (H3 : rotation !! 3%nat = None) by (apply lookup_ge_None; lia).
  assert (Hm : m w = (Raise IndexError,
                      upd_bpy (fun b => set_objects (alter (set_location p) e (objects b)) b)
                        (upd_state (guard_add e) w))).
  { subst m. destruct p as [px py pz].
    unfold apply_transform, bind at 1, objects_get, bind at 1, get_bpy, ret.
    simpl. rewrite Ho.
    unfold bind, modify_state, update_object, modify_bpy, ret,
      quaternion_of_xyzw, index_float, bind, ret, raise. cbn.
    rewrite H3. destruct (String.eqb (rotation_mode o) "QUATERNION"); reflexivity. }
  unfold eval, exec, try_except. rewrite Hm. cbn.
  rewrite lookup_alter_eq, Ho. repeat split; try reflexivity. set_solver.
Qed.

(* ====================================================================== *)
(** * Selection *)
(* ====================================================================== *)

Lemma elem_of_selection (b : BlendData) (n : string) :
  n ∈ selection b <-> exists o, objects b !! n = Some o /\ selected o = true.
Proof.
  unfold selection, selected_names. rewrite elem_of_list_to_set, list_elem_of_fmap.
  split.
  - intros ([n' o] & -> & Hin). apply list_elem_of_filter in Hin as [Hsel Hin].
    apply elem_of_map_to_list in Hin. eauto.
  - intros (o & Ho & Hsel). exists (n, o). split; [reflexivity|].
    apply list_elem_of_filter. split; [exact Hsel|]. apply elem_of_map_to_list, Ho.
Qed.

Lemma select_loop (ids : list string) (known : gset string) (w : World) :
  known = dom (objects (bpy w)) ->
  let w' := exec (for_each (map JStr ids) select_one) w in
  eval (for_each (map JStr ids) select_one) w = Ok tt /\
  (forall n, objects (bpy w') !! n =
             (fun o => if bool_decide (n ∈ ids) then set_selected true o else o)
               <$> objects (bpy w) !! n) /\
  materials (bpy w') = materials (bpy w) /\
  active_object (bpy w') = last_known known ids (active_object (bpy w)) /\
  sync_state w' = sync_state w /\ stdout w' = stdout w /\
  clock w' = clock w /\ ticks w' = ticks w.
Proof.
  revert w. induction ids as [|i ids IH]; intros w Hk.
  - cbn. repeat split; try reflexivity. intros n.
    destruct (objects (bpy w) !! n); reflexivity.
  - intros w'. subst w'. cbn [map].
    assert (Hstep : exists w1,
              select_one (JStr i) w = (Ok tt, w1) /\
              (forall n, objects (bpy w1) !! n =
                         (fun o => if bool_decide (n = i) then set_selected true o else o)
                           <$> objects (bpy w) !! n) /\
              materials (bpy w1) = materials (bpy w) /\
              active_object (bpy w1) =
                (if bool_decide (i ∈ known) then Some i else active_object (bpy w)) /\
              sync_state w1 = sync_state w /\ stdout w1 = stdout w /\
              clock w1 = clock w /\ ticks w1 = ticks w).
    { unfold select_one, bind at 1, objects_get, bind at 1, get_bpy, ret. cbn.
      destruct (objects (bpy w) !! i) as [o|] eqn:Ho.
      - eexists. split; [reflexivity|]. cbn.
        rewrite bool_decide_eq_true_2 by (subst known; apply elem_of_dom; eauto).
        repeat split; try reflexivity. intros n.
        destruct (bool_decide (n = i)) eqn:Hn.
        + apply bool_decide_eq_true in Hn as ->. rewrite lookup_alter_eq. reflexivity.
        + apply bool_decide_eq_false in Hn. rewrite lookup_alter_ne by congruence.
          destruct (objects (bpy w) !! n); reflexivity.
      - eexists. split; [reflexivity|].
        rewrite bool_decide_eq_false_2
          by (subst known; rewrite elem_of_dom, Ho; intros [? ?]; discriminate).
        repeat split; try reflexivity. intros n.
        destruct (bool_decide (n = i)) eqn:Hn.
        + apply bool_decide_eq_true in Hn as ->. rewrite Ho. reflexivity.
        + destruct (objects (bpy w) !! n); reflexivity. }
    destruct Hstep as (w1 & Hs & Ho1 & Hm1 & Ha1 & Hst1 & Hout1 & Hc1 & Ht1).
    assert (Hk1 : known = dom (objects (bpy w1))).
    { subst known. apply set_eq. intros n. rewrite !elem_of_dom, Ho1.
      destruct (objects (bpy w) !! n); cbn; split; intros [? ?]; eauto; discriminate. }
    destruct (IH w1 Hk1) as (He & Ho2 & Hm2 & Ha2 & Hst2 & Hout2 & Hc2 & Ht2).
    unfold eval, exec in *. cbn [for_each]. unfold bind at 1 2 3 4 5 6 7 8. rewrite Hs.
    rewrite He, Hm2, Ha2, Hst2, Hout2, Hc2, Ht2, Hm1, Ha1, Hst1, Hout1, Hc1, Ht1.
    repeat split; try reflexivity. intros n. rewrite Ho2, Ho1.
    destruct (objects (bpy w) !! n) as [o|]; [|reflexivity]. cbn. f_equal.
    destruct (bool_decide (n = i)) eqn:Hn.
    + apply bool_decide_eq_true in Hn as ->.
      rewrite (bool_decide_eq_true_2 (i ∈ i :: ids)) by apply list_elem_of_here.
      destruct (bool_decide (i ∈ ids)); reflexivity.
    + apply bool_decide_eq_false in Hn.
      destruct (bool_decide (n ∈ ids)) eqn:Hin.
      * apply bool_decide_eq_true in Hin.
        rewrite bool_decide_eq_true_2 by (apply list_elem_of_further, Hin). reflexivity.
      * apply bool_decide_eq_false in Hin.
        rewrite bool_decide_eq_false_2; [reflexivity|].
        intros [?|?]%elem_of_cons; contradiction.
Qed.

Lemma process_message_select (raw : string) (kvs p : list (string * json))
  (w : World) :
  loads raw = Some (JObj kvs) ->
  dict_lookup "type" kvs = Some (JStr OBJECT_SELECT) ->
  dict_lookup "payload" kvs = Some (JObj p) ->
  sent_by_self p = false ->
  process_message raw w =
  (modify_bpy (fun b => set_objects (set_selected false <$> objects b) b) >>>
   ids <- py_iter (payload_get p "objectIds" (JArr [])) ;;;
   for_each ids select_one) w.
Proof.
  intros Hraw Ht Hp Hs. unfold process_message.
  rewrite (process_message_payload raw kvs p OBJECT_SELECT w Hraw Ht Hp Hs).
  reflexivity.
Qed.

(** What an [object_select] for the names [ids] does. *)
Lemma object_select_spec (raw : string) (kvs p : list (string * json))
  (ids : list string) (w : World) :
  loads raw = Some (JObj kvs) ->
  dict_lookup "type" kvs = Some (JStr OBJECT_SELECT) ->
  dict_lookup "payload" kvs = Some (JObj p) ->
  sent_by_self p = false ->
  payload_get p "objectIds" (JArr []) = JArr (map JStr ids) ->
  let w' := exec (process_message raw) w in
  eval (process_message raw) w = Ok tt /\
  (forall n, objects (bpy w') !! n =
             set_selected (bool_decide (n ∈ ids)) <$> objects (bpy w) !! n) /\
  selection (bpy w') = list_to_set ids ∩ dom (objects (bpy w)) /\
  active_object (bpy w') =
    last_known (dom (objects (bpy w))) ids (active_object (bpy w)) /\
  materials (bpy w') = materials (bpy w) /\
  sync_state w' = sync_state w /\ stdout w' = stdout w /\
  clock w' = clock w /\ ticks w' = ticks w.
Proof.
  intros Hraw Ht Hp Hs Hids w'. subst w'. unfold eval, exec.
  rewrite (process_message_select raw kvs p w Hraw Ht Hp Hs), Hids.
  unfold bind at 1 2 3 4 5 6 7 8 9, modify_bpy at 1 2 3 4 5 6 7 8 9.
  unfold bind at 1 2 3 4 5 6 7 8 9, py_iter, ret at 1 2 3 4 5 6 7 8 9.
  set (w0 := upd_bpy (fun b => set_objects (set_selected false <$> objects b) b) w).
  assert (Hk : dom (objects (bpy w)) = dom (objects (bpy w0))).
  { subst w0. cbn. rewrite dom_fmap_L. reflexivity. }
  destruct (select_loop ids (dom (objects (bpy w))) w0 Hk)
    as (He & Ho & Hm & Ha & Hst & Hout & Hc & Htk).
  unfold eval, exec in *.
  assert (Hobj : forall n,
            objects (bpy (for_each (map JStr ids) select_one w0).2) !! n =
            set_selected (bool_decide (n ∈ ids)) <$> objects (bpy w) !! n).
  { intros n. rewrite Ho. subst w0. cbn. rewrite lookup_fmap.
    destruct (objects (bpy w) !! n) as [o|]; [|reflexivity]. cbn.
    destruct (bool_decide (n ∈ ids)); reflexivity. }
  rewrite He, Hm, Ha, Hst, Hout, Hc, Htk.
  repeat split; try reflexivity; [exact Hobj|].
  apply set_eq. intros n. rewrite elem_of_selection, elem_of_intersection,
    elem_of_list_to_set, elem_of_dom. setoid_rewrite Hobj.
  destruct (objects (bpy w) !! n) as [o|]; cbn.
  - destruct (bool_decide (n ∈ ids)) eqn:Hin.
    + apply bool_decide_eq_true in Hin. split; [eauto|]. intros _. eexists.
      split; reflexivity.
    + apply bool_decide_eq_false in Hin. split.
      * intros (o' & [= <-] & Hsel). discriminate Hsel.
      * intros [? _]. contradiction.
  - split; [intros (? & ? & _); discriminate | intros [_ [? ?]]; discriminate].
Qed.

(** X4.  An [object_select] replaces the selection.  After the dispatcher
    has taken an [object_select] frame whose [objectIds] are names, the
    selected objects are exactly the objects that are named; ids that name
    no object are passed over without an error; the active object is the
    last id that names one (and stays as it was when none does); nothing is
    sent, and the selection the add-on has recorded for its own
    [timer_callback] is not updated. *)
Theorem object_select_applied (raw : string) (kvs p : list (string * json))
  (ids : list string) (w : World) :
  loads raw = Some (JObj kvs) ->
  dict_lookup "type" kvs = Some (JStr OBJECT_SELECT) ->
  dict_lookup "payload" kvs = Some (JObj p) ->
  sent_by_self p = false ->
  payload_get p "objectIds" (JArr []) = JArr (map JStr ids) ->
  let w' := exec (process_message raw) w in
  eval (process_message raw) w = Ok tt /\
  (forall n, objects (bpy w') !! n =
             set_selected (bool_decide (n ∈ ids)) <$> objects (bpy w) !! n) /\
  selection (bpy w') = list_to_set ids ∩ dom (objects (bpy w)) /\
  active_object (bpy w') =
    last_known (dom (objects (bpy w))) ids (active_object (bpy w)) /\
  sent_frames w' = sent_frames w /\
  selected_objects (sync_state w') = selected_objects (sync_state w) /\
  stdout w' = stdout w.
Proof.
  intros Hraw Ht Hp Hs Hids w'.
  destruct (object_select_spec raw kvs p ids w Hraw Ht Hp Hs Hids)
    as (He & Ho & Hsel & Ha & _ & Hst & Hout & _).
  fold w' in Ho, Hsel, Ha, Hst, Hout.
  unfold sent_frames. rewrite Hst. repeat split; assumption.
Qed.

Lemma timer_callback_split (w : World) :
  timer_callback w = (process_incoming_messages >>> sync_selection) w.
Proof. reflexivity. Qed.

Lemma json_ok_selection_payload (names : list string) :
  json_ok (selection_payload names) = true.
Proof.
  unfold selection_payload. rewrite json_ok_obj. cbn.
  rewrite andb_true_r. induction names as [|n names IH]; [reflexivity|exact IH].
Qed.

Lemma send_message_not_online (msg_type : string) (payload : json) (w : World) :
  online w = false ->
  sent_frames (exec (send_message msg_type payload) w) = sent_frames w.
Proof.
  intros Hoff. unfold exec.
  destruct (connected (sync_state w)) eqn:Hc;
    [|rewrite send_message_offline by auto; reflexivity].
  destruct (ws (sync_state w)) as [app|] eqn:Hws;
    [|rewrite send_message_offline by auto; reflexivity].
  destruct (sock_connected app) eqn:Hsock.
  - unfold online in Hoff. rewrite Hc, Hws, Hsock in Hoff. discriminate.
  - rewrite (send_message_socket_closed _ _ _ app) by assumption. reflexivity.
Qed.

Lemma sync_selection_cases (w : World) :
  sync_selection w =
  if bool_decide (selection (bpy w) = selected_objects (sync_state w))
  then (Ok tt, w)
  else send_selection (elements (selection (bpy w)))
         (upd_state (set_selected_objects (selection (bpy w))) w).
Proof.
  cbv beta iota zeta delta [sync_selection bind get_bpy get_state modify_state selection ret].
  destruct (bool_decide _); reflexivity.
Qed.

(** What the second half of the timer does. *)
Lemma sync_selection_spec (w : World) :
  let w1 := exec sync_selection w in
  eval sync_selection w = Ok tt /\
  selected_objects (sync_state w1) = selection (bpy w) /\
  bpy w1 = bpy w /\
  message_queue (sync_state w1) = message_queue (sync_state w) /\
  (selection (bpy w) = selected_objects (sync_state w) -> w1 = w) /\
  (selection (bpy w) <> selected_objects (sync_state w) ->
   online w = true ->
   sent_frames w1 =
     sent_frames w ++
     [frame_of OBJECT_SELECT (selection_payload (elements (selection (bpy w)))) w]) /\
  (online w = false -> sent_frames w1 = sent_frames w).
Proof.
  unfold eval, exec. rewrite sync_selection_cases.
  destruct (bool_decide (selection (bpy w) = selected_objects (sync_state w))) eqn:Hsel.
  - apply bool_decide_eq_true in Hsel. cbn.
    repeat split; try reflexivity; try (symmetry; exact Hsel). intros Hne. contradiction.
  - apply bool_decide_eq_false in Hsel.
    set (w0 := upd_state (set_selected_objects (selection (bpy w))) w).
    unfold send_selection, bind.
    fold (selection_payload (elements (selection (bpy w)))).
    destruct (send_message_scene_kept OBJECT_SELECT
                (selection_payload (elements (selection (bpy w)))) w0)
      as (Hb & Hq & Hso & _).
    destruct (send_message_total OBJECT_SELECT
                (selection_payload (elements (selection (bpy w)))) w0)
      as (r & w2 & Hsend).
    unfold exec in Hb, Hq, Hso. rewrite Hsend in *. cbn in *.
    repeat split; try assumption; try reflexivity.
    + intros Heq. contradiction.
    + intros _ Hon.
      destruct (send_message_frame OBJECT_SELECT
                  (selection_payload (elements (selection (bpy w)))) w0 Hon)
        as (_ & Hf & _).
      unfold exec in Hf. rewrite Hsend in Hf. exact Hf.
    + intros Hoff.
      pose proof (send_message_not_online OBJECT_SELECT
                    (selection_payload (elements (selection (bpy w)))) w0 Hoff) as Hf.
      unfold exec in Hf. rewrite Hsend in Hf. exact Hf.
Qed.

Lemma frame_of_selection (names : list string) (w : World) :
  frame_type (frame_of OBJECT_SELECT (selection_payload names) w)
    = Some (JStr OBJECT_SELECT) /\
  frame_field "objectIds" (frame_of OBJECT_SELECT (selection_payload names) w)
    = Some (JArr (map JStr names)).
Proof.
  unfold frame_of, frame_field.
  change (py_or (selection_payload names) (JObj [])) with (selection_payload names).
  rewrite frame_type_envelope, frame_payload_envelope by apply json_ok_selection_payload.
  split; reflexivity.
Qed.

(** X5.  The selection is sent when it changes, and only then.  A tick of
    the timer with nothing in the queue records the selection of the scene;
    when it is the one recorded before, the tick changes nothing at all;
    when it differs and the add-on is online, the tick writes one
    [object_select] frame with the names of the selected objects.  A tick
    right after it changes nothing.  When the add-on is not online the
    selection is recorded all the same and nothing is written, so a change
    of the selection made while offline is never sent. *)
Theorem timer_selection_sync (w : World) :
  message_queue (sync_state w) = [] ->
  let w1 := exec timer_callback w in
  selected_objects (sync_state w1) = selection (bpy w) /\
  bpy w1 = bpy w /\
  timer_callback w1 = (Ok tt, w1) /\
  (selection (bpy w) = selected_objects (sync_state w) -> w1 = w) /\
  (selection (bpy w) <> selected_objects (sync_state w) ->
   online w = true ->
   exists frame,
     sent_frames w1 = sent_frames w ++ [frame] /\
     frame_type frame = Some (JStr "object_select") /\
     frame_field "objectIds" frame
       = Some (JArr (map JStr (elements (selection (bpy w)))))) /\
  (online w = false -> sent_frames w1 = sent_frames w).
Proof.
  intros Hq w1.
  assert (Hin : forall w0, message_queue (sync_state w0) = [] ->
                  timer_callback w0 = sync_selection w0).
  { intros w0 Hq0. rewrite timer_callback_split.
    unfold bind, process_incoming_messages, bind, get_state. rewrite Hq0. reflexivity. }
  subst w1. unfold exec. rewrite (Hin w Hq).
  destruct (sync_selection_spec w) as (Hev & Hsel & Hb & Hq1 & Hsame & Hsent & Hoff).
  unfold eval, exec in *.
  split; [exact Hsel|]. split; [exact Hb|]. split; [|split; [exact Hsame|split]].
  - rewrite Hin by (rewrite Hq1; exact Hq).
    destruct (sync_selection_spec (sync_selection w).2) as (Hev' & _ & _ & _ & Hsame' & _).
    unfold eval, exec in *.
    rewrite Hb, Hsel in Hsame'. specialize (Hsame' eq_refl).
    destruct (sync_selection (sync_selection w).2) as [r w2]. cbn in *. subst. reflexivity.
  - intros Hne Hon. eexists. split; [apply Hsent; assumption|].
    apply frame_of_selection.
  - exact Hoff.
Qed.

(** X6.  A selection that comes from the wire goes back on the wire.  The
    echo guard covers transforms only: when the tick of the timer takes an
    [object_select] frame from the queue and the objects it names are not
    the selection recorded at the last tick, the same tick, once the queue
    is drained, finds the selection changed and writes an [object_select]
    frame of its own with those names. *)
Theorem remote_selection_echoed (raw : string) (kvs p : list (string * json))
  (ids : list string) (w : World) :
  message_queue (sync_state w) = [raw] ->
  loads raw = Some (JObj kvs) ->
  dict_lookup "type" kvs = Some (JStr OBJECT_SELECT) ->
  dict_lookup "payload" kvs = Some (JObj p) ->
  sent_by_self p = false ->
  payload_get p "objectIds" (JArr []) = JArr (map JStr ids) ->
  online w = true ->
  list_to_set ids ∩ dom (objects (bpy w)) <> selected_objects (sync_state w) ->
  let w1 := exec timer_callback w in
  let names := elements (list_to_set ids ∩ dom (objects (bpy w)) : gset string) in
  selection (bpy w1) = list_to_set ids ∩ dom (objects (bpy w)) /\
  selected_objects (sync_state w1) = list_to_set ids ∩ dom (objects (bpy w)) /\
  exists frame,
    sent_frames w1 = sent_frames w ++ [frame] /\
    frame_type frame = Some (JStr "object_select") /\
    frame_field "objectIds" frame = Some (JArr (map JStr names)).
Proof.
  intros Hq Hraw Ht Hp Hs Hids Hon Hne w1 names.
  set (w0 := upd_state (set_message_queue []) w).
  destruct (object_select_spec raw kvs p ids w0 Hraw Ht Hp Hs Hids)
    as (He & _ & Hsel & _ & _ & Hst & _).
  set (w' := exec (process_message raw) w0) in *.
  assert (Hpi : process_incoming_messages w = (Ok tt, w')).
  { unfold process_incoming_messages, bind at 1, get_state. rewrite Hq.
    cbn [process_frames]. unfold bind, process_frame, bind, modify_state, try_except, ret.
    fold w0. unfold eval in He. subst w'. unfold exec.
    destruct (process_message raw w0) as [r w2]. cbn in *. subst r. reflexivity. }
  assert (Htc : timer_callback w = sync_selection w').
  { rewrite timer_callback_split. unfold bind. rewrite Hpi. reflexivity. }
  subst w1. unfold exec. rewrite Htc.
  destruct (sync_selection_spec w') as (_ & Hrec & Hb & _ & _ & Hsent & _).
  unfold exec in Hrec, Hb, Hsent.
  change (bpy w0) with (bpy w) in Hsel.
  assert (Hon' : online w' = true).
  { unfold online. rewrite Hst. exact Hon. }
  assert (Hf' : sent_frames w' = sent_frames w).
  { unfold sent_frames. rewrite Hst. reflexivity. }
  rewrite Hb, Hrec, Hsel. split; [reflexivity|]. split; [reflexivity|].
  eexists. split.
  - rewrite Hsent, Hf'; [reflexivity| |exact Hon'].
    rewrite Hsel, Hst. exact Hne.
  - rewrite Hsel. apply frame_of_selection.
Qed.

(* ====================================================================== *)
(** * The commands that delete and modify *)
(* ====================================================================== *)

Lemma handle_delete_eq (params : list (string * json)) (e : string) (o : Object)
  (w : World) :
  delete_target params = JStr e ->
  objects (bpy w) !! e = Some o ->
  handle_ai_execute (delete_command params) w =
  (send_message OBJECT_DELETE (JObj [("objectId", JStr e)]) >>> ret tt)
    (printed (Print "Deleted" [JStr e])
       (exec (remove_object e)
          (printed (Print "AI Execute" [JStr "delete_object"]) w))).
Proof.
  intros Ht Ho. unfold delete_target, payload_get in Ht.
  unfold handle_ai_execute, delete_command.
  unfold bind, py_get, ret, print. cbn -[send_message remove_object truthy].
  destruct (truthy _); rewrite Ht; unfold objects_get, bind, get_bpy, ret;
    cbn -[send_message remove_object]; rewrite Ho; reflexivity.
Qed.

(** X7.  The delete command.  [delete_object] takes the object named by
    [objectId] (by [name] when [objectId] is missing or empty) out of the
    scene and, when the add-on is online, writes exactly one
    [object_delete] frame with its name.  The entry of the object in the
    echo guard, if it has one, stays; a [transform] that then arrives for
    the name changes nothing. *)
Theorem delete_command_removes (params : list (string * json)) (e : string)
  (o : Object) (w : World) :
  delete_target params = JStr e ->
  objects (bpy w) !! e = Some o ->
  online w = true ->
  let w' := exec (handle_ai_execute (delete_command params)) w in
  eval (handle_ai_execute (delete_command params)) w = Ok tt /\
  (objects (bpy w') !! e = None) /\
  (dom (objects (bpy w')) = dom (objects (bpy w)) ∖ {[e]}) /\
  (exists frame,
     sent_frames w' = sent_frames w ++ [frame] /\
     frame_type frame = Some (JStr "object_delete") /\
     frame_field "objectId" frame = Some (JStr e)) /\
  ignore_next_update (sync_state w') = ignore_next_update (sync_state w) /\
  (forall position rotation scale_,
     apply_transform (JStr e) position rotation scale_ w' = (Ok tt, w')).
Proof.
  intros Ht Ho Hon w'. subst w'. unfold eval, exec.
  rewrite (handle_delete_eq params e o w Ht Ho).
  set (w3 := printed (Print "Deleted" [JStr e])
               (exec (remove_object e)
                  (printed (Print "AI Execute" [JStr "delete_object"]) w))).
  assert (Hon3 : online w3 = true) by exact Hon.
  destruct (send_message_frame OBJECT_DELETE (JObj [("objectId", JStr e)]) w3 Hon3)
    as (Hev & Hf & Hb & _).
  destruct (send_message_scene_kept OBJECT_DELETE (JObj [("objectId", JStr e)]) w3)
    as (_ & _ & _ & _ & _ & _ & _).
  assert (Hg : ignore_next_update
                 (sync_state (exec (send_message OBJECT_DELETE
                                      (JObj [("objectId", JStr e)])) w3))
               = ignore_next_update (sync_state w)).
  { destruct (online_inv w3 Hon3) as (Hc & app & Hws & Hsock).
    unfold exec. rewrite (send_message_online _ _ _ app) by assumption. reflexivity. }
  unfold eval, exec, bind in *.
  destruct (send_message OBJECT_DELETE (JObj [("objectId", JStr e)]) w3) as [r w4].
  cbn in *. subst r. cbn.
  assert (Hgone : objects (bpy w4) !! e = None).
  { rewrite Hb. subst w3. cbn. rewrite lookup_fmap, lookup_delete_eq. reflexivity. }
  split; [reflexivity|]. split; [exact Hgone|]. split; [|split; [|split]].
  - rewrite Hb. subst w3. cbn. rewrite dom_fmap_L, dom_delete_L. reflexivity.
  - eexists. split; [exact Hf|]. unfold frame_of, frame_field.
    change (py_or (JObj [("objectId", JStr e)]) (JObj []))
      with (JObj [("objectId", JStr e)]).
    rewrite frame_type_envelope, frame_payload_envelope by reflexivity.
    split; reflexivity.
  - exact Hg.
  - intros position rotation scale_.
    unfold apply_transform, bind, objects_get, bind, get_bpy, ret. cbn.
    rewrite Hgone. reflexivity.
Qed.

Lemma take_snoc_length {A : Type} (l : list A) (x : A) :
  take (length (l ++ [x]) - 1) (l ++ [x]) = l.
Proof.
  rewrite length_app. cbn. replace (length l + 1 - 1)%nat with (length l) by lia.
  apply take_app_length.
Qed.

Lemma handle_subdivide_eq (params : list (string * json)) (e m : string)
  (o : Object) (n : Z) (w : World) :
  payload_get params "objectId" JNull = JStr e ->
  payload_get params "modifier" (JStr EmptyString) = JStr m ->
  upper m = "SUBDIVIDE" ->
  payload_get params "levels" (JInt 2) = JInt n ->
  objects (bpy w) !! e = Some o ->
  type o = "MESH" ->
  handle_ai_execute (modify_command params) w =
  (Ok tt,
   printed (Print "Applied" [JStr "SUBDIVIDE"; JStr e])
     (upd_bpy (fun b =>
        set_active_object (Some e)
          (set_objects
             (<[e := set_modifiers
                       (modifiers o ++ [mkModifier "SUBSURF" n (float_of_literal "0.1")]) o]>
                (objects b)) b))
        (printed (Print "AI Execute" [JStr "modify_mesh"]) w))).
Proof.
  unfold payload_get. intros He Hm Hup Hn Ho Hty.
  unfold handle_ai_execute, modify_command.
  unfold bind, py_get, ret, print. cbn -[upper].
  rewrite He, Hm. unfold py_upper, objects_get, bind, get_bpy, ret. cbn -[upper].
  rewrite Hup, Ho, Hty. cbn.
  rewrite Hn. cbn. rewrite lookup_alter_eq, Ho. cbn. rewrite last_snoc. cbn.
  unfold printed, upd_bpy. cbn. do 3 f_equal.
  unfold set_objects, set_active_object. cbn. f_equal.
  apply map_eq. intros k. destruct (decide (k = e)) as [->|Hk].
  - rewrite !lookup_alter_eq, lookup_insert_eq, Ho. cbn. f_equal.
    unfold set_modifiers. cbn. rewrite take_snoc_length. reflexivity.
  - rewrite !lookup_alter_ne, lookup_insert_ne by congruence. reflexivity.
Qed.

(** X8.  The subdivide command.  [modify_mesh] with modifier [subdivide]
    (in any case of the letters) for a mesh makes the mesh the active object
    and appends one [SUBSURF] modifier to it whose levels are the [levels]
    given, 2 when none are given.  The modifiers the mesh had stay in front
    of it, no other object changes, and nothing is written on the wire: the
    command is not passed on to the other clients.  The levels are taken
    between 0 and 6, the values Blender stores as they are given. *)
Theorem subdivide_command (params : list (string * json)) (e m : string)
  (o : Object) (n : Z) (w : World) :
  payload_get params "objectId" JNull = JStr e ->
  payload_get params "modifier" (JStr EmptyString) = JStr m ->
  upper m = "SUBDIVIDE" ->
  payload_get params "levels" (JInt 2) = JInt n ->
  0 <= n <= 6 ->
  objects (bpy w) !! e = Some o ->
  type o = "MESH" ->
  let w' := exec (handle_ai_execute (modify_command params)) w in
  eval (handle_ai_execute (modify_command params)) w = Ok tt /\
  active_object (bpy w') = Some e /\
  (exists md,
     mod_type md = "SUBSURF" /\ mod_levels md = n /\
     objects (bpy w') !! e = Some (set_modifiers (modifiers o ++ [md]) o)) /\
  (forall k, k <> e -> objects (bpy w') !! k = objects (bpy w) !! k) /\
  sync_state w' = sync_state w /\
  sent_frames w' = sent_frames w.
Proof.
  intros He Hm Hup Hn _ Ho Hty w'. subst w'. unfold eval, exec.
  rewrite (handle_subdivide_eq params e m o n w He Hm Hup Hn Ho Hty). cbn.
  split; [reflexivity|]. split; [reflexivity|]. split; [|split; [|split; reflexivity]].
  - eexists. split; [|split]; [| |apply lookup_insert_eq]; reflexivity.
  - intros k Hk. apply lookup_insert_ne. congruence.
Qed.

Lemma handle_bevel_eq (params : list (string * json)) (e a m : string)
  (o oa : Object) (x : float) (w : World) :
  payload_get params "objectId" JNull = JStr e ->
  payload_get params "modifier" (JStr EmptyString) = JStr m ->
  upper m = "BEVEL" ->
  as_float (payload_get params "width" (JFloat (float_of_literal "0.1"))) = Some x ->
  objects (bpy w) !! e = Some o ->
  type o = "MESH" ->
  modifiers o = [] ->
  active_object (bpy w) = Some a ->
  a <> e ->
  handle_ai_execute (modify_command params) w =
  (Raise IndexError,
   upd_bpy (fun b =>
      set_objects
        (alter (fun oa => set_modifiers
                            (modifiers oa ++
                             [mkModifier "BEVEL" 1 (float_of_literal "0.1")]) oa)
           a (objects b)) b)
     (printed (Print "AI Execute" [JStr "modify_mesh"]) w)).
Proof.
  unfold payload_get. intros He Hm Hup Hx Ho Hty Hmods Ha Hne.
  unfold handle_ai_execute, modify_command.
  unfold bind, py_get, ret, print. cbn -[upper].
  rewrite He, Hm. unfold py_upper, objects_get, bind, get_bpy, ret. cbn -[upper].
  rewrite Hup, Ho, Hty. cbn. rewrite Ha. cbn.
  unfold as_float_value. rewrite Hx. cbn.
  rewrite lookup_alter_ne by exact Hne. rewrite Ho, Hmods. reflexivity.
Qed.

(** X9.  The bevel command does not choose its object.  Unlike the
    subdivide branch, the bevel branch of [modify_mesh] does not make the
    mesh it names the active object before it calls the operator that adds
    the modifier.  When another mesh is active, that mesh gets the [BEVEL]
    modifier; the mesh that was named gets none, and setting the width of
    its last modifier raises [IndexError] when it has no modifier at all.
    The active object is a mesh, an object the operator accepts. *)
Theorem bevel_goes_to_active_object (params : list (string * json))
  (e a m : string) (o oa : Object) (x : float) (w : World) :
  payload_get params "objectId" JNull = JStr e ->
  payload_get params "modifier" (JStr EmptyString) = JStr m ->
  upper m = "BEVEL" ->
  as_float (payload_get params "width" (JFloat (float_of_literal "0.1"))) = Some x ->
  objects (bpy w) !! e = Some o ->
  type o = "MESH" ->
  modifiers o = [] ->
  active_object (bpy w) = Some a ->
  a <> e ->
  objects (bpy w) !! a = Some oa ->
  type oa = "MESH" ->
  let w' := exec (handle_ai_execute (modify_command params)) w in
  eval (handle_ai_execute (modify_command params)) w = Raise IndexError /\
  objects (bpy w') !! e = Some o /\
  (exists md,
     mod_type md = "BEVEL" /\
     objects (bpy w') !! a = Some (set_modifiers (modifiers oa ++ [md]) oa)) /\
  active_object (bpy w') = Some a.
Proof.
  intros He Hm Hup Hx Ho Hty Hmods Ha Hne Hoa _ w'. subst w'. unfold eval, exec.
  rewrite (handle_bevel_eq params e a m o oa x w He Hm Hup Hx Ho Hty Hmods Ha Hne). cbn.
  split; [reflexivity|]. split; [|split].
  - rewrite lookup_alter_ne by exact Hne. exact Ho.
  - eexists. split; [|rewrite lookup_alter_eq, Hoa; reflexivity]. reflexivity.
  - exact Ha.
Qed.

(* ====================================================================== *)
(** * Materials *)
(* ====================================================================== *)

Ltac preserves_order ::=
  unfold guard_grows, same_last_sync, same_queue, scene_kept, materials_kept; intros;
  first [reflexivity | congruence | set_solver | intuition congruence].

Ltac preserves_leaf ::=
  intros; unfold guard_grows, same_last_sync, same_queue, scene_kept, materials_kept;
  cbn;
  repeat (match goal with
          | |- context [match ?x with _ => _ end] => destruct x; cbn
          end);
  first [reflexivity | set_solver
        | repeat split; first [reflexivity | apply dom_alter_L]].

Lemma update_principled_kept (name : string) (props : json) :
  preserves materials_kept (update_principled name props).
Proof. preserves_tac. Qed.

Lemma update_principled_color (name : string) (kvs : list (string * json))
  (a b c : json) (rest : list json) (r g bl : float) (w : World) :
  dict_lookup "color" kvs = Some (JArr (a :: b :: c :: rest)) ->
  as_float a = Some r -> as_float b = Some g -> as_float c = Some bl ->
  dict_lookup "roughness" kvs = None ->
  dict_lookup "metalness" kvs = None ->
  update_principled name (JObj kvs) w =
  (Ok tt,
   exec (update_node name
           (fun p => mkPrincipled [r; g; bl; float_of_literal "1.0"]
                       (roughness p) (metallic p))) w).
Proof.
  intros Hc Ha Hb Hcc Hr Hm.
  unfold update_principled, bind, py_contains, py_getitem, as_color, ret.
  rewrite Hc, Hr, Hm. cbn. rewrite Ha, Hb, Hcc. reflexivity.
Qed.

(** X11.  The colour of a material update.  A [material_update] for a
    material that has a principled node sets the base colour of the node to
    the first three components of [color] followed by an alpha of 1.0:
    components after the third are dropped, and an alpha that was sent is
    not used.  Roughness and metallic stay when the update does not name
    them; the other materials and the objects are untouched and nothing is
    sent. *)
Theorem material_update_color (raw : string) (kvs p props : list (string * json))
  (name : string) (m : Material) (pr : Principled)
  (a b c : json) (rest : list json) (r g bl : float) (w : World) :
  loads raw = Some (JObj kvs) ->
  dict_lookup "type" kvs = Some (JStr MATERIAL_UPDATE) ->
  dict_lookup "payload" kvs = Some (JObj p) ->
  sent_by_self p = false ->
  payload_get p "materialId" JNull = JStr name ->
  payload_get p "properties" (JObj []) = JObj props ->
  materials (bpy w) !! name = Some m ->
  use_nodes m = true ->
  principled m = Some pr ->
  dict_lookup "color" props = Some (JArr (a :: b :: c :: rest)) ->
  as_float a = Some r -> as_float b = Some g -> as_float c = Some bl ->
  dict_lookup "roughness" props = None ->
  dict_lookup "metalness" props = None ->
  let w' := exec (process_message raw) w in
  eval (process_message raw) w = Ok tt /\
  materials (bpy w') !! name =
    Some (mkMaterial true
            (Some (mkPrincipled [r; g; bl; float_of_literal "1.0"]
                     (roughness pr) (metallic pr)))
            (diffuse_color m)) /\
  (forall k, k <> name -> materials (bpy w') !! k = materials (bpy w) !! k) /\
  objects (bpy w') = objects (bpy w) /\
  sync_state w' = sync_state w /\ stdout w' = stdout w.
Proof.
  intros Hraw Ht Hp Hs Hid Hprops Hm Hun Hpr Hc Ha Hb Hcc Hr Hmt w'.
  assert (Heq : process_message raw w =
                update_principled name (JObj props) w).
  { unfold process_message.
    rewrite (process_message_payload raw kvs p MATERIAL_UPDATE w Hraw Ht Hp Hs).
    unfold payload_get in Hid, Hprops.
    cbn -[update_principled]. unfold bind, py_get, ret. rewrite Hid, Hprops.
    unfold materials_get, bind, get_bpy, ret. cbn -[update_principled].
    rewrite Hm, Hun, Hpr. reflexivity. }
  subst w'. unfold eval, exec. rewrite Heq.
  rewrite (update_principled_color name props a b c rest r g bl w Hc Ha Hb Hcc Hr Hmt).
  cbn. rewrite lookup_alter_eq, Hm. cbn. rewrite Hun, Hpr.
  repeat split; try reflexivity.
  intros k Hk. rewrite lookup_alter_ne by congruence. reflexivity.
Qed.

Lemma apply_material_cases (e n : string) (o : Object)
  (material : list (string * json)) (w : World) :
  objects (bpy w) !! e = Some o ->
  type o = "MESH" ->
  payload_get material "name" (JStr "BisectMaterial") = JStr n ->
  apply_material (JStr e) (JObj material) w =
  match materials (bpy w) !! n with
  | Some _ => assign_material e n (JObj material) w
  | None =>
      assign_material e (unique_name n (dom (materials (bpy w)))) (JObj material)
        (with_new_material (unique_name n (dom (materials (bpy w)))) w)
  end.
Proof.
  intros Ho Hty Hn. unfold payload_get in Hn.
  unfold apply_material, bind at 1, objects_get, bind at 1, get_bpy, ret. cbn.
  rewrite Ho, Hty. cbn -[update_principled].
  unfold bind at 1, py_get, ret. rewrite Hn.
  unfold bind at 1, materials_get, bind at 1, get_bpy, ret. cbn -[update_principled].
  destruct (materials (bpy w) !! n) as [m0|] eqn:Hm0;
    unfold assign_material, with_new_material, bind, get_bpy, modify_bpy, ret;
    cbn -[update_principled]; rewrite ?Hm0; reflexivity.
Qed.

Lemma assign_material_spec (e mname : string) (material : json) (o : Object)
  (mat : Material) (w : World) :
  objects (bpy w) !! e = Some o ->
  materials (bpy w) !! mname = Some mat ->
  eval (assign_material e mname material) w = Ok tt ->
  let w' := exec (assign_material e mname material) w in
  objects (bpy w') !! e =
    Some (set_obj_materials (Some mname :: tail (obj_materials o)) o) /\
  (forall k, k <> e -> objects (bpy w') !! k = objects (bpy w) !! k) /\
  dom (materials (bpy w')) = dom (materials (bpy w)) /\
  sync_state w' = sync_state w /\
  stdout w' = stdout w ++ [Print "Applied material" [JStr mname; JStr e]].
Proof.
  intros Ho Hm Hev. unfold eval, exec, assign_material in *.
  unfold bind at 1, get_bpy in Hev. unfold bind at 1, get_bpy.
  cbn -[update_principled] in Hev |- *.
  rewrite Hm in Hev |- *.
  set (U := if use_nodes mat
            then match principled mat with
                 | Some _ => update_principled mname material
                 | None => ret tt
                 end
            else ret tt) in *.
  assert (HU : preserves materials_kept U).
  { subst U. destruct (use_nodes mat); [destruct (principled mat)|];
      first [apply update_principled_kept | apply preserves_ret; preserves_order]. }
  specialize (HU w). unfold exec in HU.
  unfold bind in Hev |- *.
  destruct (U w) as [[[]|ex] w1]; [|discriminate Hev].
  destruct HU as (Hobj & Hdom & _ & Hst & Hout). cbn in *.
  rewrite Hobj, Hdom, Hst, Hout.
  split; [|repeat split; try reflexivity].
  - rewrite lookup_alter_eq, Ho. cbn. destruct (obj_materials o); reflexivity.
  - intros k Hk. rewrite lookup_alter_ne by congruence. reflexivity.
Qed.

(** X10.  Assigning a material.  When [apply_material] returns for a mesh,
    the first material slot of the mesh holds the material of the name that
    was asked for: the existing material of that name, or else a new one,
    created under the name Blender gives it; the other slots and the other
    objects are as before, at most one material has been added, nothing is
    sent, and the data of the object that a later [scene_state] or
    [object_add] carries has that material under [material]. *)
Theorem apply_material_assigns (e n : string) (o : Object)
  (material : list (string * json)) (w : World) :
  objects (bpy w) !! e = Some o ->
  type o = "MESH" ->
  payload_get material "name" (JStr "BisectMaterial") = JStr n ->
  eval (apply_material (JStr e) (JObj material)) w = Ok tt ->
  let w' := exec (apply_material (JStr e) (JObj material)) w in
  let mname := if bool_decide (is_Some (materials (bpy w) !! n)) then n
               else unique_name n (dom (materials (bpy w))) in
  let o' := set_obj_materials (Some mname :: tail (obj_materials o)) o in
  objects (bpy w') !! e = Some o' /\
  (forall k, k <> e -> objects (bpy w') !! k = objects (bpy w) !! k) /\
  (dom (materials (bpy w')) = {[mname]} ∪ dom (materials (bpy w))) /\
  (materials (bpy w) !! n = None -> mname ∉ dom (materials (bpy w))) /\
  sent_frames w' = sent_frames w /\
  (exists mat' kvs,
     materials (bpy w') !! mname = Some mat' /\
     get_object_data (bpy w') e o' = JObj kvs /\
     dict_lookup "material" kvs =
       Some (JObj [("name", JStr mname);
                   ("color", JArr (map JFloat (take 3 (diffuse_color mat'))))])).
Proof.
  intros Ho Hty Hn Hev w' mname o'.
  assert (Hmain :
    objects (bpy w') !! e = Some o' /\
    (forall k, k <> e -> objects (bpy w') !! k = objects (bpy w) !! k) /\
    (dom (materials (bpy w')) = {[mname]} ∪ dom (materials (bpy w))) /\
    (materials (bpy w) !! n = None -> mname ∉ dom (materials (bpy w))) /\
    sync_state w' = sync_state w).
  { subst w' o' mname. unfold eval, exec in *.
    rewrite (apply_material_cases e n o material w Ho Hty Hn) in Hev |- *.
    destruct (materials (bpy w) !! n) as [m0|] eqn:Hm0.
    - rewrite bool_decide_eq_true_2 by eauto.
      destruct (assign_material_spec e n (JObj material) o m0 w Ho Hm0 Hev)
        as (H1 & H2 & H3 & H4 & _).
      unfold exec in *. split; [exact H1|]. split; [exact H2|]. split; [|split].
      + rewrite H3. apply elem_of_dom_2 in Hm0. set_solver.
      + discriminate.
      + exact H4.
    - rewrite bool_decide_eq_false_2 by (intros [? ?]; discriminate).
      set (n' := unique_name n (dom (materials (bpy w)))) in *.
      assert (Ho0 : objects (bpy (with_new_material n' w)) !! e = Some o) by exact Ho.
      assert (Hm1 : materials (bpy (with_new_material n' w)) !! n' = Some new_material)
        by apply lookup_insert_eq.
      destruct (assign_material_spec e n' (JObj material) o new_material
                  (with_new_material n' w) Ho0 Hm1 Hev)
        as (H1 & H2 & H3 & H4 & _).
      unfold exec in *. split; [exact H1|]. split; [exact H2|]. split; [|split].
      + rewrite H3. cbn. apply dom_insert_L.
      + intros _. apply unique_name_fresh.
      + exact H4. }
  destruct Hmain as (H1 & H2 & H3 & H4 & H5).
  split; [exact H1|]. split; [exact H2|]. split; [exact H3|]. split; [exact H4|].
  split; [unfold sent_frames; rewrite H5; reflexivity|].
  assert (Hin : mname ∈ dom (materials (bpy w'))) by (rewrite H3; set_solver).
  apply elem_of_dom in Hin as [mat' Hmat'].
  exists mat'. unfold get_object_data.
  assert (Hty' : type o' = "MESH") by exact Hty.
  rewrite Hty'. cbn -[dict_set get_object_transform]. rewrite Hmat'.
  eexists. split; [reflexivity|]. split; [reflexivity|]. reflexivity.
Qed.

(* ====================================================================== *)
(** * The older add-on has no echo guard *)
(* ====================================================================== *)

Lemma apply_transform_v1_spec (e : string) (o : Object) (p sc : Vector)
  (x y z s : float) (w : World) :
  objects (bpy w) !! e = Some o ->
  let m := apply_transform_v1 (JStr e) (json_of_vector p)
             (JArr [JFloat x; JFloat y; JFloat z; JFloat s]) (json_of_vector sc) in
  eval m w = Ok tt /\
  objects (bpy (exec m w)) !! e = Some (transformed p (mkQuaternion x y z s) sc o) /\
  (forall n, n <> e -> objects (bpy (exec m w)) !! n = objects (bpy w) !! n) /\
  sync_state (exec m w) = sync_state w /\
  stdout (exec m w) = stdout w /\ clock (exec m w) = clock w /\
  ticks (exec m w) = ticks w.
Proof.
  intros Ho m. subst m. destruct p as [px py pz], sc as [sx sy sz].
  unfold eval, exec, apply_transform_v1, bind at 1 3 5 7 9 11 13, objects_get,
    bind at 1 2 3 4 5 6 7, get_bpy, ret. simpl. rewrite Ho.
  unfold bind, modify_state, update_object, modify_bpy, ret,
    quaternion_new, quaternion_of_seq, bind, ret, transformed.
  destruct (String.eqb (rotation_mode o) "QUATERNION") eqn:Hm; cbn;
    rewrite ?lookup_alter_eq, ?Ho; cbn; rewrite ?Hm;
    (repeat split; try reflexivity);
    try (intros n Hn; cbn; rewrite !lookup_alter_ne by congruence; reflexivity).
Qed.

(** X17.  The older add-on sends back what it receives.  [bisect_sync.py]
    has no echo guard: its [apply_transform] records nothing, so after a
    [transform] for a mesh has been applied, the next notification that
    passes the gate and reports the transform of that mesh writes a
    [transform] frame for it, although the change came from the wire. *)
Theorem v1_echoes_remote_transform (e : string) (o : Object) (p sc : Vector)
  (x y z s : float) (us : list DepsgraphUpdate) (u : DepsgraphUpdate) (w : World) :
  objects (bpy w) !! e = Some o ->
  type o = "MESH" ->
  gate_open w = true ->
  online w = true ->
  u ∈ us -> upd_id u = IdObject e -> is_updated_transform u = true ->
  let w1 := exec (apply_transform_v1 (JStr e) (json_of_vector p)
                    (JArr [JFloat x; JFloat y; JFloat z; JFloat s])
                    (json_of_vector sc)) w in
  let w2 := exec (depsgraph_update_handler_v1 us) w1 in
  sync_state w1 = sync_state w /\
  gate_open w1 = true /\
  exists out,
    sent_frames w2 = sent_frames w1 ++ out /\
    Exists (fun f => is_transform_for e f = true) out.
Proof.
  intros Ho Hty Hg Hon Hu Hid Hut w1 w2.
  destruct (apply_transform_v1_spec e o p sc x y z s w Ho)
    as (_ & Ho1 & _ & Hst & _ & Hck & Htk).
  fold w1 in Ho1, Hst, Hck, Htk.
  assert (Hg1 : gate_open w1 = true).
  { unfold gate_open, now in *. rewrite Hst, Hck, Htk. exact Hg. }
  split; [exact Hst|]. split; [exact Hg1|].
  subst w2. unfold exec at 1. rewrite handler_v1_cases, Hg1.
  assert (Hon1 : online (accepted w1) = true).
  { unfold online, accepted in *. cbn. rewrite Hst. exact Hon. }
  assert (Hfw : forwardable (bpy (accepted w1)) u = true).
  { unfold forwardable. rewrite Hid. cbn. rewrite Ho1. unfold transformed.
    destruct (String.eqb (rotation_mode o) "QUATERNION"); cbn; rewrite Hty, Hut;
      reflexivity. }
  destruct (scan_v1_emits us u e (accepted w1) Hon1 Hu Hid Hfw) as (out & Hf & Hex).
  exists out. split; [exact Hf|exact Hex].
Qed.

(* ====================================================================== *)
(** * The scene snapshot *)
(* ====================================================================== *)

Lemma forallb_map_ok {A : Type} (f : A -> json) (l : list A) :
  (forall x, json_ok (f x) = true) -> forallb json_ok (map f l) = true.
Proof.
  intros Hf. induction l as [|x l IH]; [reflexivity|].
  cbn [map forallb]. rewrite Hf, IH. reflexivity.
Qed.

Lemma json_ok_light_data (name : string) (o : Object) :
  json_ok (light_data name o) = true.
Proof.
  unfold light_data, get_object_transform. cbn [app]. rewrite json_ok_obj.
  cbn [map fst snd forallb].
  replace (bool_decide _) with true by (symmetry; vm_compute; reflexivity).
  cbn. rewrite forallb_json_ok_floats. reflexivity.
Qed.

Lemma json_ok_camera_data (name : string) (o : Object) :
  json_ok (camera_data name o) = true.
Proof.
  unfold camera_data, get_object_transform. cbn [app]. rewrite json_ok_obj.
  cbn [map fst snd forallb].
  replace (bool_decide _) with true by (symmetry; vm_compute; reflexivity).
  reflexivity.
Qed.

Lemma json_ok_material_data (name : string) (m : Material) :
  json_ok (material_data name m) = true.
Proof.
  unfold material_data.
  destruct (use_nodes m); [destruct (principled m) as [p|]|]; try reflexivity.
  cbn [app]. rewrite json_ok_obj. cbn [map fst snd forallb].
  replace (bool_decide _) with true by (symmetry; vm_compute; reflexivity).
  cbn. rewrite forallb_json_ok_floats. reflexivity.
Qed.

Lemma json_ok_object_data_v1 (name : string) (o : Object) :
  json_ok (object_data_v1 name o) = true.
Proof.
  unfold object_data_v1. rewrite json_ok_obj. cbn [map fst snd forallb].
  replace (bool_decide _) with true by (symmetry; vm_compute; reflexivity).
  cbn. destruct (parent o); reflexivity.
Qed.

Lemma json_ok_scene_payload (b : BlendData) : json_ok (scene_payload b) = true.
Proof.
  unfold scene_payload. rewrite json_ok_obj. cbn [map fst snd forallb].
  replace (bool_decide _) with true by (symmetry; vm_compute; reflexivity).
  cbn [json_ok andb].
  rewrite !forallb_map_ok; try reflexivity.
  all: intros [n x]; cbn [fst snd];
    first [ apply json_ok_object_data | apply json_ok_light_data
          | apply json_ok_camera_data | apply json_ok_material_data ].
Qed.

Lemma json_ok_scene_payload_v1 (b : BlendData) : json_ok (scene_payload_v1 b) = true.
Proof.
  unfold scene_payload_v1. rewrite json_ok_obj. cbn [map fst snd forallb json_ok andb].
  rewrite forallb_map_ok; [reflexivity|]. intros [n o]. apply json_ok_object_data_v1.
Qed.

Lemma send_scene_state_eq (w : World) :
  connected (sync_state w) = true ->
  send_scene_state w =
  (send_message SCENE_STATE (scene_payload (bpy w)) >>> print (scene_line (bpy w))) w.
Proof.
  intros Hc. unfold send_scene_state, bind at 1, get_state. rewrite Hc.
  cbn [negb]. unfold bind at 1, get_bpy. cbv beta iota.
  unfold scene_line, scene_payload. rewrite !length_map. reflexivity.
Qed.

Lemma send_scene_state_v1_spec (w : World) :
  exists w1,
    send_scene_state_v1 w = (Ok tt, w1) /\
    sent_frames w1 =
      sent_frames w ++
      (if online w then [frame_of SCENE_STATE (scene_payload_v1 (bpy w)) w] else []) /\
    (if online w then stdout w1 = stdout w ++ [scene_line_v1 (bpy w)]
     else stdout w1 = stdout w \/
          exists ex, stdout w1 = stdout w ++ [PrintError "Send error" ex]).
Proof.
  unfold send_scene_state_v1, bind at 1, get_state.
  destruct (connected (sync_state w)) eqn:Hc; cbn [negb orb].
  2: { eexists. split; [reflexivity|]. unfold online. rewrite Hc. cbn.
       rewrite app_nil_r. split; [reflexivity | left; reflexivity]. }
  destruct (ws (sync_state w)) as [app|] eqn:Hws.
  2: { rewrite bool_decide_eq_false_2 by (intros [? ?]; discriminate). cbn.
       eexists. split; [reflexivity|]. unfold online. rewrite Hc, Hws. cbn.
       rewrite app_nil_r. split; [reflexivity | left; reflexivity]. }
  rewrite bool_decide_eq_true_2 by eauto. cbn [negb].
  unfold bind at 1, get_bpy. cbv beta iota zeta.
  unfold bind at 1. rewrite create_message_spec.
  unfold try_except, ws_send, bind, get_state, modify_state, raise, print. cbn.
  rewrite Hws. unfold online, sent_frames. rewrite Hc, Hws. cbn.
  unfold scene_line_v1, scene_payload_v1. rewrite ?length_map.
  destruct (sock_connected app) eqn:Hsock; cbn.
  - eexists. split; [reflexivity|]. cbn. split; reflexivity.
  - eexists. split; [reflexivity|]. cbn. rewrite Hws, app_nil_r.
    split; [reflexivity|]. right. eexists. reflexivity.
Qed.

Lemma send_scene_state_v1_online (w : World) :
  online w = true ->
  let w' := exec send_scene_state_v1 w in
  eval send_scene_state_v1 w = Ok tt /\
  sent_frames w' = sent_frames w ++ [frame_of SCENE_STATE (scene_payload_v1 (bpy w)) w] /\
  stdout w' = stdout w ++ [scene_line_v1 (bpy w)].
Proof.
  intros Hon. destruct (send_scene_state_v1_spec w) as (w1 & E & Hf & Hout).
  unfold eval, exec. rewrite E. rewrite Hon in Hf, Hout. cbn.
  repeat split; assumption.
Qed.

Lemma send_scene_state_v1_offline (w : World) :
  online w = false ->
  let w' := exec send_scene_state_v1 w in
  eval send_scene_state_v1 w = Ok tt /\
  sent_frames w' = sent_frames w /\
  (stdout w' = stdout w \/ exists ex, stdout w' = stdout w ++ [PrintError "Send error" ex]).
Proof.
  intros Hoff. destruct (send_scene_state_v1_spec w) as (w1 & E & Hf & Hout).
  unfold eval, exec. rewrite E. rewrite Hoff in Hf, Hout. rewrite app_nil_r in Hf. cbn.
  repeat split; assumption.
Qed.

(** X12.  The scene snapshot and its log line.  In [bisect_sync_v2.py],
    [send_scene_state] does nothing when the connected flag is clear;
    otherwise it prints that the scene state was sent, with the number of
    meshes and of materials, whether or not a frame was written: when the
    add-on is online exactly one [scene_state] frame is written, whose
    [objects] are the data of the meshes and of them only, and when the
    socket is gone no frame is written and the line is printed all the
    same.  In the older [bisect_sync.py] the line is printed only after the
    send went through: offline, nothing is written and the log gets either
    nothing or the error of the failed send. *)
Theorem scene_state_log (w : World) :
  (connected (sync_state w) = false -> send_scene_state w = (Ok tt, w)) /\
  (connected (sync_state w) = true ->
   let w' := exec send_scene_state w in
   eval send_scene_state w = Ok tt /\
   last (stdout w') = Some (scene_line (bpy w)) /\
   (online w = false -> sent_frames w' = sent_frames w) /\
   (online w = true ->
    exists frame,
      sent_frames w' = sent_frames w ++ [frame] /\
      frame_type frame = Some (JStr "scene_state") /\
      frame_field "objects" frame =
        Some (JArr (map (fun no => get_object_data (bpy w) (fst no) (snd no))
                      (objects_of_type (bpy w) "MESH"))))) /\
  (online w = true ->
   let w' := exec send_scene_state_v1 w in
   stdout w' = stdout w ++ [scene_line_v1 (bpy w)] /\
   exists frame,
     sent_frames w' = sent_frames w ++ [frame] /\
     frame_type frame = Some (JStr "scene_state")) /\
  (online w = false ->
   let w' := exec send_scene_state_v1 w in
   sent_frames w' = sent_frames w /\
   (stdout w' = stdout w \/
    exists ex, stdout w' = stdout w ++ [PrintError "Send error" ex])).
Proof.
  split; [|split; [|split]].
  - intros Hc. unfold send_scene_state, bind, get_state. rewrite Hc. reflexivity.
  - intros Hc w'. subst w'. unfold eval, exec. rewrite (send_scene_state_eq w Hc).
    destruct (send_message_total SCENE_STATE (scene_payload (bpy w)) w) as (r & w1 & Hs).
    pose proof (send_message_scene_kept SCENE_STATE (scene_payload (bpy w)) w) as Hk.
    pose proof (send_message_not_online SCENE_STATE (scene_payload (bpy w)) w) as Hoff.
    pose proof (send_message_frame SCENE_STATE (scene_payload (bpy w)) w) as Hon.
    unfold exec, eval in Hk, Hoff, Hon. unfold bind, print. rewrite Hs in *. cbn in *.
    split; [reflexivity|]. split; [apply last_snoc|]. split; [exact Hoff|].
    intros Honl. destruct (Hon Honl) as (_ & Hf & _). eexists. split; [exact Hf|].
    unfold frame_of, frame_field.
    change (py_or (scene_payload (bpy w)) (JObj [])) with (scene_payload (bpy w)).
    rewrite frame_type_envelope, frame_payload_envelope by apply json_ok_scene_payload.
    split; reflexivity.
  - intros Hon w'. destruct (send_scene_state_v1_online w Hon) as (_ & Hf & Hout).
    split; [exact Hout|]. eexists. split; [exact Hf|].
    unfold frame_of.
    change (py_or (scene_payload_v1 (bpy w)) (JObj [])) with (scene_payload_v1 (bpy w)).
    apply frame_type_envelope, json_ok_scene_payload_v1.
  - intros Hoff w'. destruct (send_scene_state_v1_offline w Hoff) as (_ & Hf & Hout).
    split; [exact Hf | exact Hout].
Qed.
End Bisect.

(* ====================================================================== *)
(** * A concrete Blender *)
(* ====================================================================== *)

(** The floats with a whole value, written as Python writes them, and a
    Blender with two objects: enough to run the add-on. *)

Lemma span_digits_dot (d r : string) :
  all_digits d = true -> span_digits (d +:+ String "." r) = (d, String "." r).
Proof.
  intros Hd. induction d as [|c d IH]; [reflexivity|].
  simpl in Hd. apply andb_true_iff in Hd as [Hc Hd].
  rewrite append_cons. simpl. rewrite Hc, (IH Hd). reflexivity.
Qed.

Lemma all_digits_dot (d r : string) : all_digits (d +:+ String "." r) = false.
Proof.
  induction d as [|c d IH]; [reflexivity|].
  rewrite append_cons. simpl. rewrite IH. apply andb_false_r.
Qed.

Lemma is_nat_literal_dot (d r : string) :
  is_nat_literal (d +:+ String "." r) = false.
Proof.
  destruct d as [|c d]; [reflexivity|]. rewrite append_cons. simpl.
  destruct (Ascii.eqb c "0").
  - destruct d; reflexivity.
  - rewrite all_digits_dot. apply andb_false_r.
Qed.

(** The digits before the point, with the sign. *)
Definition whole_part (s : string) : string :=
  match s with
  | String c r =>
      if Ascii.eqb c "-" then String c (fst (span_digits r)) else fst (span_digits s)
  | EmptyString => EmptyString
  end.

Definition whole_repr (n : Z) : string := string_of_Z n +:+ ".0".

Lemma whole_repr_token (n : Z) : is_float_token (whole_repr n) = true.
Proof.
  unfold is_float_token, is_float_literal, whole_repr.
  pose proof (string_of_Z_int_literal n) as Hint.
  destruct (string_of_Z n) as [|c r]; [discriminate|].
  unfold is_int_literal in Hint. unfold is_number_literal, is_int_literal.
  rewrite append_cons.
  destruct (Ascii.eqb c "-") eqn:Hc.
  - rewrite span_digits_dot by (apply is_nat_literal_digits, Hint).
    rewrite Hint, is_nat_literal_dot. reflexivity.
  - rewrite <- append_cons.
    rewrite span_digits_dot by (apply is_nat_literal_digits, Hint).
    rewrite Hint, is_nat_literal_dot. reflexivity.
Qed.

Lemma whole_part_repr (n : Z) : whole_part (whole_repr n) = string_of_Z n.
Proof.
  unfold whole_repr, whole_part.
  pose proof (string_of_Z_int_literal n) as Hint.
  destruct (string_of_Z n) as [|c r]; [discriminate|].
  unfold is_int_literal in Hint. rewrite append_cons.
  destruct (Ascii.eqb c "-") eqn:Hc.
  - rewrite span_digits_dot by (apply is_nat_literal_digits, Hint). reflexivity.
  - rewrite <- append_cons.
    rewrite span_digits_dot by (apply is_nat_literal_digits, Hint). reflexivity.
Qed.

#[export] Instance whole_floats : PyFloat := {|
  float := Z;
  float_eq_dec := Z.eq_dec;
  float_of_Z := fun n => n;
  float_is_zero := fun n => Z.eqb n 0;
  float_repr := whole_repr;
  float_of_literal := fun s => Z_of_literal (whole_part s);
  float_repr_token := whole_repr_token;
  float_of_repr :=
    fun n => eq_trans (f_equal Z_of_literal (whole_part_repr n))
               (Z_of_literal_string_of_Z n);
|}.

Definition valid_name (name : string) : bool :=
  negb (String.eqb name EmptyString) && (String.length name <=? 63)%nat.

Definition fresh_name (name : string) (used : gset string) : string :=
  if valid_name name && bool_decide (name ∉ used) then name
  else stringmap.fresh_string_of_set "Object" used.

Lemma fresh_name_fresh (name : string) (used : gset string) :
  fresh_name name used ∉ used.
Proof.
  unfold fresh_name.
  destruct (valid_name name && bool_decide (name ∉ used)) eqn:H.
  - apply andb_true_iff in H as [_ H]. apply bool_decide_eq_true in H. exact H.
  - apply stringmap.fresh_string_of_set_fresh.
Qed.

Lemma fresh_name_free (name : string) (used : gset string) :
  name <> EmptyString -> (String.length name <= 63)%nat -> name ∉ used ->
  fresh_name name used = name.
Proof.
  intros Hne Hlen Hfree. unfold fresh_name, valid_name.
  apply String.eqb_neq in Hne. apply Nat.leb_le in Hlen.
  rewrite Hne, Hlen, bool_decide_eq_true_2 by exact Hfree. reflexivity.
Qed.

(** The conversions between rotations stand in for Blender's: the model has
    no trigonometry. *)
#[export] Instance small_blender : Blender := {|
  to_quaternion := fun e => mkQuaternion 1 (eul_x e) (eul_y e) (eul_z e);
  to_euler := fun q => mkEuler (quat_x q) (quat_y q) (quat_z q);
  exp_map := fun v => mkQuaternion 1 (vec_x v) (vec_y v) (vec_z v);
  unique_name := fresh_name;
  unique_name_fresh := fresh_name_fresh;
  unique_name_free := fresh_name_free;
|}.

Definition zero_vector : Vector := mkVector 0 0 0.
Definition unit_vector : Vector := mkVector 1 1 1.

Definition cube : Object :=
  mkObject "MESH" zero_vector "QUATERNION" (mkQuaternion 1 0 0 0) (mkEuler 0 0 0)
    unit_vector None true false [] [] false EmptyString [] 0 0
    (Some PRIMITIVE_CUBE).

Definition lamp : Object :=
  mkObject "LIGHT" (mkVector 4 1 6) "XYZ" (mkQuaternion 1 0 0 0) (mkEuler 0 0 0)
    unit_vector None true false [] [] false "POINT" [1; 1; 1] 1000 0 None.

Definition scene : BlendData :=
  mkBlendData (<["Cube" := cube]> (<["Lamp" := lamp]> ∅)) ∅ None.

(** A client that has joined the session [scene42]; the clock gives a
    second more at each reading. *)
Definition joined_state : BisectSyncState :=
  mkState (Some (mkWebSocketApp true [])) true "scene42" (JStr "c1") [] true 0 ∅ ∅.

Definition seconds (n : nat) : Q := inject_Z (1000 + Z.of_nat n).

Definition joined : World := mkWorld joined_state scene [] seconds 0.

(** The same client with a clock that gives a 128th of a second, about
    eight milliseconds, more at each reading. *)
Definition quick_clock (n : nat) : Q := (128000 + Z.of_nat n) # 128.

Definition joined_fast : World := mkWorld joined_state scene [] quick_clock 0.

(** A client before [connect]. *)
Definition fresh : World := mkWorld initial_state scene [] seconds 0.

(** The same client on 14 November 2023: the clock reads the double
    nearest to 1700000000.123 and gives a 128th of a second more at each
    reading. *)
Definition late_clock (n : nat) : Q :=
  (7130316800515899 # 4194304) + (Z.of_nat n # 128).

Definition late : World := mkWorld joined_state scene [] late_clock 0.

(** The name Würfel in UTF-8: its second letter takes two bytes. *)
Definition wuerfel : string :=
  String "W" (String (byte_of 195) (String (byte_of 188) "rfel")).

Definition moved (name : string) : DepsgraphUpdate := mkUpdate (IdObject name) true.

Definition identity_xyzw : json := JArr [JInt 0; JInt 0; JInt 0; JInt 1].

(** A second mesh, a material with a principled node, and a scene in which
    the ball is the active object. *)
Definition ball : Object :=
  mkObject "MESH" (mkVector 2 0 0) "XYZ" (mkQuaternion 1 0 0 0) (mkEuler 0 0 0)
    unit_vector None true false [] [] false EmptyString [] 0 0
    (Some PRIMITIVE_UV_SPHERE).

Definition red_node : Principled := mkPrincipled [1; 0; 0; 1] 0 0.

Definition red : Material := mkMaterial true (Some red_node) [1; 0; 0; 1].

Definition green_node : Principled :=
  mkPrincipled [0; 1; 0; float_of_literal "1.0"] 0 0.

Definition far_vector : Vector := mkVector 1 2 3.

Definition studio : BlendData :=
  mkBlendData (<["Cube" := cube]> (<["Ball" := ball]> ∅)) (<["Red" := red]> ∅)
    (Some "Ball").

Definition in_studio : World := mkWorld joined_state studio [] seconds 0.

(** The joined client after the user has picked the cube. *)
Definition picked : World :=
  upd_bpy (set_objects (<["Cube" := set_selected true cube]> (objects scene))) joined.

(** Frames a peer could send. *)
Definition select_frame : string :=
  dumps (envelope OBJECT_SELECT "scene42" 5
           (JObj [("objectIds", JArr [JStr "Cube"; JStr "Ghost"])])).

Definition ping_frame : string := dumps (envelope PING "scene42" 5 (JObj [])).

Definition green_update : string :=
  dumps (envelope MATERIAL_UPDATE "scene42" 5
           (JObj [("materialId", JStr "Red");
                  ("properties",
                    JObj [("color", JArr [JInt 0; JInt 1; JInt 0; JInt 0])])])).

(* ====================================================================== *)
(** * The theorems at work *)
(* ====================================================================== *)

(** A decidable proposition about a concrete world, by evaluation. *)
Ltac by_eval :=
  lazymatch goal with
  | |- @eq bool _ _ => vm_compute; reflexivity
  | |- @eq (list string) _ _ => vm_compute; reflexivity
  | |- _ => reflexivity
  end.

Ltac by_decision :=
  lazymatch goal with
  | |- ~ ?P => apply (bool_decide_eq_false_1 P); vm_compute; reflexivity
  | |- ?P => apply (bool_decide_eq_true_1 P); vm_compute; reflexivity
  end.

(** The names a concrete notification lists are not in a concrete echo
    guard. *)
Ltac by_decision_in H :=
  repeat (apply elem_of_cons in H as [-> | H]; [by_decision|]);
  apply elem_of_nil in H; contradiction.

Definition remote_move (name : string) : M unit :=
  apply_transform (JStr name) (JArr [JInt 1; JInt 2; JInt 3]) identity_xyzw
    (JArr [JInt 1; JInt 1; JInt 1]).

(** Echo suppression for the cube: a remote move, its echo, and then a move
    of the user's. *)
Lemma echo_suppression_witness :
  let w1 := exec (remote_move "Cube") joined in
  let w2 := exec (depsgraph_update_handler [moved "Cube"]) w1 in
  let w3 := exec (depsgraph_update_handler [moved "Cube"]) w2 in
  "Cube" ∈ ignore_next_update (sync_state w1) /\
  (exists out, sent_frames w2 = sent_frames w1 ++ out /\
               Forall (fun f => is_transform_for "Cube" f = false) out) /\
  ("Cube" ∉ ignore_next_update (sync_state w2)) /\
  (exists out, sent_frames w3 = sent_frames w2 ++ out /\
               Exists (fun f => is_transform_for "Cube" f = true) out).
Proof.
  unfold remote_move.
  apply (echo_suppression "Cube" cube (JArr [JInt 1; JInt 2; JInt 3]) identity_xyzw
           (JArr [JInt 1; JInt 1; JInt 1]) [moved "Cube"] [moved "Cube"]
           (moved "Cube") joined
           (exec (depsgraph_update_handler [moved "Cube"])
              (exec (apply_transform (JStr "Cube") (JArr [JInt 1; JInt 2; JInt 3])
                       identity_xyzw (JArr [JInt 1; JInt 1; JInt 1])) joined))).
  - by_eval.
  - by_eval.
  - apply NoDup_singleton.
  - apply list_elem_of_here.
  - by_eval.
  - by_eval.
  - by_decision.
  - apply list_elem_of_here.
  - reflexivity.
  - by_eval.
Defined.

(** The property as the specification words it fails for an entity that is not
    a mesh: the remote move of the lamp is applied and its echo is
    suppressed, but the move of the user's that follows, with the gate open
    and the add-on online, writes nothing. *)
Lemma echo_suppression_light_counterexample :
  let w1 := exec (remote_move "Lamp") joined in
  let w2 := exec (depsgraph_update_handler [moved "Lamp"]) w1 in
  let w3 := exec (depsgraph_update_handler [moved "Lamp"]) w2 in
  objects (bpy joined) !! "Lamp" = Some lamp /\
  "Lamp" ∈ ignore_next_update (sync_state w1) /\
  gate_open w1 = true /\
  ("Lamp" ∉ ignore_next_update (sync_state w2)) /\
  gate_open w2 = true /\ online w2 = true /\
  ~ Exists (fun f => is_transform_for "Lamp" f = true) (sent_frames w3).
Proof.
  intros w1 w2 w3.
  split; [by_eval|].
  split; [by_decision|].
  split; [by_eval|].
  split; [by_decision|].
  split; [by_eval|].
  split; [by_eval|].
  assert (H : sent_frames w3 = []) by (by_eval).
  rewrite H. intros HE. inversion HE.
Qed.

(** A notification for the cube that passes the gate and writes its
    transform, and one less than the interval later, which is refused. *)
Lemma rate_gate_witness :
  let w2 := exec (depsgraph_update_handler [moved "Cube"]) joined_fast in
  gate_open joined_fast = true /\
  Exists (fun f => is_transform_for "Cube" f = true)
    (scan_frames [moved "Cube"] (accepted joined_fast)) /\
  sent_frames w2 =
    sent_frames joined_fast ++ scan_frames [moved "Cube"] (accepted joined_fast) /\
  gate_open w2 = false /\
  sent_frames (exec (depsgraph_update_handler [moved "Cube"]) w2) = sent_frames w2.
Proof.
  intros w2.
  destruct (proj1 (proj2 (proj2 (proj2 rate_gate))) [moved "Cube"] joined_fast)
    as (Hopen & Hsent & Hemit & _).
  - reflexivity.
  - apply Qle_bool_iff. vm_compute. reflexivity.
  - assert (Hclosed : gate_open w2 = false).
    { apply (proj1 (proj2 rate_gate) [moved "Cube"] [] joined_fast Hopen).
      by_eval. }
    split; [exact Hopen|]. split.
    { apply (Hemit ltac:(by_eval)) with (u := moved "Cube").
      - intros n Hn. by_decision_in Hn.
      - apply list_elem_of_here.
      - reflexivity.
      - by_eval. }
    split; [exact Hsent|]. split; [exact Hclosed|].
    apply (proj1 (proj1 rate_gate [moved "Cube"] w2 Hclosed)).
Defined.

(** The property as the specification words it fails for a notification
    that reports no transform of a mesh: with the add-on online, the
    interval elapsed and the echo guard empty, the notification for the lamp
    passes the gate, moves the time of the last accepted batch, and writes
    nothing. *)
Lemma rate_gate_light_counterexample :
  let w' := exec (depsgraph_update_handler [moved "Lamp"]) joined in
  online joined = true /\
  (sync_interval <= now joined - last_sync_time (sync_state joined))%Q /\
  ignore_next_update (sync_state joined) = ∅ /\
  gate_open joined = true /\
  last_sync_time (sync_state w') = now joined /\
  last_sync_time (sync_state w') <> last_sync_time (sync_state joined) /\
  sent_frames w' = sent_frames joined /\
  sent_frames w' = [].
Proof.
  intros w'.
  split; [by_eval|].
  split; [apply Qle_bool_iff; vm_compute; reflexivity|].
  split; [reflexivity|].
  split; [by_eval|].
  split; [reflexivity|].
  split; [discriminate|].
  split; by_eval.
Qed.

(** The identity rotation [0, 0, 0, 1] applied by the two add-ons. *)
Lemma quaternion_convention_witness :
  let rotation := JArr [JFloat 0; JFloat 0; JFloat 0; JFloat 1] in
  let w2 := exec (apply_transform (JStr "Cube") (json_of_vector zero_vector) rotation
                    (json_of_vector unit_vector)) joined in
  let w1 := exec (apply_transform_v1 (JStr "Cube") (json_of_vector zero_vector) rotation
                    (json_of_vector unit_vector)) joined in
  (exists o2, objects (bpy w2) !! "Cube" = Some o2 /\
              rotation_quaternion o2 = mkQuaternion 1 0 0 0) /\
  (exists o1, objects (bpy w1) !! "Cube" = Some o1 /\
              rotation_quaternion o1 = mkQuaternion 0 0 0 1).
Proof.
  intros rotation w2 w1.
  destruct (quaternion_convention "Cube" cube zero_vector unit_vector 0 0 0 1 joined)
    as [(o2 & Ho2 & H2) [o1 [Ho1 H1]]]; [by_eval|].
  split.
  - exists o2. split; [exact Ho2 | exact (proj1 H2)].
  - exists o1. split; [exact Ho1 | exact (proj1 H1)].
Defined.

(** The older add-on on the failing input: the identity rotation of the
    wire becomes a half turn about z. *)
Lemma apply_transform_v1_identity :
  let w1 := exec (apply_transform_v1 (JStr "Cube") (JArr [JInt 0; JInt 0; JInt 0])
                    identity_xyzw (JArr [JInt 1; JInt 1; JInt 1])) joined in
  rotation_quaternion <$> objects (bpy w1) !! "Cube" = Some (mkQuaternion 0 0 0 1) /\
  rotation_quaternion <$> objects (bpy joined) !! "Cube" = Some (mkQuaternion 1 0 0 0).
Proof. split; by_eval. Qed.

(** The first frame of a client that joins [scene42]. *)
Lemma join_handshake_witness :
  let w3 := exec (on_open "scene42")
              (exec socket_up (exec (start_connection "scene42") fresh)) in
  exists frame,
    sent_frames w3 = [frame] /\
    loads frame = Some (envelope JOIN "scene42" 1000000 (join_payload "scene42")).
Proof.
  destruct (join_handshake "scene42" fresh) as (_ & _ & _ & frame & Hs & Hl & _);
    [reflexivity|].
  exists frame. split; [exact Hs | exact Hl].
Defined.

(** The envelope of the specification's scenario: no timestamp, and the
    client type [host]. *)
Definition join_envelope_of_spec (sid : string) : json :=
  JObj [("type", JStr "join"); ("sessionId", JStr sid);
        ("payload", JObj [("sessionId", JStr sid); ("clientType", JStr "host")])].

(** The first frame on the wire is not that envelope: the client type is
    [blender] and the envelope has a timestamp. *)
Lemma join_handshake_counterexample :
  let w3 := exec (on_open "scene42")
              (exec socket_up (exec (start_connection "scene42") fresh)) in
  exists frame,
    sent_frames w3 = [frame] /\
    loads frame <> Some (join_envelope_of_spec "scene42") /\
    frame_field "clientType" frame = Some (JStr "blender") /\
    frame_field "clientType" frame <> Some (JStr "host") /\
    frame_timestamp frame = Some (JInt 1000000).
Proof.
  eexists. split; [by_eval|].
  match goal with
  | |- loads ?f <> _ /\ _ =>
      assert (Hl : loads f
                   = Some (envelope JOIN "scene42" 1000000 (join_payload "scene42")))
        by reflexivity
  end.
  unfold frame_field, frame_payload, frame_timestamp. rewrite Hl.
  repeat split; try reflexivity; discriminate.
Qed.

(** A [transform] that the relay hands back to its sender. *)
Definition own_transform : string :=
  dumps (envelope TRANSFORM "scene42" 5
           (JObj [("objectId", JStr "Cube"); ("position", JArr [JInt 9; JInt 9; JInt 9]);
                  ("_senderType", JStr "blender")])).

Lemma self_echo_discarded_witness :
  process_message own_transform joined = (Ok tt, joined) /\
  process_frame own_transform [] joined = (Ok tt, upd_state (set_message_queue []) joined).
Proof.
  apply (self_echo_discarded own_transform
           [("type", JStr TRANSFORM); ("sessionId", JStr "scene42");
            ("timestamp", JInt 5);
            ("payload",
              JObj [("objectId", JStr "Cube");
                    ("position", JArr [JInt 9; JInt 9; JInt 9]);
                    ("_senderType", JStr "blender")])]
           [("objectId", JStr "Cube"); ("position", JArr [JInt 9; JInt 9; JInt 9]);
            ("_senderType", JStr "blender")]).
  - by_eval.
  - reflexivity.
  - reflexivity.
Defined.

(** A [transform] for an object called Würfel, encoded when the clock
    reads 1700000000.123: the name, whose second letter takes two bytes,
    comes back as it was, and the timestamp is 1700000000123. *)
Lemma encode_decode_roundtrip_witness :
  exists frame,
    create_message TRANSFORM (Some (JObj [("objectId", JStr wuerfel)])) None late
      = (Ok frame, tick late) /\
    frame_type frame = Some (JStr TRANSFORM) /\
    frame_session frame = Some (JStr "scene42") /\
    frame_payload frame = Some (JObj [("objectId", JStr wuerfel)]) /\
    frame_timestamp frame = Some (JInt 1700000000123).
Proof.
  destruct (encode_decode_roundtrip TRANSFORM [("objectId", JStr wuerfel)] None late)
    as (frame & Hc & _ & Ht & Hs & Hp & Hts & _); [by_eval|].
  exists frame.
  assert (E : millis (now late) = 1700000000123) by (vm_compute; reflexivity).
  rewrite E in Hts. repeat split; assumption.
Defined.

(** The queue of the specification's scenario: a frame that is not JSON,
    then a [transform] for the cube. *)
Definition cube_transform : string :=
  dumps (envelope TRANSFORM "scene42" 5
           (JObj [("objectId", JStr "Cube"); ("position", JArr [JInt 9; JInt 9; JInt 9])])).

Lemma malformed_frame_skipped_witness :
  let w := upd_state (set_message_queue ["{not json"; cube_transform]) joined in
  let w' := exec process_incoming_messages w in
  stdout w' = [PrintError "Message processing error" JSONDecodeError] /\
  location <$> objects (bpy w') !! "Cube" = Some (mkVector 9 9 9) /\
  message_queue (sync_state w') = [].
Proof.
  intros w w'.
  pose proof (proj1 (proj2 (proj2 (proj2 malformed_frame_skipped)))
                [] "{not json" [cube_transform] w) as H.
  split; [|split].
  - subst w'. unfold process_incoming_messages, exec, bind, get_state.
    change (message_queue (sync_state w)) with ([] ++ "{not json" :: [cube_transform]).
    rewrite H by (by_eval). by_eval.
  - subst w'. unfold process_incoming_messages, exec, bind, get_state.
    change (message_queue (sync_state w)) with ([] ++ "{not json" :: [cube_transform]).
    rewrite H by (by_eval). by_eval.
  - apply (proj2 (proj2 (proj2 (proj2 malformed_frame_skipped)))).
Defined.

(** A frame that is a JSON object without [type] is skipped, and nothing is
    printed for it. *)
Lemma malformed_frame_counterexample :
  let w := upd_state (set_message_queue ["{}"]) joined in
  loads "{}" = Some (JObj []) /\
  frame_type "{}" = None /\
  eval process_incoming_messages w = Ok tt /\
  stdout (exec process_incoming_messages w) = [] /\
  stdout (exec process_incoming_messages
            (upd_state (set_message_queue ["{not json"]) joined))
    = [PrintError "Message processing error" JSONDecodeError].
Proof. repeat split; by_eval. Qed.


Lemma send_fails_fast_witness :
  let w1 := exec (on_error WebSocketConnectionClosedException) joined in
  send_message TRANSFORM (transform_payload "Cube" cube) w1 = (Ok false, w1).
Proof.
  exact (proj2 (proj1 (proj2 (proj2 (send_fails_fast TRANSFORM
           (transform_payload "Cube" cube))))
           WebSocketConnectionClosedException joined)).
Defined.

(** A remote move of the cube, a notification eight milliseconds after an
    accepted one, and then a move of the user's a notification later: the
    guard still holds the cube and the move is not sent. *)
Lemma echo_guard_survives_closed_gate_witness :
  let w1 := exec (depsgraph_update_handler []) joined_fast in
  let w2 := exec (remote_move "Cube") w1 in
  let w3 := exec (depsgraph_update_handler [moved "Cube"]) w2 in
  gate_open w2 = false /\
  ignore_next_update (sync_state w3) = ignore_next_update (sync_state w2) /\
  "Cube" ∈ ignore_next_update (sync_state w3).
Proof.
  intros w1 w2 w3.
  assert (Hclosed : gate_open w2 = false) by (by_eval).
  pose proof (proj1 (proj2 (echo_guard_survives_closed_gate "Cube"))
                [moved "Cube"] w2 Hclosed) as H.
  split; [exact Hclosed|]. split; [exact H|].
  fold w3 in H. rewrite H. by_decision.
Defined.

(* ====================================================================== *)
(** * The further properties at work *)
(* ====================================================================== *)

(** A second connect while the first thread is alive keeps the session [scene42]. *)
Lemma start_connection_once_witness :
  let w1 := exec (start_connection "scene42") fresh in
  start_connection "other" w1 = (Ok false, w1) /\
  session_id (sync_state (exec (start_connection "other") w1)) = "scene42".
Proof.
  destruct (proj2 (start_connection_once "scene42" "other" fresh))
    as (_ & _ & _ & H1 & H2); [reflexivity|].
  split; [exact H1 | exact H2].
Defined.

(** A [ping] from the relay has no effect. *)
Lemma unhandled_types_ignored_witness :
  process_message ping_frame joined = (Ok tt, joined).
Proof.
  apply (proj1 unhandled_types_ignored ping_frame
           [("type", JStr PING); ("sessionId", JStr "scene42");
            ("timestamp", JInt 5); ("payload", JObj [])] PING joined).
  - by_eval.
  - reflexivity.
  - by_decision.
  - right. eexists. reflexivity.
Defined.

(** The cube, moved by a peer, arrives where the peer put it. *)
Lemma transform_wire_roundtrip_witness :
  let o := set_location far_vector cube in
  let frame := frame_of TRANSFORM (transform_payload "Cube" o) joined in
  let w2 := exec (process_message frame) joined in
  sent_frames (exec (send_transform "Cube" o) joined) = sent_frames joined ++ [frame] /\
  (exists o2, objects (bpy w2) !! "Cube" = Some o2 /\ location o2 = far_vector) /\
  "Cube" ∈ ignore_next_update (sync_state w2).
Proof.
  intros o frame w2.
  destruct (transform_wire_roundtrip "Cube" o cube joined joined)
    as (Hs & _ & (o2 & Ho2 & Hl & _) & _ & Hg & _); [by_eval | by_eval |].
  split; [exact Hs|]. split; [|exact Hg].
  exists o2. split; [exact Ho2 | exact Hl].
Defined.

(** A rotation of two components: the cube is moved and the call raises. *)
Lemma transform_not_atomic_witness :
  let m := apply_transform (JStr "Cube") (json_of_vector far_vector)
             (JArr [JInt 0; JInt 0]) (JArr [JInt 2; JInt 2; JInt 2]) in
  eval m joined = Raise IndexError /\
  objects (bpy (exec m joined)) !! "Cube" = Some (set_location far_vector cube) /\
  "Cube" ∈ ignore_next_update (sync_state (exec m joined)).
Proof.
  intros m.
  destruct (transform_not_atomic "Cube" cube far_vector [JInt 0; JInt 0]
              (JArr [JInt 2; JInt 2; JInt 2]) joined) as (He & Ho & Hg & _).
  - by_eval.
  - simpl. lia.
  - split; [exact He|]. split; [exact Ho | exact Hg].
Defined.

(** A selection that names the cube and an object that does not exist. *)
Lemma object_select_applied_witness :
  let w' := exec (process_message select_frame) joined in
  eval (process_message select_frame) joined = Ok tt /\
  selection (bpy w') = list_to_set ["Cube"; "Ghost"] ∩ dom (objects (bpy joined)) /\
  sent_frames w' = sent_frames joined.
Proof.
  intros w'.
  destruct (object_select_applied select_frame
              [("type", JStr OBJECT_SELECT); ("sessionId", JStr "scene42");
               ("timestamp", JInt 5);
               ("payload", JObj [("objectIds", JArr [JStr "Cube"; JStr "Ghost"])])]
              [("objectIds", JArr [JStr "Cube"; JStr "Ghost"])]
              ["Cube"; "Ghost"] joined) as (He & _ & Hsel & _ & Hs & _).
  - by_eval.
  - reflexivity.
  - reflexivity.
  - by_eval.
  - reflexivity.
  - split; [exact He|]. split; [exact Hsel | exact Hs].
Defined.

(** The tick after the user has picked the cube sends the selection. *)
Lemma timer_selection_sync_witness :
  let w1 := exec timer_callback picked in
  selected_objects (sync_state w1) = selection (bpy picked) /\
  exists frame,
    sent_frames w1 = sent_frames picked ++ [frame] /\
    frame_type frame = Some (JStr "object_select").
Proof.
  intros w1.
  destruct (timer_selection_sync picked) as (Hsel & _ & _ & _ & Hsend & _);
    [reflexivity|].
  split; [exact Hsel|].
  destruct Hsend as (frame & Hs & Ht & _); [by_decision | by_eval |].
  exists frame. split; [exact Hs | exact Ht].
Defined.

(** The tick that takes a peer's selection from the queue sends it back. *)
Lemma remote_selection_echoed_witness :
  let w := upd_state (set_message_queue [select_frame]) joined in
  let w1 := exec timer_callback w in
  exists frame,
    sent_frames w1 = sent_frames w ++ [frame] /\
    frame_type frame = Some (JStr "object_select").
Proof.
  intros w w1.
  destruct (remote_selection_echoed select_frame
              [("type", JStr OBJECT_SELECT); ("sessionId", JStr "scene42");
               ("timestamp", JInt 5);
               ("payload", JObj [("objectIds", JArr [JStr "Cube"; JStr "Ghost"])])]
              [("objectIds", JArr [JStr "Cube"; JStr "Ghost"])]
              ["Cube"; "Ghost"] w) as (_ & _ & frame & Hs & Ht & _).
  - reflexivity.
  - by_eval.
  - reflexivity.
  - reflexivity.
  - by_eval.
  - reflexivity.
  - by_eval.
  - by_decision.
  - exists frame. split; [exact Hs | exact Ht].
Defined.

(** The delete command for the cube. *)
Lemma delete_command_removes_witness :
  let w' := exec (handle_ai_execute (delete_command [("objectId", JStr "Cube")])) joined in
  objects (bpy w') !! "Cube" = None /\
  exists frame,
    sent_frames w' = sent_frames joined ++ [frame] /\
    frame_type frame = Some (JStr "object_delete") /\
    frame_field "objectId" frame = Some (JStr "Cube").
Proof.
  intros w'.
  destruct (delete_command_removes [("objectId", JStr "Cube")] "Cube" cube joined)
    as (_ & Ho & _ & Hf & _); [reflexivity | by_eval | by_eval |].
  split; [exact Ho | exact Hf].
Defined.

(** The subdivide command for the cube, with three levels. *)
Lemma subdivide_command_witness :
  let params := [("objectId", JStr "Cube"); ("modifier", JStr "subdivide");
                 ("levels", JInt 3)] in
  let w' := exec (handle_ai_execute (modify_command params)) joined in
  active_object (bpy w') = Some "Cube" /\
  (exists md,
     mod_type md = "SUBSURF" /\ mod_levels md = 3 /\
     objects (bpy w') !! "Cube" = Some (set_modifiers (modifiers cube ++ [md]) cube)) /\
  sent_frames w' = sent_frames joined.
Proof.
  intros params w'.
  destruct (subdivide_command params "Cube" "subdivide" cube 3 joined)
    as (_ & Ha & Hm & _ & _ & Hs).
  - reflexivity.
  - reflexivity.
  - by_eval.
  - reflexivity.
  - lia.
  - by_eval.
  - reflexivity.
  - split; [exact Ha|]. split; [exact Hm | exact Hs].
Defined.

(** The bevel command for the cube while the ball is active. *)
Lemma bevel_goes_to_active_object_witness :
  let params := [("objectId", JStr "Cube"); ("modifier", JStr "bevel")] in
  let w' := exec (handle_ai_execute (modify_command params)) in_studio in
  eval (handle_ai_execute (modify_command params)) in_studio = Raise IndexError /\
  objects (bpy w') !! "Cube" = Some cube /\
  exists md,
    mod_type md = "BEVEL" /\
    objects (bpy w') !! "Ball" = Some (set_modifiers (modifiers ball ++ [md]) ball).
Proof.
  intros params w'.
  destruct (bevel_goes_to_active_object params "Cube" "Ball" "bevel" cube ball
              (float_of_literal "0.1") in_studio) as (He & Ho & Hm & _).
  - reflexivity.
  - reflexivity.
  - by_eval.
  - reflexivity.
  - by_eval.
  - reflexivity.
  - reflexivity.
  - reflexivity.
  - discriminate.
  - by_eval.
  - reflexivity.
  - split; [exact He|]. split; [exact Ho | exact Hm].
Defined.

(** The material [Red], which exists, assigned to the cube. *)
Lemma apply_material_assigns_witness :
  let w' := exec (apply_material (JStr "Cube") (JObj [("name", JStr "Red")])) in_studio in
  objects (bpy w') !! "Cube" = Some (set_obj_materials [Some "Red"] cube) /\
  sent_frames w' = sent_frames in_studio.
Proof.
  intros w'.
  destruct (apply_material_assigns "Cube" "Red" cube [("name", JStr "Red")] in_studio)
    as (Ho & _ & _ & _ & Hs & _).
  - by_eval.
  - reflexivity.
  - reflexivity.
  - by_eval.
  - split; [|exact Hs]. etransitivity; [exact Ho|]. by_eval.
Defined.

(** An update that turns the material [Red] green. *)
Lemma material_update_color_witness :
  let w' := exec (process_message green_update) in_studio in
  eval (process_message green_update) in_studio = Ok tt /\
  materials (bpy w') !! "Red" =
    Some (mkMaterial true (Some green_node) (diffuse_color red)) /\
  objects (bpy w') = objects (bpy in_studio).
Proof.
  intros w'.
  destruct (material_update_color green_update
              [("type", JStr MATERIAL_UPDATE); ("sessionId", JStr "scene42");
               ("timestamp", JInt 5);
               ("payload",
                 JObj [("materialId", JStr "Red");
                       ("properties",
                         JObj [("color", JArr [JInt 0; JInt 1; JInt 0; JInt 0])])])]
              [("materialId", JStr "Red");
               ("properties", JObj [("color", JArr [JInt 0; JInt 1; JInt 0; JInt 0])])]
              [("color", JArr [JInt 0; JInt 1; JInt 0; JInt 0])]
              "Red" red red_node
              (JInt 0) (JInt 1) (JInt 0) [JInt 0] 0 1 0 in_studio)
    as (He & Hm & _ & Ho & _).
  - by_eval.
  - reflexivity.
  - reflexivity.
  - by_eval.
  - reflexivity.
  - reflexivity.
  - by_eval.
  - reflexivity.
  - reflexivity.
  - reflexivity.
  - reflexivity.
  - reflexivity.
  - reflexivity.
  - reflexivity.
  - reflexivity.
  - split; [exact He|]. split; [exact Hm | exact Ho].
Defined.

(** The snapshot of the scene of a client that is online. *)
Lemma scene_state_log_witness :
  let w' := exec send_scene_state joined in
  last (stdout w') = Some (scene_line (bpy joined)) /\
  exists frame,
    sent_frames w' = sent_frames joined ++ [frame] /\
    frame_type frame = Some (JStr "scene_state").
Proof.
  intros w'.
  destruct (proj1 (proj2 (scene_state_log joined))) as (_ & Hl & _ & Hon);
    [reflexivity|].
  split; [exact Hl|].
  destruct Hon as (frame & Hs & Ht & _); [by_eval|].
  exists frame. split; [exact Hs | exact Ht].
Defined.

(** The older add-on sends a peer's move of the cube back. *)
Lemma v1_echoes_remote_transform_witness :
  let w1 := exec (apply_transform_v1 (JStr "Cube") (json_of_vector far_vector)
                    (JArr [JFloat 0; JFloat 0; JFloat 0; JFloat 1])
                    (json_of_vector unit_vector)) joined in
  let w2 := exec (depsgraph_update_handler_v1 [moved "Cube"]) w1 in
  exists out,
    sent_frames w2 = sent_frames w1 ++ out /\
    Exists (fun f => is_transform_for "Cube" f = true) out.
Proof.
  intros w1 w2.
  destruct (v1_echoes_remote_transform "Cube" cube far_vector unit_vector
              0 0 0 1 [moved "Cube"] (moved "Cube") joined) as (_ & _ & H).
  - by_eval.
  - reflexivity.
  - by_eval.
  - by_eval.
  - apply list_elem_of_here.
  - reflexivity.
  - reflexivity.
  - exact H.
Defined.
